(** * NVM programming engine of the UPDI4AVR programmer firmware

    A shallow embedding of [NVM.cpp] (namespace [NVM]): the status waiter,
    the command arbiter, the generation writers for flash, EEPROM and fuses,
    the read core with the signature emulator, and the write dispatcher.

    The firmware talks to the target through the [UPDI::] transport and to
    the host through the [JTAG2::] packet buffer.  Both live outside
    [NVM.cpp]; here every call that leaves the file is recorded in a trace,
    and the answers of the target are taken from an arbitrary reply sequence
    [wire], so that a statement proved for every [wire] holds for every
    behaviour of the target. *)

From Stdlib Require Import ZArith List Bool Lia.
Import ListNotations.
Local Open Scope Z_scope.

(** ** Machine integers *)

Definition u8 (z : Z) : Z := z mod 256.
Definition u16 (z : Z) : Z := z mod 65536.
Definition u32 (z : Z) : Z := z mod 4294967296.

(** [bit_is_set(reg, bp)] and [bit_is_clear(reg, bp)] of avr-libc. *)
Definition bit_is_set (reg bp : Z) : bool := Z.testbit reg bp.
Definition bit_is_clear (reg bp : Z) : bool := negb (Z.testbit reg bp).

(** ** Constants of the absent header

    [Prototypes.h] is not part of the sources at hand, so the register
    addresses, controller opcodes, response codes, packet offsets, bit
    positions and feature switches it defines are parameters of the model.
    The memory-type tokens are the exception: [NVM.cpp] gives their values
    in its comments. *)

Record Header := {
  NVMCTRL_REG_STATUS : Z;
  NVMCTRL_V3_REG_STATUS : Z;
  NVMCTRL_REG_CTRLA : Z;
  NVMCTRL_REG_DATA : Z;
  NVM_CMD_NOCMD : Z;
  NVM_CMD_WFU : Z;
  NVM_CMD_ERWP : Z;
  NVM_CMD_PBC : Z;
  NVM_V2_CMD_NOCMD : Z;
  NVM_V2_CMD_EEERWR : Z;
  NVM_V2_CMD_FLPER : Z;
  NVM_V2_CMD_FLWR : Z;
  NVM_V3_CMD_EEPBCLR : Z;
  NVM_V3_CMD_EEPERW : Z;
  NVM_V3_CMD_FLPER : Z;
  NVM_V3_CMD_FLPBCLR : Z;
  NVM_V3_CMD_FLPW : Z;
  RSP_OK : Z;
  RSP_MEMORY : Z;
  RSP_ILLEGAL_MEMORY_RANGE : Z;
  RSP_ILLEGAL_MEMORY_TYPE : Z;
  RSP_NO_TARGET_POWER : Z;
  MESSAGE_ID : Z;
  RSP_DATA : Z;
  MEM_TYPE : Z;
  DATA_LENGTH : Z;
  DATA_ADDRESS : Z;
  DATA_START : Z;
  MTYPE_SIGN_JTAG : Z;
  UPDI_PROG_bp : Z;
  UPDI_INFO_bp : Z;
  UPDI_ERFM_bp : Z;
  UPDI_GEN2_bp : Z;
  UPDI_GEN3_bp : Z;
  UPDI_GEN5_bp : Z;
  ENABLE_ADDFEATS_LOCK_SIG : bool;
  ENABLE_ADDFEATS_DUMP_SIB : bool
}.

(** Memory-type tokens, with the values of the comments of [write_memory]. *)
Definition MTYPE_SRAM : Z := 0x20.
Definition MTYPE_EEPROM : Z := 0x22.
Definition MTYPE_FLASH_PAGE : Z := 0xB0.
Definition MTYPE_EEPROM_PAGE : Z := 0xB1.
Definition MTYPE_FUSE_BITS : Z := 0xB2.
Definition MTYPE_LOCK_BITS : Z := 0xB3.
Definition MTYPE_XMEGA_APP_FLASH : Z := 0xC0.
Definition MTYPE_XMEGA_BOOT_FLASH : Z := 0xC1.
Definition MTYPE_XMEGA_EEPROM : Z := 0xC4.
Definition MTYPE_XMEGA_USERSIG : Z := 0xC5.

(** ** Calls that leave [NVM.cpp] *)

(** A transport request, with the bytes a block store sends. *)
Inductive Call :=
| CLd8 (addr : Z)
| CSt8 (addr val : Z)
| CLds8 (addr len : Z)
| CLds16 (addr len : Z)
| CSts8 (addr : Z) (bytes : list Z) (len : Z)
| CSts8rsd (addr : Z) (bytes : list Z) (len : Z)
| CSts16rsd (addr : Z) (bytes : list Z) (len : Z)
| CWriteUserrow (addr : Z) (bytes : list Z) (len : Z).

(** What the target answers: whether the transaction completed, the byte
    of a single load, the bytes of a block load. *)
Record Reply := { ok : bool; val : Z; payload : list Z }.

(** The two counted loops of the file, for the iteration marks below. *)
Inductive Loop := DummyFill | FuseBytes.

(** [Wire] is a transport call with its reply, [Delay50us] is
    [TIM::delay_50us], [SetResponse] is [set_response]; [Iter] is a ghost
    mark put at the head of every iteration of a counted loop, carrying the
    value of the counter at that moment. *)
Inductive Event :=
| Wire (c : Call) (r : Reply)
| Delay50us
| SetResponse (code : Z)
| Iter (l : Loop) (cnt : Z).

Definition is_store (c : Call) : bool :=
  match c with
  | CSt8 _ _ | CSts8 _ _ _ | CSts8rsd _ _ _ | CSts16rsd _ _ _
  | CWriteUserrow _ _ _ => true
  | _ => false
  end.

(** Every transport call of a trace, in order. *)
Fixpoint calls (evs : list Event) : list Call :=
  match evs with
  | [] => []
  | Wire c _ :: evs' => c :: calls evs'
  | _ :: evs' => calls evs'
  end.

(** The store transactions of a trace, each with its success flag. *)
Fixpoint writes (evs : list Event) : list (Call * bool) :=
  match evs with
  | [] => []
  | Wire c r :: evs' =>
      if is_store c then (c, ok r) :: writes evs' else writes evs'
  | _ :: evs' => writes evs'
  end.

Definition stores (evs : list Event) : list Call := map fst (writes evs).

(** The response codes handed to [set_response], in order. *)
Fixpoint responses (evs : list Event) : list Z :=
  match evs with
  | [] => []
  | SetResponse c :: evs' => c :: responses evs'
  | _ :: evs' => responses evs'
  end.

(** The counter values seen at the head of the iterations of loop [l]. *)
Definition Loop_eqb (a b : Loop) : bool :=
  match a, b with
  | DummyFill, DummyFill | FuseBytes, FuseBytes => true
  | _, _ => false
  end.

Fixpoint iterations (l : Loop) (evs : list Event) : list Z :=
  match evs with
  | [] => []
  | Iter l' c :: evs' =>
      if Loop_eqb l l' then c :: iterations l evs' else iterations l evs'
  | _ :: evs' => iterations l evs'
  end.

(** The value of the last single-byte load of a trace. *)
Fixpoint last_load (evs : list Event) : option Z :=
  match evs with
  | [] => None
  | Wire (CLd8 _) r :: evs' =>
      match last_load evs' with Some v => Some v | None => Some (u8 (val r)) end
  | _ :: evs' => last_load evs'
  end.

(** The bytes read from register [reg] by single-byte loads, in order. *)
Fixpoint reads (reg : Z) (evs : list Event) : list Z :=
  match evs with
  | [] => []
  | Wire (CLd8 a) r :: evs' =>
      if a =? reg then u8 (val r) :: reads reg evs' else reads reg evs'
  | _ :: evs' => reads reg evs'
  end.

(** ** Machine state

    [trace] and [clock] are the record of what has left the file and the
    number of replies taken from the target so far.  The other fields are
    the globals [NVM.cpp] reads and writes: the register [UPDI_LASTL], the
    flag bytes [UPDI_CONTROL] and [UPDI_NVMCTRL], [JTAG2::packet] and
    [JTAG2::updi_desc].  Arrays are maps from index to cell; their
    declared lengths are in the absent header and are not modelled. *)

Record St := {
  trace : list Event;
  clock : nat;
  UPDI_LASTL : Z;
  UPDI_CONTROL : Z;
  UPDI_NVMCTRL : Z;
  size_word0 : Z;
  body : Z -> Z;
  flash_page_size : Z;
  sib : Z -> Z;
  signature : Z -> Z;
  nvm_signature_offset : Z
}.

Definition log (evs : list Event) (s : St) : St :=
  {| trace := trace s ++ evs; clock := clock s;
     UPDI_LASTL := UPDI_LASTL s; UPDI_CONTROL := UPDI_CONTROL s;
     UPDI_NVMCTRL := UPDI_NVMCTRL s; size_word0 := size_word0 s;
     body := body s; flash_page_size := flash_page_size s; sib := sib s;
     signature := signature s;
     nvm_signature_offset := nvm_signature_offset s |}.

Definition tick (s : St) : St :=
  {| trace := trace s; clock := S (clock s);
     UPDI_LASTL := UPDI_LASTL s; UPDI_CONTROL := UPDI_CONTROL s;
     UPDI_NVMCTRL := UPDI_NVMCTRL s; size_word0 := size_word0 s;
     body := body s; flash_page_size := flash_page_size s; sib := sib s;
     signature := signature s;
     nvm_signature_offset := nvm_signature_offset s |}.

Definition set_lastl (v : Z) (s : St) : St :=
  {| trace := trace s; clock := clock s;
     UPDI_LASTL := v; UPDI_CONTROL := UPDI_CONTROL s;
     UPDI_NVMCTRL := UPDI_NVMCTRL s; size_word0 := size_word0 s;
     body := body s; flash_page_size := flash_page_size s; sib := sib s;
     signature := signature s;
     nvm_signature_offset := nvm_signature_offset s |}.

Definition set_size_word0 (v : Z) (s : St) : St :=
  {| trace := trace s; clock := clock s;
     UPDI_LASTL := UPDI_LASTL s; UPDI_CONTROL := UPDI_CONTROL s;
     UPDI_NVMCTRL := UPDI_NVMCTRL s; size_word0 := v;
     body := body s; flash_page_size := flash_page_size s; sib := sib s;
     signature := signature s;
     nvm_signature_offset := nvm_signature_offset s |}.

Definition set_body (b : Z -> Z) (s : St) : St :=
  {| trace := trace s; clock := clock s;
     UPDI_LASTL := UPDI_LASTL s; UPDI_CONTROL := UPDI_CONTROL s;
     UPDI_NVMCTRL := UPDI_NVMCTRL s; size_word0 := size_word0 s;
     body := b; flash_page_size := flash_page_size s; sib := sib s;
     signature := signature s;
     nvm_signature_offset := nvm_signature_offset s |}.

Definition set_signature (g : Z -> Z) (s : St) : St :=
  {| trace := trace s; clock := clock s;
     UPDI_LASTL := UPDI_LASTL s; UPDI_CONTROL := UPDI_CONTROL s;
     UPDI_NVMCTRL := UPDI_NVMCTRL s; size_word0 := size_word0 s;
     body := body s; flash_page_size := flash_page_size s; sib := sib s;
     signature := g;
     nvm_signature_offset := nvm_signature_offset s |}.

Definition set_nvm_signature_offset (v : Z) (s : St) : St :=
  {| trace := trace s; clock := clock s;
     UPDI_LASTL := UPDI_LASTL s; UPDI_CONTROL := UPDI_CONTROL s;
     UPDI_NVMCTRL := UPDI_NVMCTRL s; size_word0 := size_word0 s;
     body := body s; flash_page_size := flash_page_size s; sib := sib s;
     signature := signature s;
     nvm_signature_offset := v |}.

(** Array cells hold bytes. *)
Definition poke (m : Z -> Z) (i v : Z) : Z -> Z :=
  fun j => if j =? i then u8 v else m j.

Fixpoint blit (m : Z -> Z) (i : Z) (bytes : list Z) : Z -> Z :=
  match bytes with
  | [] => m
  | b :: bytes' => blit (poke m i b) (i + 1) bytes'
  end.

Definition peek (m : Z -> Z) (i : Z) : Z := u8 (m i).

(** The [len] bytes a pointer into an array designates. *)
Definition bytes_at (m : Z -> Z) (p len : Z) : list Z :=
  map (fun k => peek m (p + Z.of_nat k)) (seq 0 (Z.to_nat len)).

(** ** The monad of the embedding

    A computation takes the state and gives a result and the next state.
    [None] is a loop still running when its fuel is used up: the
    busy-wait of [nvm_wait], which has no timeout, or a counted loop. *)

Definition M (A : Type) : Type := St -> option (A * St).

Definition ret {A} (x : A) : M A := fun s => Some (x, s).

Definition bind {A B} (m : M A) (k : A -> M B) : M B :=
  fun s => match m s with
           | Some (x, s1) => k x s1
           | None => None
           end.

Definition spinning {A} : M A := fun _ => None.
Definition gets {A} (f : St -> A) : M A := fun s => Some (f s, s).
Definition modify (f : St -> St) : M unit := fun s => Some (tt, f s).

Declare Scope nvm_scope.
Delimit Scope nvm_scope with nvm.
Notation "x <- m ;; k" := (bind m (fun x => k))
  (at level 61, m at next level, right associativity) : nvm_scope.
Notation "m ;; k" := (bind m (fun _ => k))
  (at level 61, right associativity) : nvm_scope.
Local Open Scope nvm_scope.

Definition emit (e : Event) : M unit := modify (log [e]).

Module NVM.

Section Firmware.

Context (hd : Header).

(** The target: the reply to the [n]-th transport call. *)
Context (wire : nat -> Reply).

(** *** Collaborators

    The transport primitives of [UPDI::], the delay of [TIM::] and
    [set_response] are declared in the absent [Prototypes.h]; each call is
    recorded with its arguments. *)

(** Modelled from the spec: a transport call, which completes or signals
    a communication failure; it takes the next reply of the target. *)
Definition transact (c : Call) : M Reply :=
  fun s => let r := wire (clock s) in Some (r, log [Wire c r] (tick s)).

(** Modelled from the spec: [UPDI::ld8], the single-byte load.  The waiter
    returns the last status byte read, so the load leaves its byte in
    [UPDI_LASTL]. *)
Definition ld8 (addr : Z) : M Z :=
  r <- transact (CLd8 addr) ;;
  modify (set_lastl (u8 (val r))) ;;
  ret (u8 (val r)).

(** Modelled from the spec: [UPDI::st8], the single-byte store. *)
Definition st8 (addr val : Z) : M bool :=
  r <- transact (CSt8 addr (u8 val)) ;; ret (ok r).

(** Modelled from the spec: [UPDI::sts8], [UPDI::sts8rsd] and
    [UPDI::sts16rsd], the block stores, and [UPDI::write_userrow]. *)
Definition sts8 (addr : Z) (bytes : list Z) (len : Z) : M bool :=
  r <- transact (CSts8 addr bytes len) ;; ret (ok r).

Definition sts8rsd (addr : Z) (bytes : list Z) (len : Z) : M bool :=
  r <- transact (CSts8rsd addr bytes len) ;; ret (ok r).

Definition sts16rsd (addr : Z) (bytes : list Z) (len : Z) : M bool :=
  r <- transact (CSts16rsd addr bytes len) ;; ret (ok r).

Definition write_userrow (addr : Z) (bytes : list Z) (len : Z) : M bool :=
  r <- transact (CWriteUserrow addr bytes len) ;; ret (ok r).

(** Where a block load writes: into the packet body or into the cached
    signature, from cell [p] on. *)
Inductive Dest := ToBody (p : Z) | ToSignature (p : Z).

Definition deliver (d : Dest) (bytes : list Z) : M unit :=
  match d with
  | ToBody p => modify (fun s => set_body (blit (body s) p bytes) s)
  | ToSignature p =>
      modify (fun s => set_signature (blit (signature s) p bytes) s)
  end.

(** Modelled from the spec: [UPDI::lds8] and [UPDI::lds16], the block
    loads.  The bytes received, at most [len] of them, are written through
    the destination pointer. *)
Definition lds8 (addr : Z) (d : Dest) (len : Z) : M bool :=
  r <- transact (CLds8 addr len) ;;
  deliver d (firstn (Z.to_nat len) (payload r)) ;;
  ret (ok r).

Definition lds16 (addr : Z) (d : Dest) (len : Z) : M bool :=
  r <- transact (CLds16 addr len) ;;
  deliver d (firstn (Z.to_nat len) (payload r)) ;;
  ret (ok r).

(** Modelled from the spec: [TIM::delay_50us], the fixed delay. *)
Definition delay_50us : M unit := emit Delay50us.

(** Modelled from the spec: [set_response], which stores a result code in
    the response buffer, in the cell where [read_memory] stores
    [RSP_MEMORY]. *)
Definition set_response (code : Z) : M unit :=
  emit (SetResponse code) ;;
  modify (fun s => set_body (poke (body s) (MESSAGE_ID hd) code) s).

(** *** NVMCTRL operation *)

(** The loop of [nvm_wait] and [nvm_wait_v3] on status register [reg]:
    [while (UPDI::ld8(reg) & 3) TIM::delay_50us(); return UPDI_LASTL;]
    with at most [fuel] polls.  The send-pointer bookkeeping of
    [ENABLE_DEBUG_UPDI_SENDER] is left out. *)
Fixpoint poll (reg : Z) (fuel : nat) : M Z :=
  match fuel with
  | O => spinning
  | S fuel' =>
      v <- ld8 reg ;;
      if Z.land v 3 =? 0 then gets UPDI_LASTL
      else (delay_50us ;; poll reg fuel')
  end.

Definition nvm_wait (fuel : nat) : M Z := poll (NVMCTRL_REG_STATUS hd) fuel.

Definition nvm_wait_v3 (fuel : nat) : M Z :=
  poll (NVMCTRL_V3_REG_STATUS hd) fuel.

Definition nvm_ctrl (nvmcmd : Z) : M bool :=
  st8 (NVMCTRL_REG_CTRLA hd) nvmcmd.

(** [nvmcmd] is a [uint8_t] parameter. *)
Definition nvm_ctrl_change (nvmcmd : Z) : M bool :=
  let nvmcmd := u8 nvmcmd in
  c <- ld8 (NVMCTRL_REG_CTRLA hd) ;;
  if c =? nvmcmd then ret true
  else
    b <- nvm_ctrl (NVM_CMD_NOCMD hd) ;;
    if negb b then ret false
    else if negb (NVM_CMD_NOCMD hd =? nvmcmd) then nvm_ctrl nvmcmd
    else ret true.

Definition nvm_ctrl_v2 (fuel : nat) (nvmcmd : Z) : M bool :=
  nvm_wait fuel ;; nvm_ctrl_change nvmcmd.

Definition nvm_ctrl_v3 (fuel : nat) (nvmcmd : Z) : M bool :=
  nvm_wait_v3 fuel ;; nvm_ctrl_change nvmcmd.

(** *** FUSE region write (NVMCTRL version 0 only) *)

(** [struct fuse_packet_t { uint16_t data; uint16_t addr; }] as the four
    bytes the block store sends, low byte first as on the AVR. *)
Definition fuse_packet (addr data : Z) : list Z :=
  [u8 data; 0; u16 addr mod 256; u16 addr / 256].

Definition write_fuse (fuel : nat) (addr data : Z) : M bool :=
  nvm_wait fuel ;;
  b <- sts8 (NVMCTRL_REG_DATA hd) (fuse_packet addr data) 4 ;;
  if negb b then ret false
  else
    b <- nvm_ctrl (NVM_CMD_WFU hd) ;;
    if negb b then ret false
    else
      v <- nvm_wait fuel ;;
      ret (Z.land v 7 =? 0).


(** *** Pointers into the packet body

    [data] is a pointer into [JTAG2::packet.body], kept as the index of the
    cell it designates: [deref] is [*data], [block] the bytes a block
    store reads through it. *)

Definition deref (data : Z) : M Z := gets (fun s => peek (body s) data).

Definition block (data len : Z) : M (list Z) :=
  gets (fun s => bytes_at (body s) data len).

(** *** EEPROM region word type writing

    [byte_count] is a [size_t], 16 bits wide on the AVR. *)

Definition write_eeprom_v3 (start_addr data byte_count : Z) : M bool :=
  if 8 <? byte_count then
    set_response (RSP_ILLEGAL_MEMORY_RANGE hd) ;; ret true
  else
    b <- nvm_ctrl (NVM_V3_CMD_EEPBCLR hd) ;;
    if negb b then ret false
    else
      (if byte_count =? 1 then v <- deref data ;; st8 start_addr v
       else bs <- block data byte_count ;; sts8 start_addr bs byte_count) ;;
      nvm_ctrl (NVM_V3_CMD_EEPERW hd).

Definition write_eeprom_v2 (fuel : nat) (start_addr data byte_count : Z)
  : M bool :=
  if 2 <? byte_count then
    set_response (RSP_ILLEGAL_MEMORY_RANGE hd) ;; ret true
  else
    b <- nvm_ctrl_v2 fuel (NVM_V2_CMD_EEERWR hd) ;;
    if negb b then ret false
    else
      (if byte_count =? 1 then v <- deref data ;; st8 start_addr v
       else bs <- block data byte_count ;; sts8 start_addr bs byte_count) ;;
      nvm_ctrl_v2 fuel (NVM_V2_CMD_NOCMD hd).

Definition write_eeprom_v0 (fuel : nat) (start_addr data byte_count : Z)
  : M bool :=
  if 64 <? byte_count then
    set_response (RSP_ILLEGAL_MEMORY_RANGE hd) ;; ret true
  else
    nvm_wait fuel ;;
    (if byte_count =? 1 then v <- deref data ;; st8 start_addr v
     else bs <- block data byte_count ;; sts8rsd start_addr bs byte_count) ;;
    nvm_ctrl (NVM_CMD_ERWP hd).

(** *** Flash region word type writing *)

Definition write_flash_v3 (fuel : nat) (start_addr data byte_count : Z)
  (is_bound : bool) : M bool :=
  nvm_wait_v3 fuel ;;
  armed <- (if is_bound then
              b <- st8 start_addr 0xFF ;;
              if negb b then ret false
              else nvm_ctrl (NVM_V3_CMD_FLPER hd)
            else nvm_ctrl (NVM_V3_CMD_FLPBCLR hd)) ;;
  if negb armed then ret false
  else
    nvm_wait_v3 fuel ;;
    (if byte_count =? 1 then v <- deref data ;; st8 start_addr v
     else bs <- block data byte_count ;; sts8rsd start_addr bs byte_count) ;;
    nvm_ctrl (NVM_V3_CMD_FLPW hd).

Definition write_flash_v2 (fuel : nat) (start_addr data byte_count : Z)
  (is_bound : bool) : M bool :=
  erased <- (if is_bound then
               b <- nvm_ctrl_v2 fuel (NVM_V2_CMD_FLPER hd) ;;
               if negb b then ret false
               else st8 start_addr 0xFF
             else ret true) ;;
  if negb erased then ret false
  else
    b <- nvm_ctrl_v2 fuel (NVM_V2_CMD_FLWR hd) ;;
    if negb b then ret false
    else
      (if byte_count =? 1 then v <- deref data ;; st8 start_addr v
       else if negb (Z.shiftr (u16 (byte_count - 1)) 8 =? 0) then
         bs <- block data byte_count ;; sts16rsd start_addr bs byte_count
       else bs <- block data byte_count ;; sts8rsd start_addr bs byte_count) ;;
      nvm_ctrl_v2 fuel (NVM_V2_CMD_NOCMD hd).

Definition write_flash_v0 (fuel : nat) (start_addr data byte_count : Z)
  (is_bound : bool) : M bool :=
  cleared <- (if is_bound then
                nvm_wait fuel ;; nvm_ctrl (NVM_CMD_PBC hd)
              else ret true) ;;
  if negb cleared then ret false
  else
    nvm_wait fuel ;;
    (if byte_count =? 1 then v <- deref data ;; st8 start_addr v
     else bs <- block data byte_count ;; sts8rsd start_addr bs byte_count) ;;
    nvm_ctrl (NVM_CMD_ERWP hd).

(** *** Signature reading

    [start_addr] is a [uint16_t] parameter and [idx] a [uint8_t].  The
    dump of [ENABLE_ADDFEATS_LOCK_SIG_DEBUGOUT] copies the descriptor by
    its memory layout and is left out. *)

Definition read_signature (start_addr : Z) : M bool :=
  let start_addr := u16 start_addr in
  nvmctrl <- gets UPDI_NVMCTRL ;;
  control <- gets UPDI_CONTROL ;;
  (if start_addr =?
        (if bit_is_set nvmctrl (UPDI_GEN5_bp hd) then 0x1080 else 0x1100)
   then
     modify (set_nvm_signature_offset start_addr) ;;
     if bit_is_set control (UPDI_PROG_bp hd) then
       b <- lds8 start_addr (ToSignature 0) 3 ;;
       if negb b then
         modify (fun s => set_signature (blit (signature s) 0 [0; 0; 0]) s)
       else ret tt
     else if bit_is_set control (UPDI_INFO_bp hd) then
       modify (fun s =>
         let c := peek (sib s) 0 in
         let c := if c =? 32 then peek (sib s) 4 else c in
         set_signature (blit (signature s) 0 [0x1E; c; peek (sib s) 10]) s)
     else
       modify (fun s =>
         set_signature (blit (signature s) 0 [0xFF; 0xFF; 0xFF]) s)
   else ret tt) ;;
  offset <- gets nvm_signature_offset ;;
  let idx := u8 (start_addr - offset) in
  if idx <? 3 then
    modify (fun s =>
      set_body (poke (body s) (RSP_DATA hd) (peek (signature s) idx)) s) ;;
    ret true
  else ret false.

(** *** Memory reading core *)

(** [do { *data++ = 0xFF; } while (--byte_count);] *)
Fixpoint dummy_fill (fuel : nat) (data byte_count : Z) : M bool :=
  match fuel with
  | O => spinning
  | S fuel' =>
      emit (Iter DummyFill byte_count) ;;
      modify (fun s => set_body (poke (body s) data 0xFF) s) ;;
      let byte_count := u16 (byte_count - 1) in
      if negb (byte_count =? 0) then dummy_fill fuel' (data + 1) byte_count
      else ret true
  end.

Definition read_memory (fuel : nat) (start_addr byte_count : Z) : M bool :=
  modify (fun s => set_body (poke (body s) (MESSAGE_ID hd) (RSP_MEMORY hd)) s) ;;
  let data := RSP_DATA hd in
  if (byte_count =? 0) || (512 <? byte_count)
     || ((256 <? byte_count) && negb (Z.land byte_count 1 =? 0)) then
    set_response (RSP_ILLEGAL_MEMORY_RANGE hd) ;; ret true
  else
    modify (set_size_word0 (u16 (byte_count + 1))) ;;
    let ordinary : M bool :=
      control <- gets UPDI_CONTROL ;;
      if bit_is_clear control (UPDI_PROG_bp hd) then
        dummy_fill fuel data byte_count
      else if negb (Z.shiftr (u16 (byte_count - 1)) 8 =? 0) then
        lds16 start_addr (ToBody data) byte_count
      else
        lds8 start_addr (ToBody data) byte_count in
    if byte_count =? 1 then
      mem_type <- gets (fun s => peek (body s) (MEM_TYPE hd)) ;;
      control <- gets UPDI_CONTROL ;;
      if ENABLE_ADDFEATS_LOCK_SIG hd && (mem_type =? MTYPE_SIGN_JTAG hd) then
        read_signature (u16 start_addr)
      else if ENABLE_ADDFEATS_DUMP_SIB hd
              && bit_is_set control (UPDI_PROG_bp hd)
              && (Z.land (u8 (Z.shiftr start_addr 16)) 0x80 =? 0)
              && (u16 start_addr <? 32) then
        modify (fun s =>
          set_body (poke (body s) data (peek (sib s) (u8 start_addr))) s) ;;
        ret true
      else ordinary
    else ordinary.

(** *** NVM write core *)

(** [_CAPS16(x)->word] and [_CAPS32(x)->dword]: the little-endian word and
    double word that start at a cell of the body. *)
Definition word_at (m : Z -> Z) (p : Z) : Z :=
  peek m p + 256 * peek m (p + 1).

Definition dword_at (m : Z -> Z) (p : Z) : Z :=
  peek m p + 256 * peek m (p + 1) + 65536 * peek m (p + 2)
  + 16777216 * peek m (p + 3).

(** [do { if (!write_fuse(start_addr++, *data++)) return false; }
     while (--byte_count);] followed by the [break] that leads to
    [return true].  [fuel] bounds the iterations, [wfuel] the polls of
    each wait. *)
Fixpoint fuse_loop (fuel wfuel : nat) (start_addr data byte_count : Z)
  : M bool :=
  match fuel with
  | O => spinning
  | S fuel' =>
      emit (Iter FuseBytes byte_count) ;;
      v <- deref data ;;
      b <- write_fuse wfuel start_addr v ;;
      if negb b then ret false
      else
        let byte_count := u16 (byte_count - 1) in
        if negb (byte_count =? 0) then
          fuse_loop fuel' wfuel (u32 (start_addr + 1)) (data + 1) byte_count
        else ret true
  end.

(** The locals of [write_memory] after the IO-area override. *)
Definition request_start_addr (s : St) : Z :=
  let start_addr := dword_at (body s) (DATA_ADDRESS hd) in
  if negb (Z.shiftr start_addr 24 =? 0) then Z.land start_addr 0xFFFF
  else start_addr.

Definition request_mem_type (s : St) : Z :=
  let start_addr := dword_at (body s) (DATA_ADDRESS hd) in
  if negb (Z.shiftr start_addr 24 =? 0) then MTYPE_SRAM
  else peek (body s) (MEM_TYPE hd).

Definition request_byte_count (s : St) : Z :=
  word_at (body s) (DATA_LENGTH hd).

Definition is_flash_type (mem_type : Z) : bool :=
  (mem_type =? MTYPE_FLASH_PAGE) || (mem_type =? MTYPE_XMEGA_APP_FLASH)
  || (mem_type =? MTYPE_XMEGA_BOOT_FLASH).

Definition is_fuse_type (mem_type : Z) : bool :=
  (mem_type =? MTYPE_LOCK_BITS) || (mem_type =? MTYPE_FUSE_BITS).

Definition is_eeprom_type (mem_type : Z) : bool :=
  (mem_type =? MTYPE_XMEGA_EEPROM) || (mem_type =? MTYPE_EEPROM_PAGE)
  || (mem_type =? MTYPE_EEPROM).

Definition write_memory (fuel : nat) : M bool :=
  mem_type <- gets request_mem_type ;;
  byte_count <- gets request_byte_count ;;
  start_addr <- gets request_start_addr ;;
  let data := DATA_START hd in
  set_response (RSP_OK hd) ;;
  control <- gets UPDI_CONTROL ;;
  nvmctrl <- gets UPDI_NVMCTRL ;;
  page <- gets flash_page_size ;;
  if bit_is_set control (UPDI_INFO_bp hd)
     && (mem_type =? MTYPE_XMEGA_USERSIG) then
    bs <- block data byte_count ;; write_userrow start_addr bs byte_count
  else if bit_is_clear control (UPDI_PROG_bp hd) then ret false
  else if is_flash_type mem_type then
    if negb (page =? byte_count) && negb (256 =? byte_count) then
      set_response (RSP_NO_TARGET_POWER hd) ;; ret true
    else
      let is_bound :=
        bit_is_clear control (UPDI_ERFM_bp hd)
        && (Z.land (page - 1) (u16 start_addr) =? 0) in
      if bit_is_set nvmctrl (UPDI_GEN3_bp hd) then
        write_flash_v3 fuel start_addr data byte_count is_bound
      else if bit_is_set nvmctrl (UPDI_GEN2_bp hd) then
        write_flash_v2 fuel start_addr data byte_count is_bound
      else
        write_flash_v0 fuel start_addr data byte_count is_bound
  else if (byte_count =? 0) || (256 <? byte_count) then
    set_response (RSP_ILLEGAL_MEMORY_RANGE hd) ;; ret true
  else
    let eeprom : M bool :=
      if bit_is_set nvmctrl (UPDI_GEN3_bp hd) then
        write_eeprom_v3 start_addr data byte_count
      else if bit_is_set nvmctrl (UPDI_GEN2_bp hd) then
        write_eeprom_v2 fuel start_addr data byte_count
      else
        write_eeprom_v0 fuel start_addr data byte_count in
    if mem_type =? MTYPE_SRAM then
      bs <- block data byte_count ;; sts8 start_addr bs byte_count
    else if is_fuse_type mem_type then
      if bit_is_clear nvmctrl (UPDI_GEN3_bp hd)
         && bit_is_clear nvmctrl (UPDI_GEN2_bp hd) then
        fuse_loop fuel fuel start_addr data byte_count
      else eeprom
    else if is_eeprom_type mem_type then eeprom
    else set_response (RSP_ILLEGAL_MEMORY_TYPE hd) ;; ret true.

End Firmware.

End NVM.

(** * Properties *)

(** ** The three generations

    The writers are picked by two bits of [UPDI_NVMCTRL], the Gen3 bit
    first, as [write_memory] does. *)

Inductive Generation := Gen0 | Gen2_4 | Gen3_5.

Definition generation_of (hd : Header) (nvmctrl : Z) : Generation :=
  if bit_is_set nvmctrl (UPDI_GEN3_bp hd) then Gen3_5
  else if bit_is_set nvmctrl (UPDI_GEN2_bp hd) then Gen2_4
  else Gen0.

Definition write_eeprom (hd : Header) (wire : nat -> Reply) (g : Generation)
  (fuel : nat) (start_addr data byte_count : Z) : M bool :=
  match g with
  | Gen3_5 => NVM.write_eeprom_v3 hd wire start_addr data byte_count
  | Gen2_4 => NVM.write_eeprom_v2 hd wire fuel start_addr data byte_count
  | Gen0 => NVM.write_eeprom_v0 hd wire fuel start_addr data byte_count
  end.

Definition write_flash (hd : Header) (wire : nat -> Reply) (g : Generation)
  (fuel : nat) (start_addr data byte_count : Z) (is_bound : bool) : M bool :=
  match g with
  | Gen3_5 => NVM.write_flash_v3 hd wire fuel start_addr data byte_count is_bound
  | Gen2_4 => NVM.write_flash_v2 hd wire fuel start_addr data byte_count is_bound
  | Gen0 => NVM.write_flash_v0 hd wire fuel start_addr data byte_count is_bound
  end.

(** The bulk ceiling of each EEPROM writer. *)
Definition eeprom_ceiling (g : Generation) : Z :=
  match g with Gen0 => 64 | Gen2_4 => 2 | Gen3_5 => 8 end.

(** ** A sample header and sample targets

    Values to run the model on, in the style of the device data sheets
    (opcodes, registers) and of the JTAGICE mkII protocol (codes, packet
    offsets); the bit positions are picked freely.  No general statement
    below depends on them. *)

Definition sample_header : Header :=
  {| NVMCTRL_REG_STATUS := 0x1002; NVMCTRL_V3_REG_STATUS := 0x1006;
     NVMCTRL_REG_CTRLA := 0x1000; NVMCTRL_REG_DATA := 0x1006;
     NVM_CMD_NOCMD := 0; NVM_CMD_WFU := 7; NVM_CMD_ERWP := 3;
     NVM_CMD_PBC := 4;
     NVM_V2_CMD_NOCMD := 0; NVM_V2_CMD_EEERWR := 0x13;
     NVM_V2_CMD_FLPER := 8; NVM_V2_CMD_FLWR := 2;
     NVM_V3_CMD_EEPBCLR := 0x1F; NVM_V3_CMD_EEPERW := 0x15;
     NVM_V3_CMD_FLPER := 8; NVM_V3_CMD_FLPBCLR := 0x0F;
     NVM_V3_CMD_FLPW := 4;
     RSP_OK := 0x80; RSP_MEMORY := 0x82;
     RSP_ILLEGAL_MEMORY_RANGE := 0xA5; RSP_ILLEGAL_MEMORY_TYPE := 0xA4;
     RSP_NO_TARGET_POWER := 0xAB;
     MESSAGE_ID := 0; RSP_DATA := 1; MEM_TYPE := 1; DATA_LENGTH := 2;
     DATA_ADDRESS := 6; DATA_START := 10;
     MTYPE_SIGN_JTAG := 0xB4;
     UPDI_PROG_bp := 3; UPDI_INFO_bp := 2; UPDI_ERFM_bp := 4;
     UPDI_GEN2_bp := 1; UPDI_GEN3_bp := 2; UPDI_GEN5_bp := 3;
     ENABLE_ADDFEATS_LOCK_SIG := true; ENABLE_ADDFEATS_DUMP_SIB := true |}.

Definition reply_ok (v : Z) : Reply := {| ok := true; val := v; payload := [] |}.
Definition reply_fail : Reply := {| ok := false; val := 0; payload := [] |}.

(** A target that is idle, reads zero everywhere and acknowledges all. *)
Definition quiet_wire : nat -> Reply := fun _ => reply_ok 0.

(** A target whose replies are scripted; afterwards it is quiet. *)
Definition scripted (rs : list Reply) : nat -> Reply :=
  fun n => nth n rs (reply_ok 0).

(** A state with an empty trace and the given flags, page size and body. *)
Definition initial (control nvmctrl page : Z) (b : Z -> Z) : St :=
  {| trace := []; clock := 0%nat; UPDI_LASTL := 0;
     UPDI_CONTROL := control; UPDI_NVMCTRL := nvmctrl; size_word0 := 0;
     body := b; flash_page_size := page; sib := fun _ => 0;
     signature := fun _ => 0; nvm_signature_offset := 0 |}.

(** A packet body given by its first cells. *)
Definition cells (bs : list Z) : Z -> Z :=
  fun i => if i <? 0 then 0 else nth (Z.to_nat i) bs 0.

(** ** Vocabulary of the statements

    The notions the properties below are stated with, and the sample
    requests and targets they are run on. *)

(** What a run leaves untouched when it only talks to the target. *)
Definition frame (s s' : St) : Prop :=
  UPDI_CONTROL s' = UPDI_CONTROL s /\ UPDI_NVMCTRL s' = UPDI_NVMCTRL s
  /\ size_word0 s' = size_word0 s /\ body s' = body s
  /\ flash_page_size s' = flash_page_size s /\ sib s' = sib s
  /\ signature s' = signature s
  /\ nvm_signature_offset s' = nvm_signature_offset s.

(** The events of a busy-wait on register [reg]. *)
Definition is_poll (reg : Z) (e : Event) : bool :=
  match e with
  | Wire (CLd8 a) _ => a =? reg
  | Delay50us => true
  | _ => false
  end.

Definition polls (reg : Z) (evs : list Event) : Prop :=
  forallb (is_poll reg) evs = true.

(** A busy-wait on [reg] that has ended on the byte [v]: loads of [reg]
    that read a byte with one of the two low bits set, each followed by
    the delay, and then one load of [reg] that reads [v], whose two low
    bits are clear. *)
Fixpoint ended_wait (reg : Z) (evs : list Event) (v : Z) : bool :=
  match evs with
  | Wire (CLd8 a) r :: rest =>
      (a =? reg)
      && match rest with
         | [] => (u8 (val r) =? v) && (Z.land v 3 =? 0)
         | Delay50us :: evs' =>
             negb (Z.land (u8 (val r)) 3 =? 0) && ended_wait reg evs' v
         | _ => false
         end
  | _ => false
  end.

(** A target is idle within [fuel] polls when, from every point of the
    reply sequence on, one of the next [fuel] replies has the two low bits
    of its byte clear. *)
Definition idle_within (wire : nat -> Reply) (fuel : nat) : Prop :=
  forall i : nat, exists j : nat,
    (j < fuel)%nat /\ Z.land (u8 (val (wire (i + j)%nat))) 3 = 0.

(** A computation returns from every state. *)
Definition returns {A} (m : M A) : Prop :=
  forall s : St, exists r s', m s = Some (r, s').

(** [n], [n - 1], ... : the [k] counter values a count-down from [n]
    goes through. *)
Fixpoint countdown (k : nat) (n : Z) : list Z :=
  match k with
  | O => []
  | S k' => n :: countdown k' (n - 1)
  end.

(** The count check of [read_memory], on the counts a [size_t] can hold. *)
Definition read_rejected (n : Z) : Prop :=
  n = 0 \/ 512 < n \/ (256 < n /\ Z.odd n = true).

Definition read_accepted (n : Z) : Prop :=
  1 <= n <= 256 \/ (258 <= n <= 512 /\ Z.even n = true).

(** The memory type the read core sees: the cell is read after the
    message id has been stored. *)
Definition read_mem_type (hd : Header) (s : St) : Z :=
  peek (poke (body s) (MESSAGE_ID hd) (RSP_MEMORY hd)) (MEM_TYPE hd).

(** Whether a read is handed to the signature emulator. *)
Definition signature_read (hd : Header) (n : Z) (s : St) : bool :=
  (n =? 1) && ENABLE_ADDFEATS_LOCK_SIG hd
  && (read_mem_type hd s =? MTYPE_SIGN_JTAG hd).

(** A locked target in info mode, asked for one signature byte. *)
Definition locked_signature_request : St :=
  {| trace := []; clock := 0%nat; UPDI_LASTL := 0;
     UPDI_CONTROL := 4; UPDI_NVMCTRL := 0; size_word0 := 0;
     body := cells [0x05; 0xB4]; flash_page_size := 64;
     sib := cells [0x6D; 0x65; 0x67; 0x61; 0x41; 0x56; 0x52; 0x20; 0x50;
                   0x3A; 0x30];
     signature := fun _ => 0; nvm_signature_offset := 0 |}.

(** The offset at which signature reads begin: [0x1080] for AVR_EB,
    [0x1100] for the others. *)
Definition canonical_offset (hd : Header) (s : St) : Z :=
  if bit_is_set (UPDI_NVMCTRL s) (UPDI_GEN5_bp hd) then 0x1080 else 0x1100.

(** A target in program mode with nothing cached yet. *)
Definition program_mode_request : St := initial 8 0 64 (cells [0x05; 0xB4]).

(** The first three-byte read succeeds, the second one fails. *)
Definition signature_then_failure : nat -> Reply :=
  scripted [ {| ok := true; val := 0; payload := [0x1E; 0x95; 0x0F] |};
             reply_fail ].

(** Every event a returning run of [m] appends satisfies [P]. *)
Definition logs_only (P : Event -> Prop) {A} (m : M A) : Prop :=
  forall s r s', m s = Some (r, s') ->
    exists new, trace s' = trace s ++ new /\ Forall P new.

(** An event that is no iteration mark. *)
Definition unmarked (e : Event) : Prop :=
  match e with Iter _ _ => False | _ => True end.

(** The state of [write_memory] once [RSP_OK] has been set. *)
Definition after_rsp_ok (hd : Header) (s : St) : St :=
  set_body (poke (body s) (MESSAGE_ID hd) (RSP_OK hd))
    (log [SetResponse (RSP_OK hd)] s).

(** [k] iterations of the fuse loop entered with the count [n], and no
    more: each marks the counter, takes the next byte of the packet and
    calls [write_fuse] with the next address, the counter going down by
    one.  Every call before the last has returned true, and there is no
    such run otherwise; the result and the final state are those of the
    last call. *)
Fixpoint fuse_writes (hd : Header) (wire : nat -> Reply) (wfuel k : nat)
  (start_addr data n : Z) : M bool :=
  match k with
  | O => spinning
  | S k' =>
      emit (Iter FuseBytes n) ;;
      v <- NVM.deref data ;;
      b <- NVM.write_fuse hd wire wfuel start_addr v ;;
      match k' with
      | O => ret b
      | S _ =>
          if b then
            fuse_writes hd wire wfuel k' (start_addr + 1) (data + 1) (n - 1)
          else spinning
      end
  end.

(** A locked target asked to write the user row with a count of 300. *)
Definition userrow_request : St :=
  initial 4 0 64
    (cells [0x04; 0xC5; 0x2C; 0x01; 0; 0; 0x00; 0x13; 0x00; 0x00; 0xAA; 0xBB]).

(** A flash page write of 100 bytes to a target with 64-byte pages, in
    program mode and out of it. *)
Definition mismatch_request (control : Z) : St :=
  initial control 0 64
    (cells [0x04; 0xB0; 0x64; 0x00; 0; 0; 0x00; 0x80; 0x00; 0x00]).

(** A Gen0 target in program mode asked to write two fuse bytes. *)
Definition fuse_request : St :=
  initial 8 0 64
    (cells [0x04; 0xB2; 0x02; 0x00; 0; 0; 0x85; 0x12; 0x00; 0x00; 0xC9; 0x3F]).

(** The target accepts the status poll and fails the first block store. *)
Definition failing_store : nat -> Reply := scripted [reply_ok 0; reply_fail].

Definition prefix_of {A} (l1 l2 : list A) : Prop := exists t, l2 = l1 ++ t.

(** A store of opcode [op] to the control register. *)
Definition ctrl (hd : Header) (op : Z) : Call :=
  CSt8 (NVMCTRL_REG_CTRLA hd) (u8 op).

(** The stores of [nvm_ctrl_change(op)] when the control register reads
    [c]: none if it already holds [op], else NOCMD and then [op] unless
    [op] is NOCMD. *)
Definition arbitration (hd : Header) (c op : Z) : list Call :=
  if c =? u8 op then []
  else ctrl hd (NVM_CMD_NOCMD hd)
       :: (if NVM_CMD_NOCMD hd =? u8 op then [] else [ctrl hd op]).

(** The transaction that loads the data: one byte store for a count of 1,
    else a block store, 16-bit counted on Gen2/Gen4 above 256 bytes. *)
Definition data_load (g : Generation) (start_addr data n : Z) (s : St)
  : Call :=
  if n =? 1 then CSt8 start_addr (u8 (peek (body s) data))
  else
    match g with
    | Gen2_4 =>
        if negb (Z.shiftr (u16 (n - 1)) 8 =? 0)
        then CSts16rsd start_addr (bytes_at (body s) data n) n
        else CSts8rsd start_addr (bytes_at (body s) data n) n
    | _ => CSts8rsd start_addr (bytes_at (body s) data n) n
    end.

(** The erase sub-sequence of a page boundary write.  On Gen2/Gen4 the
    opcode goes through [nvm_ctrl_change], with [c] the byte the control
    register reads. *)
Definition erase_sequence (hd : Header) (g : Generation) (start_addr c : Z)
  : list Call :=
  match g with
  | Gen0 => [ctrl hd (NVM_CMD_PBC hd)]
  | Gen2_4 => arbitration hd c (NVM_V2_CMD_FLPER hd) ++ [CSt8 start_addr 0xFF]
  | Gen3_5 => [CSt8 start_addr 0xFF; ctrl hd (NVM_V3_CMD_FLPER hd)]
  end.

(** What is stored between the erase sub-sequence and the data load. *)
Definition arming (hd : Header) (g : Generation) (is_bound : bool) (c : Z)
  : list Call :=
  match g with
  | Gen0 => []
  | Gen2_4 => arbitration hd c (NVM_V2_CMD_FLWR hd)
  | Gen3_5 => if is_bound then [] else [ctrl hd (NVM_V3_CMD_FLPBCLR hd)]
  end.

(** What is stored after the data load. *)
Definition commit (hd : Header) (g : Generation) (c : Z) : list Call :=
  match g with
  | Gen0 => [ctrl hd (NVM_CMD_ERWP hd)]
  | Gen2_4 => arbitration hd c (NVM_V2_CMD_NOCMD hd)
  | Gen3_5 => [ctrl hd (NVM_V3_CMD_FLPW hd)]
  end.

(** The stores of a complete flash write, in order. *)
Definition flash_plan (hd : Header) (g : Generation) (is_bound : bool)
  (start_addr : Z) (load : Call) (c1 c2 c3 : Z) : list Call :=
  (if is_bound then erase_sequence hd g start_addr c1 else [])
  ++ arming hd g is_bound c2 ++ [load] ++ commit hd g c3.

(** The bytes the control register is read as by a complete Gen2/Gen4
    flash write: once for each arbitration. *)
Definition ctrl_reads (is_bound : bool) (c1 c2 c3 : Z) : list Z :=
  (if is_bound then [c1] else []) ++ [c2; c3].

(** The command that erases, or on Gen0 clears the buffer in its place. *)
Definition erase_command (hd : Header) (g : Generation) : Call :=
  match g with
  | Gen0 => ctrl hd (NVM_CMD_PBC hd)
  | Gen2_4 => ctrl hd (NVM_V2_CMD_FLPER hd)
  | Gen3_5 => ctrl hd (NVM_V3_CMD_FLPER hd)
  end.

(** The erase opcode of a generation differs, as a byte, from the other
    opcodes its flash writer uses. *)
Definition erase_opcode_distinct (hd : Header) (g : Generation) : Prop :=
  match g with
  | Gen0 => u8 (NVM_CMD_PBC hd) <> u8 (NVM_CMD_ERWP hd)
  | Gen2_4 =>
      u8 (NVM_V2_CMD_FLPER hd) <> u8 (NVM_CMD_NOCMD hd)
      /\ u8 (NVM_V2_CMD_FLPER hd) <> u8 (NVM_V2_CMD_FLWR hd)
      /\ u8 (NVM_V2_CMD_FLPER hd) <> u8 (NVM_V2_CMD_NOCMD hd)
  | Gen3_5 =>
      u8 (NVM_V3_CMD_FLPER hd) <> u8 (NVM_V3_CMD_FLPBCLR hd)
      /\ u8 (NVM_V3_CMD_FLPER hd) <> u8 (NVM_V3_CMD_FLPW hd)
  end.

(** A page of four bytes to write at [0x8000]. *)
Definition page_request (nvmctrl : Z) : St :=
  initial 8 nvmctrl 4
    (cells [0x04; 0xB0; 0x04; 0x00; 0; 0; 0x00; 0x80; 0x00; 0x00;
            0x0C; 0x94; 0x34; 0x00]).

(** The control register of a Gen2 target still reads FLPER when the
    writer asks for it. *)
Definition flper_latched : nat -> Reply :=
  scripted [reply_ok 0; reply_ok 8; reply_ok 0; reply_ok 0; reply_ok 8;
            reply_ok 0; reply_ok 0; reply_ok 0; reply_ok 0; reply_ok 2].

(** ** Vocabulary of the further properties *)

(** The reply at position [i] of the target shows a busy or failed
    controller: one of the two low bits of its byte is set. *)
Definition busy_at (wire : nat -> Reply) (i : nat) : Prop :=
  Z.land (u8 (val (wire i))) 3 <> 0.

(** The events of a wait on [reg] that starts at reply [start] and sees
    [j] busy status bytes before an idle one: [j] polls each followed by a
    delay, then the last poll. *)
Fixpoint busy_wait (wire : nat -> Reply) (reg : Z) (start j : nat)
  : list Event :=
  match j with
  | O => [Wire (CLd8 reg) (wire start)]
  | S j' =>
      Wire (CLd8 reg) (wire start) :: Delay50us
      :: busy_wait wire reg (S start) j'
  end.

(** The transaction with which an EEPROM writer loads the data: one byte
    store for a count of 1, else a block store, of the kind used for bulk
    loads on Gen0. *)
Definition eeprom_load (g : Generation) (start_addr data n : Z) (s : St)
  : Call :=
  if n =? 1 then CSt8 start_addr (u8 (peek (body s) data))
  else
    match g with
    | Gen0 => CSts8rsd start_addr (bytes_at (body s) data n) n
    | _ => CSts8 start_addr (bytes_at (body s) data n) n
    end.

(** The stores of a complete EEPROM write, in order; on Gen2/Gen4 the two
    commands go through [nvm_ctrl_change], with [c1] and [c2] the bytes the
    control register reads. *)
Definition eeprom_plan (hd : Header) (g : Generation) (load : Call)
  (c1 c2 : Z) : list Call :=
  match g with
  | Gen0 => [load; ctrl hd (NVM_CMD_ERWP hd)]
  | Gen2_4 =>
      arbitration hd c1 (NVM_V2_CMD_EEERWR hd) ++ [load]
      ++ arbitration hd c2 (NVM_V2_CMD_NOCMD hd)
  | Gen3_5 =>
      [ctrl hd (NVM_V3_CMD_EEPBCLR hd); load; ctrl hd (NVM_V3_CMD_EEPERW hd)]
  end.

(** The place of the data load among the stores of an EEPROM write,
    counted from 0: the number of command stores that precede it. *)
Definition load_position (hd : Header) (g : Generation) (c1 : Z) : nat :=
  match g with
  | Gen0 => 0
  | Gen2_4 => length (arbitration hd c1 (NVM_V2_CMD_EEERWR hd))
  | Gen3_5 => 1
  end.

(** The [i]-th store of a trace, counted from 0, failed on the
    transport. *)
Definition failed_at (evs : list Event) (i : nat) : Prop :=
  exists c, nth_error (writes evs) i = Some (c, false).

(** A run from [s] to [s'] has polled [status_reg] until it read idle,
    then read the control register once and issued only the stores of the
    arbitration of [op] that the byte read decides, all of them when [b]
    is true. *)
Definition waited_then_arbitrated (hd : Header) (status_reg op : Z)
  (s s' : St) (b : bool) : Prop :=
  exists waited status r0 rest,
    trace s' = trace s ++ waited
               ++ Wire (CLd8 (NVMCTRL_REG_CTRLA hd)) r0 :: rest
    /\ polls status_reg waited
    /\ last_load waited = Some status /\ Z.land status 3 = 0
    /\ calls rest = stores rest
    /\ prefix_of (stores rest) (arbitration hd (u8 (val r0)) op)
    /\ (b = true -> stores rest = arbitration hd (u8 (val r0)) op).

(** An event that is a transport call or a delay: neither a response nor
    an iteration mark. *)
Definition on_the_wire (e : Event) : Prop :=
  match e with Wire _ _ | Delay50us => True | _ => False end.

(** The request is the user-row write of a locked target, the one write
    [write_memory] lets through outside program mode. *)
Definition userrow_case (hd : Header) (s : St) : bool :=
  bit_is_set (UPDI_CONTROL s) (UPDI_INFO_bp hd)
  && (NVM.request_mem_type hd s =? MTYPE_XMEGA_USERSIG).

(** The memory types the second switch of [write_memory] knows. *)
Definition is_plain_type (mem_type : Z) : bool :=
  (mem_type =? MTYPE_SRAM) || NVM.is_fuse_type mem_type
  || NVM.is_eeprom_type mem_type.

(** The page boundary flag [write_memory] computes for a flash write. *)
Definition request_is_bound (hd : Header) (s : St) : bool :=
  bit_is_clear (UPDI_CONTROL s) (UPDI_ERFM_bp hd)
  && (Z.land (flash_page_size s - 1) (u16 (NVM.request_start_addr hd s)) =? 0).

(** A write of the EEPROM class: an EEPROM memory type on any generation,
    a fuse or lock-bit memory type on the generations after Gen0. *)
Definition eeprom_class (hd : Header) (s : St) : bool :=
  NVM.is_eeprom_type (NVM.request_mem_type hd s)
  || (NVM.is_fuse_type (NVM.request_mem_type hd s)
      && negb (bit_is_clear (UPDI_NVMCTRL s) (UPDI_GEN3_bp hd)
               && bit_is_clear (UPDI_NVMCTRL s) (UPDI_GEN2_bp hd))).

(** A target that completes every transaction and whose status bytes
    have their three low bits clear. *)
Definition healthy (wire : nat -> Reply) : Prop :=
  forall i : nat,
    ok (wire i) = true /\ Z.land (u8 (val (wire i))) 7 = 0.

(** The stores of a complete fuse write of [k] bytes: for each byte the
    packed block with its address and the WFU command. *)
Fixpoint fuse_stores (hd : Header) (m : Z -> Z) (start_addr data : Z)
  (k : nat) : list Call :=
  match k with
  | O => []
  | S k' =>
      CSts8 (NVMCTRL_REG_DATA hd)
        (NVM.fuse_packet start_addr (peek m data)) 4
      :: ctrl hd (NVM_CMD_WFU hd)
      :: fuse_stores hd m (start_addr + 1) (data + 1) k'
  end.

(** The signature made up for a target that is not in program mode: of a
    locked target in info mode [0x1E], the series letter of the SIB and
    its NVMCTRL version; of a target that is offline three [0xFF]. *)
Definition dummy_signature (hd : Header) (s : St) : list Z :=
  if bit_is_set (UPDI_CONTROL s) (UPDI_INFO_bp hd) then
    [0x1E;
     if peek (sib s) 0 =? 32 then peek (sib s) 4 else peek (sib s) 0;
     peek (sib s) 10]
  else [0xFF; 0xFF; 0xFF].

(** Whether a read is answered from the cached SIB. *)
Definition sib_read (hd : Header) (start_addr n : Z) (s : St) : bool :=
  (n =? 1) && (ENABLE_ADDFEATS_DUMP_SIB hd
               && bit_is_set (UPDI_CONTROL s) (UPDI_PROG_bp hd)
               && (Z.land (u8 (Z.shiftr start_addr 16)) 0x80 =? 0)
               && (u16 start_addr <? 32)).

(** The block load of a direct read of [n] bytes. *)
Definition direct_load (start_addr n : Z) : Call :=
  if 256 <? n then CLds16 start_addr n else CLds8 start_addr n.

(** A target in program mode that has cached a signature at [0x1100],
    asked for one byte of data memory. *)
Definition cached_signature_request : St :=
  {| trace := []; clock := 0%nat; UPDI_LASTL := 0;
     UPDI_CONTROL := 8; UPDI_NVMCTRL := 0; size_word0 := 0;
     body := cells [0x05; 0x20]; flash_page_size := 64;
     sib := cells [0x6D; 0x65; 0x67; 0x61; 0x41; 0x56; 0x52; 0x20; 0x50;
                   0x3A; 0x30];
     signature := cells [0x1E; 0x95; 0x0F]; nvm_signature_offset := 0x1100 |}.

(** A target that answers a block load with four bytes. *)
Definition four_bytes : nat -> Reply :=
  scripted [ {| ok := true; val := 0; payload := [0x0C; 0x94; 0x3E; 0x00] |} ].

(** ** Traces *)

Arguments u8 : simpl never.
Arguments u16 : simpl never.
Arguments u32 : simpl never.
Arguments peek : simpl never.
Arguments poke : simpl never.
Arguments bytes_at : simpl never.

Lemma calls_app (a b : list Event) : calls (a ++ b) = calls a ++ calls b.
Proof.
  induction a as [|e a IH]; simpl; [reflexivity|].
  destruct e; simpl; rewrite IH; reflexivity.
Qed.

Lemma writes_app (a b : list Event) : writes (a ++ b) = writes a ++ writes b.
Proof.
  induction a as [|e a IH]; simpl; [reflexivity|].
  destruct e as [c r| | |]; simpl; try assumption.
  destruct (is_store c); simpl; rewrite IH; reflexivity.
Qed.

Lemma stores_app (a b : list Event) : stores (a ++ b) = stores a ++ stores b.
Proof. unfold stores. rewrite writes_app, map_app. reflexivity. Qed.

Lemma responses_app (a b : list Event) :
  responses (a ++ b) = responses a ++ responses b.
Proof.
  induction a as [|e a IH]; simpl; [reflexivity|].
  destruct e; simpl; rewrite ?IH; reflexivity.
Qed.

Lemma iterations_app (l : Loop) (a b : list Event) :
  iterations l (a ++ b) = iterations l a ++ iterations l b.
Proof.
  induction a as [|e a IH]; simpl; [reflexivity|].
  destruct e as [| | |l' c]; simpl; try assumption.
  destruct (Loop_eqb l l'); simpl; rewrite IH; reflexivity.
Qed.

Lemma u8_idem (z : Z) : u8 (u8 z) = u8 z.
Proof. unfold u8. apply Z.mod_mod. lia. Qed.

Lemma u8_range (z : Z) : 0 <= u8 z < 256.
Proof. unfold u8. apply Z.mod_pos_bound. lia. Qed.

(** Closes [trace s' = trace s ++ evs] once [s'] is known. *)
Ltac trace_eq := simpl; repeat rewrite <- app_assoc; simpl; reflexivity.

(** ** Command arbiter *)

(** C8.  [nvm_ctrl_change] reads the control register once.  If the byte
    read equals the requested opcode it returns true and stores nothing.
    Otherwise its first store is NOCMD to the control register; the
    requested opcode is stored after it exactly when that store succeeded
    and the opcode is not NOCMD, and the result is then the outcome of that
    second store, else the outcome of the NOCMD store.  A false result
    always comes with a store that failed on the transport. *)
Theorem nvm_ctrl_change_arbitration (hd : Header) (wire : nat -> Reply)
  (nvmcmd : Z) (s : St) :
  exists (b : bool) (s' : St) (r0 : Reply) (rest : list Event),
    NVM.nvm_ctrl_change hd wire nvmcmd s = Some (b, s')
    /\ trace s' = trace s ++ Wire (CLd8 (NVMCTRL_REG_CTRLA hd)) r0 :: rest
    /\ (u8 (val r0) = u8 nvmcmd -> b = true /\ calls rest = [])
    /\ (u8 (val r0) <> u8 nvmcmd ->
        exists (ok1 : bool) (tail : list (Call * bool)),
          writes rest
          = (CSt8 (NVMCTRL_REG_CTRLA hd) (u8 (NVM_CMD_NOCMD hd)), ok1) :: tail
          /\ (ok1 = true /\ NVM_CMD_NOCMD hd <> u8 nvmcmd ->
              tail = [(CSt8 (NVMCTRL_REG_CTRLA hd) (u8 nvmcmd), b)])
          /\ (~ (ok1 = true /\ NVM_CMD_NOCMD hd <> u8 nvmcmd) ->
              tail = [] /\ b = ok1))
    /\ (b = false -> exists c, In (c, false) (writes rest)).
Proof.
  unfold NVM.nvm_ctrl_change, NVM.nvm_ctrl, NVM.ld8, NVM.st8, NVM.transact,
    bind, ret, modify.
  set (r0 := wire (clock s)).
  destruct (u8 (val r0) =? u8 nvmcmd) eqn:Hsame; simpl.
  - apply Z.eqb_eq in Hsame.
    eexists _, _, r0, []. simpl.
    repeat split; try reflexivity; try congruence.
  - apply Z.eqb_neq in Hsame.
    set (r1 := wire (S (clock s))).
    destruct (ok r1) eqn:Hok1; simpl.
    + destruct (NVM_CMD_NOCMD hd =? u8 nvmcmd) eqn:Hno; simpl.
      * apply Z.eqb_eq in Hno.
        eexists _, _, r0, [Wire _ r1]. simpl.
        split; [reflexivity|]. split; [trace_eq|].
        split; [congruence|]. split; [|discriminate].
        intros _. exists true, []. rewrite Hok1.
        split; [reflexivity|].
        split; [intros [_ Hne]; congruence | intros _; auto].
      * apply Z.eqb_neq in Hno.
        set (r2 := wire (S (S (clock s)))).
        eexists _, _, r0, [Wire _ r1; Wire _ r2]. simpl.
        split; [reflexivity|].
        split; [trace_eq|].
        split; [congruence|]. split.
        -- intros _.
           exists true, [(CSt8 (NVMCTRL_REG_CTRLA hd) (u8 nvmcmd), ok r2)].
           rewrite Hok1, u8_idem.
           split; [reflexivity|].
           split; [intros _; reflexivity | intros Hn; exfalso; apply Hn; auto].
        -- intros Hb. exists (CSt8 (NVMCTRL_REG_CTRLA hd) (u8 nvmcmd)).
           rewrite Hok1, u8_idem, Hb. simpl. auto.
    + eexists _, _, r0, [Wire _ r1]. simpl.
      split; [reflexivity|]. split; [trace_eq|].
      split; [congruence|]. split.
      * intros _. exists false, []. rewrite Hok1.
        split; [reflexivity|].
        split; [intros [Ht _]; discriminate | intros _; auto].
      * intros _. exists (CSt8 (NVMCTRL_REG_CTRLA hd) (u8 (NVM_CMD_NOCMD hd))).
        rewrite Hok1. simpl. auto.
Qed.

(** ** Status waiter *)

Lemma frame_refl (s : St) : frame s s.
Proof. unfold frame. tauto. Qed.

Lemma frame_trans (a b c : St) : frame a b -> frame b c -> frame a c.
Proof. unfold frame. intuition congruence. Qed.

Ltac frame_solve := unfold frame; simpl; tauto.

Lemma polls_app (reg : Z) (a b : list Event) :
  polls reg a -> polls reg b -> polls reg (a ++ b).
Proof. unfold polls. rewrite forallb_app. intros -> ->. reflexivity. Qed.

Lemma polls_writes (reg : Z) (evs : list Event) :
  polls reg evs -> writes evs = [].
Proof.
  unfold polls. induction evs as [|e evs IH]; simpl; [reflexivity|].
  intros H. apply andb_prop in H as [He Hr].
  destruct e as [[] ?| | |]; simpl in *; try discriminate; auto.
Qed.

Lemma polls_stores (reg : Z) (evs : list Event) :
  polls reg evs -> stores evs = [].
Proof. intros H. unfold stores. rewrite (polls_writes _ _ H). reflexivity. Qed.

Lemma polls_responses (reg : Z) (evs : list Event) :
  polls reg evs -> responses evs = [].
Proof.
  unfold polls. induction evs as [|e evs IH]; simpl; [reflexivity|].
  intros H. apply andb_prop in H as [He Hr].
  destruct e as [[] ?| | |]; simpl in *; try discriminate; auto.
Qed.

Lemma polls_iterations (reg : Z) (l : Loop) (evs : list Event) :
  polls reg evs -> iterations l evs = [].
Proof.
  unfold polls. induction evs as [|e evs IH]; simpl; [reflexivity|].
  intros H. apply andb_prop in H as [He Hr].
  destruct e as [[] ?| | |]; simpl in *; try discriminate; auto.
Qed.

Lemma reads_app (reg : Z) (a b : list Event) :
  reads reg (a ++ b) = reads reg a ++ reads reg b.
Proof.
  induction a as [|e a IH]; simpl; [reflexivity|].
  destruct e as [[] ?| | |]; simpl; try assumption.
  destruct (addr =? reg); simpl; rewrite IH; reflexivity.
Qed.

Lemma polls_reads (status reg : Z) (evs : list Event) :
  status <> reg -> polls status evs -> reads reg evs = [].
Proof.
  intros Hne. unfold polls.
  induction evs as [|e evs IH]; simpl; [reflexivity|].
  intros H. apply andb_prop in H as [He Hr].
  destruct e as [[] ?| | |]; simpl in *; try discriminate; auto.
  apply Z.eqb_eq in He. subst addr.
  apply Z.eqb_neq in Hne. rewrite Hne. auto.
Qed.

Lemma reads_store (reg : Z) (c : Call) (r : Reply) :
  is_store c = true -> reads reg [Wire c r] = [].
Proof. destruct c; simpl; intros H; try discriminate; reflexivity. Qed.

Lemma last_load_app (a b : list Event) (v : Z) :
  last_load b = Some v -> last_load (a ++ b) = Some v.
Proof.
  intros Hb. induction a as [|e a IH]; simpl; [assumption|].
  destruct e as [[] ?| | |]; try assumption. rewrite IH. reflexivity.
Qed.

Lemma bind_inv {A B} (m : M A) (k : A -> M B) (s s' : St) (r : B) :
  bind m k s = Some (r, s') ->
  exists x s1, m s = Some (x, s1) /\ k x s1 = Some (r, s').
Proof.
  unfold bind. destruct (m s) as [[x s1]|]; [|discriminate].
  intros H. exists x, s1. auto.
Qed.

(** A wait that returns has only polled its register, and returns the
    last status byte read, whose two low bits are clear. *)
Lemma poll_inv (wire : nat -> Reply) (reg : Z) (fuel : nat) :
  forall (s s' : St) (v : Z),
    NVM.poll wire reg fuel s = Some (v, s') ->
    exists new,
      trace s' = trace s ++ new /\ frame s s' /\ polls reg new
      /\ last_load new = Some v /\ Z.land v 3 = 0.
Proof.
  induction fuel as [|fuel IH]; intros s s' v H; [discriminate|].
  simpl in H. unfold NVM.ld8, NVM.transact, bind, ret, modify in H.
  simpl in H.
  destruct (Z.land (u8 (val (wire (clock s)))) 3 =? 0) eqn:Hidle.
  - unfold gets in H. simpl in H. inversion H; subst; clear H.
    exists [Wire (CLd8 reg) (wire (clock s))]. simpl.
    split; [reflexivity|]. split; [frame_solve|].
    split; [unfold polls; simpl; rewrite Z.eqb_refl; reflexivity|].
    split; [reflexivity|]. apply Z.eqb_eq. assumption.
  - unfold NVM.delay_50us, emit, modify in H. simpl in H.
    apply IH in H as (new & Ht & Hf & Hp & Hl & Hv).
    exists ([Wire (CLd8 reg) (wire (clock s)); Delay50us] ++ new).
    simpl in Ht. split; [rewrite Ht; repeat rewrite <- app_assoc; reflexivity|].
    split; [eapply frame_trans; [|exact Hf]; frame_solve|].
    split; [apply polls_app; [unfold polls; simpl; rewrite Z.eqb_refl; reflexivity|assumption]|].
    split; [apply last_load_app; assumption | assumption].
Qed.

(** A wait that returns has gone through busy status bytes, with a delay
    after each, up to the idle byte it returns. *)
Lemma poll_ended (wire : nat -> Reply) (reg : Z) (fuel : nat) :
  forall (s s' : St) (v : Z),
    NVM.poll wire reg fuel s = Some (v, s') ->
    exists new,
      trace s' = trace s ++ new /\ frame s s'
      /\ ended_wait reg new v = true.
Proof.
  induction fuel as [|fuel IH]; intros s s' v H; [discriminate|].
  simpl in H. unfold NVM.ld8, NVM.transact, bind, ret, modify in H.
  simpl in H.
  destruct (Z.land (u8 (val (wire (clock s)))) 3 =? 0) eqn:Hidle.
  - unfold gets in H. simpl in H. inversion H; subst; clear H.
    exists [Wire (CLd8 reg) (wire (clock s))].
    split; [reflexivity|]. split; [frame_solve|].
    simpl. rewrite !Z.eqb_refl, Hidle. reflexivity.
  - unfold NVM.delay_50us, emit, modify in H. simpl in H.
    apply IH in H as (new & Ht & Hf & He).
    exists (Wire (CLd8 reg) (wire (clock s)) :: Delay50us :: new).
    simpl in Ht.
    split; [rewrite Ht; repeat rewrite <- app_assoc; reflexivity|].
    split; [eapply frame_trans; [|exact Hf]; frame_solve|].
    cbn [ended_wait]. rewrite Z.eqb_refl, Hidle, He. reflexivity.
Qed.

Lemma returns_ret {A} (x : A) : returns (ret x).
Proof. intros s. exists x, s. reflexivity. Qed.

Lemma returns_bind {A B} (m : M A) (k : A -> M B) :
  returns m -> (forall x, returns (k x)) -> returns (bind m k).
Proof.
  intros Hm Hk s. destruct (Hm s) as (x & s1 & E).
  destruct (Hk x s1) as (r & s' & E'). exists r, s'.
  unfold bind. rewrite E. exact E'.
Qed.

Lemma returns_gets {A} (f : St -> A) : returns (gets f).
Proof. intros s. exists (f s), s. reflexivity. Qed.

Lemma returns_modify (f : St -> St) : returns (modify f).
Proof. intros s. exists tt, (f s). reflexivity. Qed.

Lemma returns_transact (wire : nat -> Reply) (c : Call) :
  returns (NVM.transact wire c).
Proof. intros s. eexists _, _. reflexivity. Qed.

Lemma returns_if {A} (c : bool) (m1 m2 : M A) :
  returns m1 -> returns m2 -> returns (if c then m1 else m2).
Proof. destruct c; auto. Qed.

Lemma poll_from (wire : nat -> Reply) (reg : Z) (j : nat) :
  forall (fuel : nat) (s : St),
    (j < fuel)%nat ->
    Z.land (u8 (val (wire (clock s + j)%nat))) 3 = 0 ->
    exists v s', NVM.poll wire reg fuel s = Some (v, s').
Proof.
  induction j as [|j IH]; intros fuel s Hlt Hidle.
  - destruct fuel as [|fuel]; [lia|]. rewrite Nat.add_0_r in Hidle.
    simpl. unfold NVM.ld8, NVM.transact, bind, ret, modify. simpl.
    apply Z.eqb_eq in Hidle. rewrite Hidle. eexists _, _. reflexivity.
  - destruct fuel as [|fuel]; [lia|].
    simpl. unfold NVM.ld8, NVM.transact, bind, ret, modify. simpl.
    destruct (Z.land (u8 (val (wire (clock s)))) 3 =? 0).
    + eexists _, _. reflexivity.
    + unfold NVM.delay_50us, emit, modify. simpl.
      apply IH; [lia|]. simpl.
      replace (S (clock s + j)) with (clock s + S j)%nat by lia. assumption.
Qed.

Lemma returns_poll (wire : nat -> Reply) (reg : Z) (fuel : nat) :
  idle_within wire fuel -> returns (NVM.poll wire reg fuel).
Proof.
  intros Hidle s. destruct (Hidle (clock s)) as (j & Hlt & Hj).
  eapply poll_from; eassumption.
Qed.

Create HintDb returns.
#[export] Hint Resolve returns_ret returns_gets returns_modify
  returns_transact returns_poll : returns.

(** Decomposes a computation into its steps, each of which returns. *)
Ltac returns_steps :=
  repeat first
    [ apply returns_bind; [|intros ?]
    | apply returns_if
    | solve [auto with returns] ].

Lemma quiet_wire_idle : idle_within quiet_wire 1.
Proof. intros i. exists 0%nat. split; [lia|reflexivity]. Qed.

Lemma idle_within_mono (wire : nat -> Reply) (a b : nat) :
  (a <= b)%nat -> idle_within wire a -> idle_within wire b.
Proof.
  intros Hab H i. destruct (H i) as (j & Hj & E). exists j. split; [lia|exact E].
Qed.

(** ** Fuse writer *)

Lemma returns_write_fuse (hd : Header) (wire : nat -> Reply) (fuel : nat)
  (addr data : Z) :
  idle_within wire fuel -> returns (NVM.write_fuse hd wire fuel addr data).
Proof.
  intros Hidle.
  unfold NVM.write_fuse, NVM.nvm_wait, NVM.sts8, NVM.nvm_ctrl, NVM.st8.
  returns_steps.
Qed.

(** What a call of [write_fuse] that returns has done: its stores with
    their outcomes, and its result. *)
Lemma write_fuse_inv (hd : Header) (wire : nat -> Reply) (fuel : nat)
  (addr data : Z) (s s' : St) (r : bool) :
  NVM.write_fuse hd wire fuel addr data s = Some (r, s') ->
  exists new,
    trace s' = trace s ++ new /\ frame s s'
    /\ responses new = [] /\ (forall l, iterations l new = [])
    /\ let packed := CSts8 (NVMCTRL_REG_DATA hd) (NVM.fuse_packet addr data) 4 in
       let wfu := CSt8 (NVMCTRL_REG_CTRLA hd) (u8 (NVM_CMD_WFU hd)) in
       (writes new = [(packed, false)] /\ r = false)
       \/ (writes new = [(packed, true); (wfu, false)] /\ r = false)
       \/ (writes new = [(packed, true); (wfu, true)]
           /\ exists status,
                last_load new = Some status /\ r = (Z.land status 7 =? 0)).
Proof.
  intros H. unfold NVM.write_fuse, NVM.nvm_wait in H.
  apply bind_inv in H as (v1 & s1 & Hw1 & H).
  apply poll_inv in Hw1 as (n1 & Ht1 & Hf1 & Hp1 & _).
  unfold NVM.sts8, NVM.transact in H. unfold bind at 1 2 in H. simpl in H.
  set (r1 := wire (clock s1)) in *.
  destruct (ok r1) eqn:Hok1; simpl in H.
  - unfold NVM.nvm_ctrl, NVM.st8, NVM.transact in H.
    unfold bind at 1 2 in H. simpl in H.
    set (r2 := wire (S (clock s1))) in *.
    destruct (ok r2) eqn:Hok2; simpl in H.
    + apply bind_inv in H as (v2 & s2 & Hw2 & H).
      apply poll_inv in Hw2 as (n2 & Ht2 & Hf2 & Hp2 & Hl2 & _).
      inversion H; subst; clear H. simpl in Ht2.
      exists (n1 ++ [Wire (CSts8 (NVMCTRL_REG_DATA hd) (NVM.fuse_packet addr data) 4) r1;
                     Wire (CSt8 (NVMCTRL_REG_CTRLA hd) (u8 (NVM_CMD_WFU hd))) r2] ++ n2).
      split; [rewrite Ht2, Ht1; repeat rewrite <- app_assoc; reflexivity|].
      split; [eapply frame_trans; [|exact Hf2];
              eapply frame_trans; [exact Hf1|frame_solve]|].
      split; [rewrite !responses_app, (polls_responses _ _ Hp1),
                (polls_responses _ _ Hp2); reflexivity|].
      split; [intros l; rewrite !iterations_app, (polls_iterations _ _ _ Hp1),
                (polls_iterations _ _ _ Hp2); reflexivity|].
      right; right. split.
      * rewrite !writes_app, (polls_writes _ _ Hp1), (polls_writes _ _ Hp2).
        simpl. rewrite Hok1, Hok2. reflexivity.
      * exists v2. split; [|reflexivity].
        apply last_load_app. apply last_load_app. assumption.
    + inversion H; subst; clear H.
      exists (n1 ++ [Wire (CSts8 (NVMCTRL_REG_DATA hd) (NVM.fuse_packet addr data) 4) r1;
                     Wire (CSt8 (NVMCTRL_REG_CTRLA hd) (u8 (NVM_CMD_WFU hd))) r2]).
      split; [simpl; rewrite Ht1; repeat rewrite <- app_assoc; reflexivity|].
      split; [eapply frame_trans; [exact Hf1|frame_solve]|].
      split; [rewrite !responses_app, (polls_responses _ _ Hp1); reflexivity|].
      split; [intros l; rewrite !iterations_app,
                (polls_iterations _ _ _ Hp1); reflexivity|].
      right; left. split; [|reflexivity].
      rewrite !writes_app, (polls_writes _ _ Hp1). simpl.
      rewrite Hok1, Hok2. reflexivity.
  - inversion H; subst; clear H.
    exists (n1 ++ [Wire (CSts8 (NVMCTRL_REG_DATA hd) (NVM.fuse_packet addr data) 4) r1]).
    split; [simpl; rewrite Ht1; repeat rewrite <- app_assoc; reflexivity|].
    split; [eapply frame_trans; [exact Hf1|frame_solve]|].
    split; [rewrite !responses_app, (polls_responses _ _ Hp1); reflexivity|].
    split; [intros l; rewrite !iterations_app,
              (polls_iterations _ _ _ Hp1); reflexivity|].
    left. split; [|reflexivity].
    rewrite !writes_app, (polls_writes _ _ Hp1). simpl. rewrite Hok1.
    reflexivity.
Qed.



(** ** EEPROM writers *)

(** C3.  An EEPROM writer called with a byte count above the ceiling of
    its generation (64 for Gen0, 2 for Gen2/Gen4, 8 for Gen3/Gen5) hands
    [RSP_ILLEGAL_MEMORY_RANGE] to [set_response] and returns true, with no
    transport call and whatever the fuel. *)
Theorem write_eeprom_over_ceiling (hd : Header) (wire : nat -> Reply)
  (g : Generation) (fuel : nat) (start_addr data byte_count : Z) (s : St) :
  eeprom_ceiling g < byte_count ->
  exists s',
    write_eeprom hd wire g fuel start_addr data byte_count s = Some (true, s')
    /\ trace s' = trace s ++ [SetResponse (RSP_ILLEGAL_MEMORY_RANGE hd)]
    /\ clock s' = clock s
    /\ peek (body s') (MESSAGE_ID hd) = u8 (RSP_ILLEGAL_MEMORY_RANGE hd).
Proof.
  intros Hover.
  assert (Hcell : forall m i v, peek (poke m i v) i = u8 v).
  { intros m i v. unfold peek, poke. rewrite Z.eqb_refl. apply u8_idem. }
  destruct g; simpl in Hover; simpl;
    [unfold NVM.write_eeprom_v0 | unfold NVM.write_eeprom_v2
    | unfold NVM.write_eeprom_v3];
    match goal with
    | |- context [?c <? byte_count] =>
        replace (c <? byte_count) with true by (symmetry; apply Z.ltb_lt; lia)
    end;
    eexists; (split; [reflexivity|]); simpl; auto.
Qed.

Lemma write_eeprom_over_ceiling_witness :
  exists s',
    NVM.write_eeprom_v2 sample_header quiet_wire 0 0x1400 10 3
      (initial 8 2 512 (cells [])) = Some (true, s')
    /\ trace s' = [SetResponse 0xA5]
    /\ clock s' = 0%nat.
Proof.
  destruct (write_eeprom_over_ceiling sample_header quiet_wire Gen2_4 0
              0x1400 10 3 (initial 8 2 512 (cells [])))
    as (s' & Hrun & Htrace & Hclock & _).
  - simpl. lia.
  - exists s'. split; [exact Hrun|]. split; assumption.
Defined.

(** ** Read core *)

Lemma poke_same (m : Z -> Z) (i v : Z) : poke m i v i = u8 v.
Proof. unfold poke. rewrite Z.eqb_refl. reflexivity. Qed.

Lemma poke_other (m : Z -> Z) (i j v : Z) : j <> i -> poke m i v j = m j.
Proof. unfold poke. intros H. apply Z.eqb_neq in H. rewrite H. reflexivity. Qed.

(** The dummy fill, entered with a count from 1 to 65535, makes as many
    iterations as the count says, the counter going down to 1; it writes
    [0xFF] into that many cells and talks to nobody. *)
Lemma dummy_fill_inv (fuel : nat) :
  forall (data n : Z) (s s' : St) (r : bool),
    1 <= n < 65536 ->
    NVM.dummy_fill fuel data n s = Some (r, s') ->
    r = true
    /\ trace s' = trace s ++ map (Iter DummyFill) (countdown (Z.to_nat n) n)
    /\ clock s' = clock s
    /\ (forall i, 0 <= i < n -> body s' (data + i) = 0xFF)
    /\ (forall j, j < data -> body s' j = body s j).
Proof.
  induction fuel as [|fuel IH]; intros data n s s' r Hn H; [discriminate|].
  simpl in H. unfold emit, modify, bind in H. simpl in H.
  assert (Hdec : u16 (n - 1) = n - 1).
  { unfold u16. apply Z.mod_small. lia. }
  rewrite Hdec in H.
  replace (Z.to_nat n) with (S (Z.to_nat (n - 1))) by lia. simpl.
  destruct (n - 1 =? 0) eqn:Hlast; simpl in H.
  - apply Z.eqb_eq in Hlast. inversion H; subst; clear H.
    replace (Z.to_nat (n - 1)) with 0%nat by lia. simpl.
    split; [reflexivity|]. split; [reflexivity|]. split; [reflexivity|].
    split.
    + intros i Hi. replace (data + i) with data by lia. apply poke_same.
    + intros j Hj. apply poke_other. lia.
  - apply Z.eqb_neq in Hlast.
    apply IH in H as (Hr & Ht & Hc & Hcells & Hbelow); [|lia].
    simpl in Ht, Hc, Hbelow.
    split; [assumption|].
    split; [rewrite Ht, <- app_assoc; reflexivity|].
    split; [assumption|]. split.
    + intros i Hi. destruct (Z.eq_dec i 0) as [->|Hnz].
      * rewrite Hbelow by lia. rewrite Z.add_0_r. apply poke_same.
      * replace (data + i) with (data + 1 + (i - 1)) by lia.
        apply Hcells. lia.
    + intros j Hj. rewrite Hbelow by lia. apply poke_other. lia.
Qed.

Lemma dummy_fill_returns (fuel : nat) :
  forall (data n : Z) (s : St),
    1 <= n < 65536 -> (Z.to_nat n <= fuel)%nat ->
    exists r s', NVM.dummy_fill fuel data n s = Some (r, s').
Proof.
  induction fuel as [|fuel IH]; intros data n s Hn Hfuel; [lia|].
  simpl. unfold emit, modify, bind. simpl.
  assert (Hdec : u16 (n - 1) = n - 1).
  { unfold u16. apply Z.mod_small. lia. }
  rewrite Hdec.
  destruct (n - 1 =? 0) eqn:Hlast; simpl.
  - eexists _, _. reflexivity.
  - apply Z.eqb_neq in Hlast. apply IH; lia.
Qed.

(** Case analysis on the next condition of a run. *)
Ltac branch :=
  match goal with
  | |- context [if ?c then _ else _] => destruct c eqn:?; simpl
  end.

(** The signature emulator always returns; it hands nothing to
    [set_response], and calls the transport only in program mode. *)
Lemma read_signature_quiet (hd : Header) (wire : nat -> Reply)
  (start_addr : Z) (s : St) :
  exists r s' new,
    NVM.read_signature hd wire start_addr s = Some (r, s')
    /\ trace s' = trace s ++ new
    /\ responses new = [] /\ (forall l, iterations l new = [])
    /\ (bit_is_set (UPDI_CONTROL s) (UPDI_PROG_bp hd) = false -> new = []).
Proof.
  unfold NVM.read_signature, NVM.lds8, NVM.deliver, NVM.transact,
    bind, gets, modify, ret.
  simpl.
  repeat branch;
    solve
      [ eexists _, _, []; simpl; rewrite app_nil_r; repeat split; reflexivity
      | eexists _, _, [_]; simpl; repeat split;
        try reflexivity; intros; discriminate ].
Qed.

Lemma responses_marks (l : Loop) (zs : list Z) :
  responses (map (Iter l) zs) = [].
Proof. induction zs; simpl; auto. Qed.

Lemma calls_marks (l : Loop) (zs : list Z) : calls (map (Iter l) zs) = [].
Proof. induction zs; simpl; auto. Qed.

Lemma iterations_marks (l : Loop) (zs : list Z) :
  iterations l (map (Iter l) zs) = zs.
Proof.
  induction zs as [|z zs IH]; simpl; [reflexivity|].
  destruct l; simpl; rewrite IH; reflexivity.
Qed.

Lemma land_1_odd (n : Z) : Z.land n 1 = if Z.odd n then 1 else 0.
Proof.
  change 1 with (Z.ones 1) at 1. rewrite Z.land_ones by lia.
  change (2 ^ 1) with 2. apply Zmod_odd.
Qed.

Lemma read_guard_rejected (n : Z) :
  read_rejected n ->
  (n =? 0) || (512 <? n) || ((256 <? n) && negb (Z.land n 1 =? 0)) = true.
Proof.
  intros [->|[H|[H Ho]]]; [reflexivity| |].
  - apply orb_true_iff. left. apply orb_true_iff. right. apply Z.ltb_lt. lia.
  - apply orb_true_iff. right. apply andb_true_iff. split.
    + apply Z.ltb_lt. lia.
    + rewrite land_1_odd, Ho. reflexivity.
Qed.

Lemma read_guard_accepted (n : Z) :
  read_accepted n ->
  (n =? 0) || (512 <? n) || ((256 <? n) && negb (Z.land n 1 =? 0)) = false.
Proof.
  intros H. apply orb_false_iff. split; [apply orb_false_iff; split|].
  - apply Z.eqb_neq. destruct H as [H|[H _]]; lia.
  - apply Z.ltb_ge. destruct H as [H|[H _]]; lia.
  - destruct H as [H|[H He]].
    + replace (256 <? n) with false by (symmetry; apply Z.ltb_ge; lia).
      reflexivity.
    + rewrite land_1_odd, <- Z.negb_even, He. simpl. apply andb_false_r.
Qed.

Lemma read_count_cases (n : Z) :
  0 <= n -> (read_rejected n /\ ~ read_accepted n)
            \/ (read_accepted n /\ ~ read_rejected n).
Proof.
  intros Hn. unfold read_rejected, read_accepted.
  destruct (Z.odd n) eqn:Ho.
  - assert (He : Z.even n = false) by (rewrite <- Z.negb_odd, Ho; reflexivity).
    rewrite He.
    destruct (Z_le_gt_dec n 256) as [Hs|Hb].
    + destruct (Z.eq_dec n 0) as [->|Hz]; [discriminate Ho|].
      right. split; [lia|]. intros [H|[H|[H _]]]; lia.
    + left. split; [right; right; split; [lia|reflexivity]|].
      intros [H|[_ H]]; [lia|discriminate].
  - assert (He : Z.even n = true) by (rewrite <- Z.negb_odd, Ho; reflexivity).
    rewrite He.
    destruct (Z.eq_dec n 0) as [->|Hz].
    + left. split; [left; reflexivity|]. intros [H|[H _]]; lia.
    + destruct (Z_le_gt_dec n 512) as [Hs|Hb].
      * right. split.
        -- destruct (Z_le_gt_dec n 256); [left; lia|].
           right. split; [|reflexivity].
           assert (n <> 257) by (intros ->; discriminate Ho). lia.
        -- intros [H|[H|[_ H]]]; [lia|lia|discriminate].
      * left. split; [right; left; lia|]. intros [H|[H _]]; lia.
Qed.

(** The paths of an accepted read: the signature emulator, the cached
    identification block, the dummy fill of a locked target, the direct
    read. *)
Lemma read_memory_paths (hd : Header) (wire : nat -> Reply) (fuel : nat)
  (start_addr n : Z) (s s' : St) (r : bool) :
  read_accepted n ->
  NVM.read_memory hd wire fuel start_addr n s = Some (r, s') ->
  exists new,
    trace s' = trace s ++ new /\ responses new = []
    /\ ((signature_read hd n s = true
         /\ iterations DummyFill new = []
         /\ (bit_is_set (UPDI_CONTROL s) (UPDI_PROG_bp hd) = false -> new = []))
        \/ (signature_read hd n s = false
            /\ bit_is_set (UPDI_CONTROL s) (UPDI_PROG_bp hd) = true
            /\ iterations DummyFill new = [])
        \/ (signature_read hd n s = false
            /\ bit_is_set (UPDI_CONTROL s) (UPDI_PROG_bp hd) = false
            /\ r = true
            /\ new = map (Iter DummyFill) (countdown (Z.to_nat n) n)
            /\ forall i, 0 <= i < n -> body s' (RSP_DATA hd + i) = 0xFF)).
Proof.
  intros Hacc H.
  assert (Hrange : 1 <= n < 65536) by (destruct Hacc as [?|[? _]]; lia).
  unfold NVM.read_memory in H. unfold bind at 1, modify at 1 in H.
  rewrite (read_guard_accepted _ Hacc) in H.
  unfold bind at 1, modify at 1 in H.
  unfold signature_read, read_mem_type.
  set (s1 := set_size_word0 _ _) in H.
  assert (Ht1 : trace s1 = trace s) by reflexivity.
  assert (Hc1 : UPDI_CONTROL s1 = UPDI_CONTROL s) by reflexivity.
  assert (Hb1 : body s1 = poke (body s) (MESSAGE_ID hd) (RSP_MEMORY hd))
    by reflexivity.
  assert (Hordinary :
    forall s0, trace s0 = trace s -> UPDI_CONTROL s0 = UPDI_CONTROL s ->
      forall k : M bool, k s0 = Some (r, s') ->
      k = (control <- gets UPDI_CONTROL ;;
           if bit_is_clear control (UPDI_PROG_bp hd)
           then NVM.dummy_fill fuel (RSP_DATA hd) n
           else if negb (Z.shiftr (u16 (n - 1)) 8 =? 0)
                then NVM.lds16 wire start_addr (NVM.ToBody (RSP_DATA hd)) n
                else NVM.lds8 wire start_addr (NVM.ToBody (RSP_DATA hd)) n) ->
      exists new,
        trace s' = trace s ++ new /\ responses new = []
        /\ ((bit_is_set (UPDI_CONTROL s) (UPDI_PROG_bp hd) = true
             /\ iterations DummyFill new = [])
            \/ (bit_is_set (UPDI_CONTROL s) (UPDI_PROG_bp hd) = false
                /\ r = true
                /\ new = map (Iter DummyFill) (countdown (Z.to_nat n) n)
                /\ forall i, 0 <= i < n -> body s' (RSP_DATA hd + i) = 0xFF))).
  { intros s0 Ht0 Hc0 k Hk ->. unfold bind at 1, gets at 1 in Hk.
    rewrite Hc0 in Hk. unfold bit_is_clear, bit_is_set in *.
    destruct (Z.testbit (UPDI_CONTROL s) (UPDI_PROG_bp hd)) eqn:Hprog;
      simpl in Hk.
    - unfold NVM.lds16, NVM.lds8, NVM.deliver, NVM.transact, bind, modify,
        ret in Hk.
      destruct (Z.shiftr (u16 (n - 1)) 8 =? 0); simpl in Hk;
        inversion Hk; subst; clear Hk; simpl; rewrite Ht0;
        eexists [_]; (split; [reflexivity|]); split; try reflexivity;
        left; split; reflexivity.
    - apply dummy_fill_inv in Hk as (-> & Ht & _ & Hcells & _); [|assumption].
      eexists. split; [rewrite Ht, Ht0; reflexivity|].
      split.
      + apply responses_marks.
      + right. split; [reflexivity|]. split; [reflexivity|].
        split; [reflexivity|exact Hcells]. }
  destruct (n =? 1) eqn:Hone; simpl.
  - unfold bind at 1, gets at 1 in H. unfold bind at 1, gets at 1 in H.
    rewrite Hb1, Hc1 in H.
    destruct (ENABLE_ADDFEATS_LOCK_SIG hd) eqn:Hfeat; simpl in H |- *.
    + destruct (peek _ (MEM_TYPE hd) =? MTYPE_SIGN_JTAG hd) eqn:Hsig;
        simpl in H.
      * destruct (read_signature_quiet hd wire (u16 start_addr) s1)
          as (r0 & s0 & new & Hrun & Ht & Hresp & Hit & Hlocked).
        rewrite Hrun in H. inversion H; subst; clear H.
        exists new. rewrite Ht, Ht1. split; [reflexivity|].
        split; [assumption|]. left. split; [reflexivity|].
        split; [apply Hit|]. rewrite Hc1 in Hlocked. exact Hlocked.
      * destruct (ENABLE_ADDFEATS_DUMP_SIB hd
                  && bit_is_set (UPDI_CONTROL s) (UPDI_PROG_bp hd)
                  && (Z.land (u8 (Z.shiftr start_addr 16)) 128 =? 0)
                  && (u16 start_addr <? 32)) eqn:Hsib.
        -- unfold bind, modify, ret in H. inversion H; subst; clear H.
           exists []. simpl. rewrite app_nil_r.
           split; [reflexivity|]. split; [reflexivity|].
           right; left. split; [reflexivity|].
           apply andb_prop in Hsib as [Hsib _].
           apply andb_prop in Hsib as [Hsib _].
           apply andb_prop in Hsib as [_ Hsib]. auto.
        -- destruct (Hordinary s1 Ht1 Hc1 _ H eq_refl)
             as (new & Ht & Hresp & Hcase).
           exists new. split; [assumption|]. split; [assumption|].
           destruct Hcase as [[Hp Hi]|Hfill]; [right; left|right; right]; auto.
    + destruct (ENABLE_ADDFEATS_DUMP_SIB hd
                && bit_is_set (UPDI_CONTROL s) (UPDI_PROG_bp hd)
                && (Z.land (u8 (Z.shiftr start_addr 16)) 128 =? 0)
                && (u16 start_addr <? 32)) eqn:Hsib.
      * unfold bind, modify, ret in H. inversion H; subst; clear H.
        exists []. simpl. rewrite app_nil_r.
        split; [reflexivity|]. split; [reflexivity|].
        right; left. split; [reflexivity|].
        apply andb_prop in Hsib as [Hsib _].
        apply andb_prop in Hsib as [Hsib _].
        apply andb_prop in Hsib as [_ Hsib]. auto.
      * destruct (Hordinary s1 Ht1 Hc1 _ H eq_refl)
          as (new & Ht & Hresp & Hcase).
        exists new. split; [assumption|]. split; [assumption|].
        destruct Hcase as [[Hp Hi]|Hfill]; [right; left|right; right]; auto.
  - destruct (Hordinary s1 Ht1 Hc1 _ H eq_refl)
      as (new & Ht & Hresp & Hcase).
    exists new. split; [assumption|]. split; [assumption|].
    destruct Hcase as [[Hp Hi]|Hfill]; [right; left|right; right]; auto.
Qed.

Lemma read_memory_rejects (hd : Header) (wire : nat -> Reply) (fuel : nat)
  (start_addr n : Z) (s : St) :
  read_rejected n ->
  exists s',
    NVM.read_memory hd wire fuel start_addr n s = Some (true, s')
    /\ trace s' = trace s ++ [SetResponse (RSP_ILLEGAL_MEMORY_RANGE hd)].
Proof.
  intros Hrej. unfold NVM.read_memory. unfold bind at 1, modify at 1.
  rewrite (read_guard_rejected _ Hrej).
  eexists. split; reflexivity.
Qed.

Lemma read_memory_returns (hd : Header) (wire : nat -> Reply) (fuel : nat)
  (start_addr n : Z) (s : St) :
  read_accepted n -> (Z.to_nat n <= fuel)%nat ->
  exists r s', NVM.read_memory hd wire fuel start_addr n s = Some (r, s').
Proof.
  intros Hacc Hfuel.
  assert (Hrange : 1 <= n < 65536) by (destruct Hacc as [?|[? _]]; lia).
  unfold NVM.read_memory. unfold bind at 1, modify at 1.
  rewrite (read_guard_accepted _ Hacc).
  unfold bind at 1, modify at 1.
  set (s1 := set_size_word0 _ _).
  assert (Hordinary : forall s0,
    exists r s',
      (control <- gets UPDI_CONTROL ;;
       if bit_is_clear control (UPDI_PROG_bp hd)
       then NVM.dummy_fill fuel (RSP_DATA hd) n
       else if negb (Z.shiftr (u16 (n - 1)) 8 =? 0)
            then NVM.lds16 wire start_addr (NVM.ToBody (RSP_DATA hd)) n
            else NVM.lds8 wire start_addr (NVM.ToBody (RSP_DATA hd)) n) s0
      = Some (r, s')).
  { intros s0. unfold bind at 1, gets at 1.
    destruct (bit_is_clear (UPDI_CONTROL s0) (UPDI_PROG_bp hd)).
    - apply dummy_fill_returns; assumption.
    - destruct (negb (Z.shiftr (u16 (n - 1)) 8 =? 0)); eexists _, _; reflexivity. }
  destruct (n =? 1); [|apply Hordinary].
  unfold bind at 1, gets at 1. unfold bind at 1, gets at 1.
  destruct (ENABLE_ADDFEATS_LOCK_SIG hd && _).
  - destruct (read_signature_quiet hd wire (u16 start_addr) s1)
      as (r0 & s0 & new & Hrun & _). eauto.
  - destruct (ENABLE_ADDFEATS_DUMP_SIB hd && _ && _ && _);
      [eexists _, _; reflexivity | apply Hordinary].
Qed.

(** C4.  On the counts a [size_t] holds, the read core rejects exactly the
    count 0, the counts above 512 and the odd counts above 256; every
    other count is from 1 to 256 or even from 258 to 512.  A rejected
    count makes [read_memory] hand [RSP_ILLEGAL_MEMORY_RANGE] to
    [set_response] and return true without a transport call.  An accepted
    count never leads to a call of [set_response], and the read returns
    once the fuel covers the count. *)
Theorem read_memory_count_check (hd : Header) (wire : nat -> Reply)
  (fuel : nat) (start_addr n : Z) (s : St) :
  0 <= n ->
  (read_rejected n <-> ~ read_accepted n)
  /\ (read_rejected n ->
      exists s',
        NVM.read_memory hd wire fuel start_addr n s = Some (true, s')
        /\ trace s' = trace s ++ [SetResponse (RSP_ILLEGAL_MEMORY_RANGE hd)]
        /\ calls (trace s') = calls (trace s))
  /\ (read_accepted n ->
      (forall r s',
         NVM.read_memory hd wire fuel start_addr n s = Some (r, s') ->
         exists new, trace s' = trace s ++ new /\ responses new = [])
      /\ ((Z.to_nat n <= fuel)%nat ->
          exists r s',
            NVM.read_memory hd wire fuel start_addr n s = Some (r, s'))).
Proof.
  intros Hn. split; [|split].
  - destruct (read_count_cases n Hn) as [[Hr Ha]|[Ha Hr]]; tauto.
  - intros Hrej.
    destruct (read_memory_rejects hd wire fuel start_addr n s Hrej)
      as (s' & Hrun & Ht).
    exists s'. split; [assumption|]. split; [assumption|].
    rewrite Ht, calls_app. simpl. apply app_nil_r.
  - intros Hacc. split.
    + intros r s' Hrun.
      destruct (read_memory_paths _ _ _ _ _ _ _ _ Hacc Hrun)
        as (new & Ht & Hresp & _).
      exists new. auto.
    + apply read_memory_returns. assumption.
Qed.

Lemma read_memory_count_check_witness :
  (exists s',
     NVM.read_memory sample_header quiet_wire 0 0x8000 257
       (initial 8 0 64 (cells [])) = Some (true, s')
     /\ trace s' = [SetResponse 0xA5])
  /\ (exists r s',
        NVM.read_memory sample_header quiet_wire 258 0x8000 258
          (initial 8 0 64 (cells [])) = Some (r, s')
        /\ responses (trace s') = []).
Proof.
  split.
  - destruct (read_memory_count_check sample_header quiet_wire 0 0x8000 257
                (initial 8 0 64 (cells []))) as (_ & Hrej & _); [lia|].
    destruct Hrej as (s' & Hrun & Ht & _).
    + right; right. split; [lia|reflexivity].
    + exists s'. split; assumption.
  - destruct (read_memory_count_check sample_header quiet_wire 258 0x8000 258
                (initial 8 0 64 (cells []))) as (_ & _ & Hacc); [lia|].
    destruct Hacc as [Hsafe Hlive].
    + right. split; [lia|reflexivity].
    + destruct Hlive as (r & s' & Hrun); [lia|].
      exists r, s'. split; [assumption|].
      destruct (Hsafe r s' Hrun) as (new & Ht & Hresp).
      rewrite Ht. exact Hresp.
Defined.

(** C5, as the code has it.  With the program-mode flag clear, an accepted
    read returns once the fuel covers the count, and makes no transport
    call.  Unless it is a single-byte read of the signature memory type,
    which the signature emulator answers, it returns true with [0xFF] in
    each of the [n] cells of the response data. *)
Theorem read_memory_locked (hd : Header) (wire : nat -> Reply) (fuel : nat)
  (start_addr n : Z) (s : St) :
  bit_is_clear (UPDI_CONTROL s) (UPDI_PROG_bp hd) = true ->
  read_accepted n ->
  (Z.to_nat n <= fuel)%nat ->
  exists r s',
    NVM.read_memory hd wire fuel start_addr n s = Some (r, s')
    /\ calls (trace s') = calls (trace s)
    /\ (signature_read hd n s = false ->
        r = true
        /\ forall i, 0 <= i < n -> body s' (RSP_DATA hd + i) = 0xFF).
Proof.
  intros Hlocked Hacc Hfuel.
  assert (Hprog : bit_is_set (UPDI_CONTROL s) (UPDI_PROG_bp hd) = false).
  { unfold bit_is_clear in Hlocked. unfold bit_is_set.
    destruct (Z.testbit _ _); [discriminate|reflexivity]. }
  destruct (read_memory_returns hd wire fuel start_addr n s Hacc Hfuel)
    as (r & s' & Hrun).
  exists r, s'. split; [assumption|].
  destruct (read_memory_paths _ _ _ _ _ _ _ _ Hacc Hrun)
    as (new & Ht & _ & Hpath).
  destruct Hpath as [(Hsig & _ & Hnew)|[(_ & Hp & _)|(Hsig & _ & Hr & Hnew & Hcells)]].
  - rewrite Ht, (Hnew Hprog), app_nil_r. split; [reflexivity|].
    intros Hno. congruence.
  - congruence.
  - split; [|auto]. rewrite Ht, Hnew, calls_app, calls_marks.
    apply app_nil_r.
Qed.

Lemma read_memory_locked_witness :
  exists r s',
    NVM.read_memory sample_header quiet_wire 4 0x8000 4
      (initial 0 0 64 (cells [])) = Some (r, s')
    /\ r = true
    /\ map (body s') [1; 2; 3; 4] = [0xFF; 0xFF; 0xFF; 0xFF]
    /\ calls (trace s') = [].
Proof.
  destruct (read_memory_locked sample_header quiet_wire 4 0x8000 4
              (initial 0 0 64 (cells [])))
    as (r & s' & Hrun & Hcalls & Hfill).
  - reflexivity.
  - left. lia.
  - simpl. lia.
  - exists r, s'. split; [assumption|].
    destruct (Hfill eq_refl) as [Hr Hcells].
    split; [assumption|]. split; [|assumption].
    simpl. rewrite <- (Hcells 0), <- (Hcells 1), <- (Hcells 2), <- (Hcells 3) at 1
      by lia.
    reflexivity.
Defined.

(** C5 as stated fails: in info mode a single-byte read of the signature
    memory type at the signature offset yields [0x1E], not [0xFF]. *)
Lemma read_memory_locked_counterexample :
  ~ (forall (hd : Header) (wire : nat -> Reply) (fuel : nat)
            (start_addr n : Z) (s : St),
        bit_is_clear (UPDI_CONTROL s) (UPDI_PROG_bp hd) = true ->
        read_accepted n ->
        (Z.to_nat n <= fuel)%nat ->
        exists r s',
          NVM.read_memory hd wire fuel start_addr n s = Some (r, s')
          /\ calls (trace s') = calls (trace s)
          /\ forall i, 0 <= i < n -> body s' (RSP_DATA hd + i) = 0xFF).
Proof.
  intros Hclaim.
  destruct (Hclaim sample_header quiet_wire 1%nat 0x1100 1
              locked_signature_request)
    as (r & s' & Hrun & _ & Hcells).
  - reflexivity.
  - left. lia.
  - simpl. lia.
  - specialize (Hcells 0 ltac:(lia)).
    vm_compute in Hrun. inversion Hrun; subst; clear Hrun.
    vm_compute in Hcells. discriminate Hcells.
Qed.

(** ** Signature emulator *)

(** C6, as the code has it.  In program mode every signature read at the
    canonical offset makes the direct three-byte read of the target,
    whatever an earlier call has cached.  If that read fails on the
    transport the cached signature becomes [{0,0,0}] and the byte served
    is 0; if it succeeds, the bytes received are what the cache holds. *)
Theorem read_signature_program_mode (hd : Header) (wire : nat -> Reply)
  (start_addr : Z) (s : St) :
  bit_is_set (UPDI_CONTROL s) (UPDI_PROG_bp hd) = true ->
  u16 start_addr = canonical_offset hd s ->
  exists s',
    NVM.read_signature hd wire start_addr s = Some (true, s')
    /\ trace s' = trace s ++ [Wire (CLds8 (u16 start_addr) 3) (wire (clock s))]
    /\ nvm_signature_offset s' = u16 start_addr
    /\ (ok (wire (clock s)) = false ->
        map (signature s') [0; 1; 2] = [0; 0; 0]
        /\ body s' (RSP_DATA hd) = 0)
    /\ (ok (wire (clock s)) = true ->
        signature s'
        = blit (signature s) 0 (firstn 3 (payload (wire (clock s))))).
Proof.
  intros Hprog Hcanon.
  unfold NVM.read_signature, NVM.lds8, NVM.deliver, NVM.transact,
    bind, gets, modify, ret.
  unfold canonical_offset in Hcanon. rewrite <- Hcanon, Z.eqb_refl, Hprog.
  simpl.
  destruct (ok (wire (clock s))) eqn:Hok; simpl;
    rewrite Z.sub_diag; change (u8 0 <? 3) with true; simpl.
  - eexists. split; [reflexivity|]. split; [reflexivity|].
    split; [reflexivity|]. split; [discriminate|]. reflexivity.
  - eexists. split; [reflexivity|]. split; [reflexivity|].
    split; [reflexivity|]. split; [|discriminate].
    intros _. split; [reflexivity|].
    simpl. rewrite poke_same. reflexivity.
Qed.

Lemma read_signature_program_mode_witness :
  exists s',
    NVM.read_signature sample_header signature_then_failure 0x1100
      program_mode_request = Some (true, s')
    /\ map (signature s') [0; 1; 2] = [0x1E; 0x95; 0x0F].
Proof.
  destruct (read_signature_program_mode sample_header signature_then_failure
              0x1100 program_mode_request)
    as (s' & Hrun & _ & _ & _ & Hgood).
  - reflexivity.
  - reflexivity.
  - exists s'. split; [assumption|]. rewrite Hgood by reflexivity.
    reflexivity.
Defined.

(** C6 as stated fails: after a first call has cached [1E 95 0F], a second
    call at the same offset whose read fails serves 0 and leaves
    [{0,0,0}] in the cache, not the value of the first call. *)
Lemma read_signature_cache_counterexample :
  exists s1 s2,
    NVM.read_signature sample_header signature_then_failure 0x1100
      program_mode_request = Some (true, s1)
    /\ map (signature s1) [0; 1; 2] = [0x1E; 0x95; 0x0F]
    /\ body s1 (RSP_DATA sample_header) = 0x1E
    /\ ok (signature_then_failure (clock s1)) = false
    /\ NVM.read_signature sample_header signature_then_failure 0x1100 s1
       = Some (true, s2)
    /\ map (signature s2) [0; 1; 2] = [0; 0; 0]
    /\ body s2 (RSP_DATA sample_header) = 0
    /\ body s2 (RSP_DATA sample_header) <> body s1 (RSP_DATA sample_header).
Proof.
  eexists _, _.
  split; [vm_compute; reflexivity|].
  split; [vm_compute; reflexivity|].
  split; [vm_compute; reflexivity|].
  split; [vm_compute; reflexivity|].
  split; [vm_compute; reflexivity|].
  split; [vm_compute; reflexivity|].
  split; [vm_compute; reflexivity|].
  vm_compute. discriminate.
Qed.

(** ** What a computation can log *)

Lemma logs_only_ret (P : Event -> Prop) {A} (x : A) : logs_only P (ret x).
Proof.
  intros s r s' H. inversion H; subst. exists []. rewrite app_nil_r. auto.
Qed.

Lemma logs_only_gets (P : Event -> Prop) {A} (f : St -> A) :
  logs_only P (gets f).
Proof.
  intros s r s' H. inversion H; subst. exists []. rewrite app_nil_r. auto.
Qed.

Lemma logs_only_modify (P : Event -> Prop) (f : St -> St) :
  (forall s, trace (f s) = trace s) -> logs_only P (modify f).
Proof.
  intros Hf s r s' H. inversion H; subst. exists [].
  rewrite app_nil_r, Hf. auto.
Qed.

Lemma logs_only_emit (P : Event -> Prop) (e : Event) :
  P e -> logs_only P (emit e).
Proof. intros He s r s' H. inversion H; subst. exists [e]. auto. Qed.

Lemma logs_only_transact (P : Event -> Prop) (wire : nat -> Reply) (c : Call) :
  (forall r, P (Wire c r)) -> logs_only P (NVM.transact wire c).
Proof.
  intros Hc s r s' H. inversion H; subst. eexists [_]. simpl. auto.
Qed.

Lemma logs_only_bind (P : Event -> Prop) {A B} (m : M A) (k : A -> M B) :
  logs_only P m -> (forall x, logs_only P (k x)) -> logs_only P (bind m k).
Proof.
  intros Hm Hk s r s' H. apply bind_inv in H as (x & s1 & H1 & H2).
  apply Hm in H1 as (n1 & Ht1 & Hp1). apply Hk in H2 as (n2 & Ht2 & Hp2).
  exists (n1 ++ n2). rewrite Ht2, Ht1, app_assoc. split; [reflexivity|].
  apply Forall_app. auto.
Qed.

Lemma logs_only_if (P : Event -> Prop) {A} (c : bool) (m1 m2 : M A) :
  logs_only P m1 -> logs_only P m2 -> logs_only P (if c then m1 else m2).
Proof. destruct c; auto. Qed.

Lemma logs_only_spinning (P : Event -> Prop) {A} : logs_only P (@spinning A).
Proof. intros s r s' H. discriminate. Qed.

Lemma unmarked_iterations (l : Loop) (evs : list Event) :
  Forall unmarked evs -> iterations l evs = [].
Proof.
  induction 1 as [|e evs He _ IH]; simpl; [reflexivity|].
  destruct e; simpl in *; tauto.
Qed.

Lemma logs_only_poll (wire : nat -> Reply) (reg : Z) (fuel : nat) :
  logs_only unmarked (NVM.poll wire reg fuel).
Proof.
  induction fuel as [|fuel IH]; simpl; [apply logs_only_spinning|].
  unfold NVM.ld8, NVM.delay_50us.
  repeat first
    [ apply logs_only_bind; [|intros ?]
    | apply logs_only_if
    | apply logs_only_ret | apply logs_only_gets
    | apply logs_only_modify; reflexivity
    | apply logs_only_emit; exact I
    | apply logs_only_transact; intros; exact I
    | exact IH ].
Qed.

(** Walks through a computation made of the steps above. *)
Ltac logs_steps :=
  repeat first
    [ apply logs_only_bind; [|intros ?]
    | apply logs_only_if
    | apply logs_only_ret | apply logs_only_gets
    | apply logs_only_modify; reflexivity
    | apply logs_only_emit; exact I
    | apply logs_only_transact; intros; exact I
    | apply logs_only_poll ].

Lemma logs_only_nvm_ctrl_change (hd : Header) (wire : nat -> Reply) (op : Z) :
  logs_only unmarked (NVM.nvm_ctrl_change hd wire op).
Proof.
  unfold NVM.nvm_ctrl_change, NVM.nvm_ctrl, NVM.st8, NVM.ld8. logs_steps.
Qed.

(** No writer of a generation marks an iteration: their loads are single
    transactions. *)
Lemma logs_only_write_flash (hd : Header) (wire : nat -> Reply)
  (g : Generation) (fuel : nat) (start_addr data n : Z) (is_bound : bool) :
  logs_only unmarked (write_flash hd wire g fuel start_addr data n is_bound).
Proof.
  destruct g; simpl;
    unfold NVM.write_flash_v0, NVM.write_flash_v2, NVM.write_flash_v3,
      NVM.nvm_ctrl_v2, NVM.nvm_wait, NVM.nvm_wait_v3, NVM.nvm_ctrl,
      NVM.st8, NVM.sts8rsd, NVM.sts16rsd, NVM.deref, NVM.block;
    repeat first [ apply logs_only_nvm_ctrl_change | progress logs_steps ].
Qed.

Lemma logs_only_write_eeprom (hd : Header) (wire : nat -> Reply)
  (g : Generation) (fuel : nat) (start_addr data n : Z) :
  logs_only unmarked (write_eeprom hd wire g fuel start_addr data n).
Proof.
  destruct g; simpl;
    unfold NVM.write_eeprom_v0, NVM.write_eeprom_v2, NVM.write_eeprom_v3,
      NVM.nvm_ctrl_v2, NVM.nvm_wait, NVM.nvm_ctrl, NVM.set_response,
      NVM.st8, NVM.sts8, NVM.sts8rsd, NVM.deref, NVM.block;
    repeat first [ apply logs_only_nvm_ctrl_change | progress logs_steps ].
Qed.

(** ** The fuse loop of the write dispatcher *)

(** Entered with a count from 1 to 65535, the fuse loop makes [k]
    iterations, the counter going down from the count, with [k] at most the
    count, and exactly the count when the loop ends with true.  The run is
    that of the first [k] calls of [write_fuse] and nothing else: the
    calls before the last returned true, and the last one gives the
    result. *)
Lemma fuse_loop_inv (hd : Header) (wire : nat -> Reply) (wfuel fuel : nat) :
  forall (start_addr data n : Z) (s s' : St) (r : bool),
    1 <= n < 65536 ->
    0 <= start_addr -> start_addr + n <= 4294967296 ->
    NVM.fuse_loop hd wire fuel wfuel start_addr data n s = Some (r, s') ->
    exists new k,
      trace s' = trace s ++ new
      /\ (1 <= k <= Z.to_nat n)%nat
      /\ iterations FuseBytes new = countdown k n
      /\ (r = true -> k = Z.to_nat n)
      /\ fuse_writes hd wire wfuel k start_addr data n s = Some (r, s').
Proof.
  induction fuel as [|fuel IH]; intros start_addr data n s s' r Hn Ha Hb H;
    [discriminate|].
  simpl in H. unfold emit, modify, NVM.deref, gets in H.
  unfold bind at 1 2 in H. simpl in H.
  apply bind_inv in H as (b & s1 & Hw & H).
  destruct (write_fuse_inv _ _ _ _ _ _ _ _ Hw) as (nf & Htf & _ & _ & Hif & _).
  simpl in Htf.
  assert (Hstep : forall k' : nat,
            fuse_writes hd wire wfuel (S k') start_addr data n s
            = match k' with
              | O => Some (b, s1)
              | S _ =>
                  if b then
                    fuse_writes hd wire wfuel k' (start_addr + 1) (data + 1)
                      (n - 1) s1
                  else None
              end).
  { intros k'. cbn [fuse_writes]. unfold emit, modify, NVM.deref, gets.
    unfold bind at 1 2. cbn [fst snd]. unfold bind at 1.
    cbn [body log] in Hw |- *. rewrite Hw.
    destruct k'; [reflexivity|]. destruct b; reflexivity. }
  destruct b; simpl in H.
  - assert (Hdec : u16 (n - 1) = n - 1).
    { unfold u16. apply Z.mod_small. lia. }
    rewrite Hdec in H.
    destruct (n - 1 =? 0) eqn:Hlast; simpl in H.
    + apply Z.eqb_eq in Hlast. inversion H; subst; clear H.
      exists (Iter FuseBytes n :: nf), 1%nat.
      split; [rewrite Htf, <- app_assoc; reflexivity|].
      split; [lia|]. split; [simpl; rewrite Hif; reflexivity|].
      split; [intros _; lia|]. apply Hstep.
    + apply Z.eqb_neq in Hlast.
      assert (Hnext : u32 (start_addr + 1) = start_addr + 1).
      { unfold u32. apply Z.mod_small. lia. }
      rewrite Hnext in H.
      apply IH in H as (new & k & Ht & Hk & Hit & Hr & Hch); [|lia|lia|lia].
      exists (Iter FuseBytes n :: nf ++ new), (S k).
      split; [rewrite Ht, Htf; repeat rewrite <- app_assoc; reflexivity|].
      split; [lia|].
      split; [simpl; rewrite iterations_app, Hif, Hit; reflexivity|].
      split; [intros Hrt; rewrite (Hr Hrt); lia|].
      rewrite Hstep. destruct k as [|k]; [lia|exact Hch].
  - inversion H; subst; clear H.
    exists (Iter FuseBytes n :: nf), 1%nat.
    split; [rewrite Htf, <- app_assoc; reflexivity|].
    split; [lia|]. split; [simpl; rewrite Hif; reflexivity|].
    split; [discriminate|]. apply Hstep.
Qed.

Lemma fuse_loop_returns (hd : Header) (wire : nat -> Reply) (wfuel fuel : nat) :
  idle_within wire wfuel ->
  forall (start_addr data n : Z) (s : St),
    1 <= n < 65536 -> (Z.to_nat n <= fuel)%nat ->
    exists r s',
      NVM.fuse_loop hd wire fuel wfuel start_addr data n s = Some (r, s').
Proof.
  intros Hidle.
  induction fuel as [|fuel IH]; intros start_addr data n s Hn Hfuel; [lia|].
  simpl. unfold emit, modify, NVM.deref, gets.
  unfold bind at 1 2. simpl.
  match goal with
  | |- context [bind (NVM.write_fuse hd wire wfuel ?a ?d) _ ?s0] =>
      destruct (returns_write_fuse hd wire wfuel a d Hidle s0)
        as (b & s1 & Hw)
  end.
  unfold bind. rewrite Hw.
  destruct b; simpl; [|eexists _, _; reflexivity].
  assert (Hdec : u16 (n - 1) = n - 1).
  { unfold u16. apply Z.mod_small. lia. }
  rewrite Hdec.
  destruct (n - 1 =? 0) eqn:Hlast; simpl; [eexists _, _; reflexivity|].
  apply Z.eqb_neq in Hlast. apply IH; lia.
Qed.

(** ** Write dispatcher *)

Arguments NVM.request_mem_type : simpl never.
Arguments NVM.request_byte_count : simpl never.
Arguments NVM.request_start_addr : simpl never.
Arguments NVM.is_flash_type : simpl never.
Arguments NVM.is_fuse_type : simpl never.
Arguments NVM.is_eeprom_type : simpl never.

(** Exposes the chain of tests of [write_memory], applied to the state
    that [set_response(RSP_OK)] leaves. *)
Ltac step_gets := unfold bind at 1; unfold gets at 1; cbv beta iota.

Ltac open_write_memory :=
  unfold NVM.write_memory; do 3 step_gets;
  unfold bind at 1; unfold NVM.set_response at 1; unfold bind at 1;
  unfold emit at 1; unfold modify at 1 2; cbv beta iota;
  do 3 step_gets;
  cbn [UPDI_CONTROL UPDI_NVMCTRL flash_page_size set_body log].

(** C9.  When the info flag is set and the memory type of the request is
    the user-signature class, [write_memory] sets [RSP_OK] and hands the
    request to [write_userrow] with the address and the byte count as they
    stand in the packet: this holds for every value of the 16-bit count,
    the run makes no other call and no other [set_response], and its
    result is the outcome of [write_userrow]. *)
Theorem write_memory_userrow (hd : Header) (wire : nat -> Reply)
  (fuel : nat) (s : St) :
  bit_is_set (UPDI_CONTROL s) (UPDI_INFO_bp hd) = true ->
  NVM.request_mem_type hd s = MTYPE_XMEGA_USERSIG ->
  exists s',
    NVM.write_memory hd wire fuel s = Some (ok (wire (clock s)), s')
    /\ trace s'
       = trace s
         ++ [SetResponse (RSP_OK hd);
             Wire (CWriteUserrow (NVM.dword_at (body s) (DATA_ADDRESS hd))
                     (bytes_at (body (after_rsp_ok hd s)) (DATA_START hd)
                        (NVM.word_at (body s) (DATA_LENGTH hd)))
                     (NVM.word_at (body s) (DATA_LENGTH hd)))
               (wire (clock s))]
    /\ peek (body s) (MEM_TYPE hd) = MTYPE_XMEGA_USERSIG
    /\ Z.shiftr (NVM.dword_at (body s) (DATA_ADDRESS hd)) 24 = 0.
Proof.
  intros Hinfo Hmem.
  assert (Hraw : Z.shiftr (NVM.dword_at (body s) (DATA_ADDRESS hd)) 24 = 0
                 /\ peek (body s) (MEM_TYPE hd) = MTYPE_XMEGA_USERSIG).
  { unfold NVM.request_mem_type in Hmem.
    destruct (Z.shiftr (NVM.dword_at (body s) (DATA_ADDRESS hd)) 24 =? 0) eqn:Hhi;
      simpl in Hmem; [|discriminate].
    apply Z.eqb_eq in Hhi. auto. }
  destruct Hraw as [Hhi Htoken].
  assert (Haddr : NVM.request_start_addr hd s
                  = NVM.dword_at (body s) (DATA_ADDRESS hd)).
  { unfold NVM.request_start_addr. rewrite Hhi. reflexivity. }
  open_write_memory. rewrite Hinfo, Hmem. simpl.
  unfold NVM.block, NVM.write_userrow, NVM.transact, bind, gets, ret. simpl.
  rewrite Haddr. unfold NVM.request_byte_count.
  eexists. split; [reflexivity|]. split; [trace_eq|]. auto.
Qed.

Lemma write_memory_userrow_witness :
  exists s',
    NVM.write_memory sample_header quiet_wire 0 userrow_request
    = Some (true, s')
    /\ exists bytes, calls (trace s') = [CWriteUserrow 0x1300 bytes 300].
Proof.
  destruct (write_memory_userrow sample_header quiet_wire 0 userrow_request)
    as (s' & Hrun & Ht & _).
  - reflexivity.
  - reflexivity.
  - exists s'. split; [exact Hrun|]. rewrite Ht. eexists. reflexivity.
Defined.

Lemma flash_type_not_usersig (m : Z) :
  NVM.is_flash_type m = true -> (m =? MTYPE_XMEGA_USERSIG) = false.
Proof.
  unfold NVM.is_flash_type. intros H.
  apply orb_prop in H as [H|H]; [apply orb_prop in H as [H|H]|];
    apply Z.eqb_eq in H; subst; reflexivity.
Qed.

(** C2, as the code has it.  In program mode, for every generation, a
    request of a flash memory type whose byte count is neither the cached
    page size nor 256 makes [write_memory] set [RSP_OK], then
    [RSP_NO_TARGET_POWER], and return true, with no transport call and
    whatever the fuel. *)
Theorem write_memory_page_size_mismatch (hd : Header) (wire : nat -> Reply)
  (fuel : nat) (s : St) :
  bit_is_set (UPDI_CONTROL s) (UPDI_PROG_bp hd) = true ->
  NVM.is_flash_type (NVM.request_mem_type hd s) = true ->
  NVM.request_byte_count hd s <> flash_page_size s ->
  NVM.request_byte_count hd s <> 256 ->
  exists s',
    NVM.write_memory hd wire fuel s = Some (true, s')
    /\ trace s'
       = trace s ++ [SetResponse (RSP_OK hd);
                     SetResponse (RSP_NO_TARGET_POWER hd)]
    /\ clock s' = clock s
    /\ peek (body s') (MESSAGE_ID hd) = u8 (RSP_NO_TARGET_POWER hd).
Proof.
  intros Hprog Hflash Hpage H256.
  open_write_memory.
  rewrite (flash_type_not_usersig _ Hflash), andb_false_r.
  unfold bit_is_clear, bit_is_set in *. rewrite Hprog, Hflash.
  replace (flash_page_size s =? NVM.request_byte_count hd s) with false
    by (symmetry; apply Z.eqb_neq; congruence).
  replace (256 =? NVM.request_byte_count hd s) with false
    by (symmetry; apply Z.eqb_neq; congruence).
  simpl. eexists. split; [reflexivity|]. split; [trace_eq|].
  split; [reflexivity|]. simpl. unfold peek. rewrite poke_same.
  apply u8_idem.
Qed.

Lemma write_memory_page_size_mismatch_witness :
  exists s',
    NVM.write_memory sample_header quiet_wire 0 (mismatch_request 8)
    = Some (true, s')
    /\ trace s' = [SetResponse 0x80; SetResponse 0xAB].
Proof.
  destruct (write_memory_page_size_mismatch sample_header quiet_wire 0
              (mismatch_request 8)) as (s' & Hrun & Ht & _).
  - reflexivity.
  - reflexivity.
  - vm_compute. discriminate.
  - vm_compute. discriminate.
  - exists s'. split; assumption.
Defined.

(** C2 as stated fails: out of program mode the same request makes
    [write_memory] return false, with [RSP_OK] as the only response. *)
Lemma write_memory_page_size_mismatch_counterexample :
  NVM.is_flash_type (NVM.request_mem_type sample_header (mismatch_request 0))
  = true
  /\ NVM.request_byte_count sample_header (mismatch_request 0) = 100
  /\ flash_page_size (mismatch_request 0) = 64
  /\ exists s',
       NVM.write_memory sample_header quiet_wire 0 (mismatch_request 0)
       = Some (false, s')
       /\ trace s' = [SetResponse (RSP_OK sample_header)].
Proof.
  split; [reflexivity|]. split; [reflexivity|]. split; [reflexivity|].
  eexists. split; [vm_compute; reflexivity|]. reflexivity.
Qed.

(** ** The two counted loops *)

Lemma returns_nvm_ctrl_change (hd : Header) (wire : nat -> Reply) (op : Z) :
  returns (NVM.nvm_ctrl_change hd wire op).
Proof.
  unfold NVM.nvm_ctrl_change, NVM.nvm_ctrl, NVM.st8, NVM.ld8. returns_steps.
Qed.

#[export] Hint Resolve returns_nvm_ctrl_change : returns.

Lemma returns_write_flash (hd : Header) (wire : nat -> Reply)
  (g : Generation) (fuel : nat) (start_addr data n : Z) (is_bound : bool) :
  idle_within wire fuel ->
  returns (write_flash hd wire g fuel start_addr data n is_bound).
Proof.
  intros Hidle. destruct g; simpl;
    unfold NVM.write_flash_v0, NVM.write_flash_v2, NVM.write_flash_v3,
      NVM.nvm_ctrl_v2, NVM.nvm_wait, NVM.nvm_wait_v3, NVM.nvm_ctrl,
      NVM.st8, NVM.sts8rsd, NVM.sts16rsd, NVM.deref, NVM.block;
    returns_steps.
Qed.

Lemma returns_write_eeprom (hd : Header) (wire : nat -> Reply)
  (g : Generation) (fuel : nat) (start_addr data n : Z) :
  idle_within wire fuel ->
  returns (write_eeprom hd wire g fuel start_addr data n).
Proof.
  intros Hidle. destruct g; simpl;
    unfold NVM.write_eeprom_v0, NVM.write_eeprom_v2, NVM.write_eeprom_v3,
      NVM.nvm_ctrl_v2, NVM.nvm_wait, NVM.nvm_ctrl, NVM.set_response, emit,
      NVM.st8, NVM.sts8, NVM.sts8rsd, NVM.deref, NVM.block;
    returns_steps.
Qed.

Lemma countdown_bounds (k : nat) :
  forall (n c : Z), In c (countdown k n) -> n - Z.of_nat k < c <= n.
Proof.
  induction k as [|k IH]; intros n c H; simpl in H; [contradiction|].
  destruct H as [<-|H]; [lia|]. apply IH in H. lia.
Qed.

(** The count of a request that reaches the second switch of
    [write_memory]. *)
Lemma write_count_range (n : Z) :
  (n =? 0) || (256 <? n) = false -> 0 <= n -> 1 <= n <= 256.
Proof.
  intros H Hn. apply orb_false_iff in H as [H0 H256].
  apply Z.eqb_neq in H0. apply Z.ltb_ge in H256. lia.
Qed.

Lemma request_byte_count_range (hd : Header) (s : St) :
  0 <= NVM.request_byte_count hd s < 65536.
Proof.
  unfold NVM.request_byte_count, NVM.word_at, peek.
  pose proof (u8_range (body s (DATA_LENGTH hd))).
  pose proof (u8_range (body s (DATA_LENGTH hd + 1))). lia.
Qed.

Lemma request_start_addr_range (hd : Header) (s : St) :
  0 <= NVM.request_start_addr hd s < 16777216.
Proof.
  unfold NVM.request_start_addr.
  set (a := NVM.dword_at (body s) (DATA_ADDRESS hd)).
  assert (Ha : 0 <= a).
  { unfold a, NVM.dword_at, peek.
    pose proof (u8_range (body s (DATA_ADDRESS hd))).
    pose proof (u8_range (body s (DATA_ADDRESS hd + 1))).
    pose proof (u8_range (body s (DATA_ADDRESS hd + 2))).
    pose proof (u8_range (body s (DATA_ADDRESS hd + 3))). lia. }
  destruct (Z.shiftr a 24 =? 0) eqn:Hhi; simpl.
  - apply Z.eqb_eq in Hhi. rewrite Z.shiftr_div_pow2 in Hhi by lia.
    apply Z.div_small_iff in Hhi; [|lia].
    change (2 ^ 24) with 16777216 in Hhi. lia.
  - change 65535 with (Z.ones 16). rewrite Z.land_ones by lia.
    pose proof (Z.mod_pos_bound a (2 ^ 16) ltac:(lia)).
    change (2 ^ 16) with 65536 in *. lia.
Qed.

(** The iterations of the fuse loop in a run of [write_memory]: none, or
    a count-down from the byte count of the request, which is then from 1
    to 256, that is complete when the run ends with true. *)
Lemma write_memory_iterations (hd : Header) (wire : nat -> Reply)
  (fuel : nat) (s s' : St) (r : bool) :
  NVM.write_memory hd wire fuel s = Some (r, s') ->
  exists new,
    trace s' = trace s ++ new
    /\ (iterations FuseBytes new = []
        \/ (1 <= NVM.request_byte_count hd s <= 256
            /\ exists k,
                 (1 <= k <= Z.to_nat (NVM.request_byte_count hd s))%nat
                 /\ iterations FuseBytes new
                    = countdown k (NVM.request_byte_count hd s)
                 /\ (r = true -> k = Z.to_nat (NVM.request_byte_count hd s))
                 /\ fuse_writes hd wire fuel k (NVM.request_start_addr hd s)
                      (DATA_START hd) (NVM.request_byte_count hd s)
                      (after_rsp_ok hd s)
                    = Some (r, s'))).
Proof.
  open_write_memory.
  set (s1 := set_body _ _).
  assert (Hs1 : trace s1 = trace s ++ [SetResponse (RSP_OK hd)])
    by reflexivity.
  assert (Hleaf : forall m : M bool,
            logs_only unmarked m -> m s1 = Some (r, s') ->
            exists new,
              trace s' = trace s ++ new /\ iterations FuseBytes new = []).
  { intros m Hm Hrun. apply Hm in Hrun as (new & Ht & Hu).
    exists (SetResponse (RSP_OK hd) :: new).
    split; [rewrite Ht, Hs1, <- app_assoc; reflexivity|].
    simpl. apply unmarked_iterations. assumption. }
  assert (Hquiet : forall m : M bool,
            logs_only unmarked m -> m s1 = Some (r, s') ->
            exists new,
              trace s' = trace s ++ new
              /\ (iterations FuseBytes new = []
                  \/ (1 <= NVM.request_byte_count hd s <= 256
                      /\ exists k,
                           (1 <= k <= Z.to_nat (NVM.request_byte_count hd s))%nat
                           /\ iterations FuseBytes new
                              = countdown k (NVM.request_byte_count hd s)
                           /\ (r = true ->
                               k = Z.to_nat (NVM.request_byte_count hd s))
                           /\ fuse_writes hd wire fuel k
                                (NVM.request_start_addr hd s) (DATA_START hd)
                                (NVM.request_byte_count hd s)
                                (after_rsp_ok hd s)
                              = Some (r, s')))).
  { intros m Hm Hrun. destruct (Hleaf m Hm Hrun) as (new & Ht & Hi).
    exists new. auto. }
  assert (Heeprom : forall g,
            logs_only unmarked
              (write_eeprom hd wire g fuel (NVM.request_start_addr hd s)
                 (DATA_START hd) (NVM.request_byte_count hd s)))
    by (intros g; apply logs_only_write_eeprom).
  assert (Hflash : forall g b,
            logs_only unmarked
              (write_flash hd wire g fuel (NVM.request_start_addr hd s)
                 (DATA_START hd) (NVM.request_byte_count hd s) b))
    by (intros g b; apply logs_only_write_flash).
  assert (Hresp : forall c,
            logs_only unmarked (NVM.set_response hd c ;; ret true)).
  { intros c. unfold NVM.set_response. logs_steps. }
  destruct (bit_is_set (UPDI_CONTROL s) (UPDI_INFO_bp hd)
            && (NVM.request_mem_type hd s =? MTYPE_XMEGA_USERSIG)).
  { apply Hquiet. unfold NVM.block, NVM.write_userrow. logs_steps. }
  destruct (bit_is_clear (UPDI_CONTROL s) (UPDI_PROG_bp hd)).
  { apply Hquiet. logs_steps. }
  destruct (NVM.is_flash_type (NVM.request_mem_type hd s)).
  { destruct (negb _ && negb _); [apply Hquiet, Hresp|].
    destruct (bit_is_set (UPDI_NVMCTRL s) (UPDI_GEN3_bp hd));
      [apply Hquiet, (Hflash Gen3_5)|].
    destruct (bit_is_set (UPDI_NVMCTRL s) (UPDI_GEN2_bp hd));
      [apply Hquiet, (Hflash Gen2_4) | apply Hquiet, (Hflash Gen0)]. }
  destruct ((NVM.request_byte_count hd s =? 0)
            || (256 <? NVM.request_byte_count hd s)) eqn:Hcount;
    [apply Hquiet, Hresp|].
  apply write_count_range in Hcount;
    [|apply request_byte_count_range].
  destruct (NVM.request_mem_type hd s =? MTYPE_SRAM).
  { apply Hquiet. unfold NVM.block, NVM.sts8. logs_steps. }
  assert (Hdispatch :
    (if bit_is_set (UPDI_NVMCTRL s) (UPDI_GEN3_bp hd)
     then NVM.write_eeprom_v3 hd wire (NVM.request_start_addr hd s)
            (DATA_START hd) (NVM.request_byte_count hd s)
     else if bit_is_set (UPDI_NVMCTRL s) (UPDI_GEN2_bp hd)
          then NVM.write_eeprom_v2 hd wire fuel (NVM.request_start_addr hd s)
                 (DATA_START hd) (NVM.request_byte_count hd s)
          else NVM.write_eeprom_v0 hd wire fuel (NVM.request_start_addr hd s)
                 (DATA_START hd) (NVM.request_byte_count hd s))
    = write_eeprom hd wire (generation_of hd (UPDI_NVMCTRL s)) fuel
        (NVM.request_start_addr hd s) (DATA_START hd)
        (NVM.request_byte_count hd s)).
  { unfold generation_of.
    destruct (bit_is_set (UPDI_NVMCTRL s) (UPDI_GEN3_bp hd)); [reflexivity|].
    destruct (bit_is_set (UPDI_NVMCTRL s) (UPDI_GEN2_bp hd)); reflexivity. }
  rewrite Hdispatch.
  destruct (NVM.is_fuse_type (NVM.request_mem_type hd s)).
  - destruct (bit_is_clear (UPDI_NVMCTRL s) (UPDI_GEN3_bp hd)
              && bit_is_clear (UPDI_NVMCTRL s) (UPDI_GEN2_bp hd));
      [|apply Hquiet, Heeprom].
    intros Hrun.
    pose proof (request_start_addr_range hd s) as Haddr.
    apply fuse_loop_inv in Hrun as (new & k & Ht & Hk & Hit & Hr & Hch);
      [|lia|lia|lia].
    exists (SetResponse (RSP_OK hd) :: new).
    split; [rewrite Ht, Hs1, <- app_assoc; reflexivity|].
    right. split; [assumption|]. exists k. simpl.
    split; [assumption|]. split; [assumption|]. split; [assumption|].
    exact Hch.
  - destruct (NVM.is_eeprom_type (NVM.request_mem_type hd s));
      [apply Hquiet, Heeprom | apply Hquiet, Hresp].
Qed.

Lemma write_memory_returns (hd : Header) (wire : nat -> Reply)
  (fuel : nat) (s : St) :
  idle_within wire fuel -> (256 <= fuel)%nat ->
  exists r s', NVM.write_memory hd wire fuel s = Some (r, s').
Proof.
  intros Hidle Hfuel. open_write_memory.
  set (s1 := set_body _ _).
  assert (Hleaf : forall m : M bool, returns m ->
            exists r s', m s1 = Some (r, s')) by (intros m Hm; apply Hm).
  assert (Heeprom : forall g,
            returns
              (write_eeprom hd wire g fuel (NVM.request_start_addr hd s)
                 (DATA_START hd) (NVM.request_byte_count hd s)))
    by (intros g; apply returns_write_eeprom; assumption).
  assert (Hflash : forall g b,
            returns
              (write_flash hd wire g fuel (NVM.request_start_addr hd s)
                 (DATA_START hd) (NVM.request_byte_count hd s) b))
    by (intros g b; apply returns_write_flash; assumption).
  assert (Hresp : forall c, returns (NVM.set_response hd c ;; ret true)).
  { intros c. unfold NVM.set_response, emit. returns_steps. }
  destruct (bit_is_set (UPDI_CONTROL s) (UPDI_INFO_bp hd)
            && (NVM.request_mem_type hd s =? MTYPE_XMEGA_USERSIG)).
  { apply Hleaf. unfold NVM.block, NVM.write_userrow. returns_steps. }
  destruct (bit_is_clear (UPDI_CONTROL s) (UPDI_PROG_bp hd)).
  { apply Hleaf. returns_steps. }
  destruct (NVM.is_flash_type (NVM.request_mem_type hd s)).
  { destruct (negb _ && negb _); [apply Hleaf, Hresp|].
    destruct (bit_is_set (UPDI_NVMCTRL s) (UPDI_GEN3_bp hd));
      [apply Hleaf, (Hflash Gen3_5)|].
    destruct (bit_is_set (UPDI_NVMCTRL s) (UPDI_GEN2_bp hd));
      [apply Hleaf, (Hflash Gen2_4) | apply Hleaf, (Hflash Gen0)]. }
  destruct ((NVM.request_byte_count hd s =? 0)
            || (256 <? NVM.request_byte_count hd s)) eqn:Hcount;
    [apply Hleaf, Hresp|].
  apply write_count_range in Hcount;
    [|apply request_byte_count_range].
  destruct (NVM.request_mem_type hd s =? MTYPE_SRAM).
  { apply Hleaf. unfold NVM.block, NVM.sts8. returns_steps. }
  assert (Hdispatch : returns
    (if bit_is_set (UPDI_NVMCTRL s) (UPDI_GEN3_bp hd)
     then NVM.write_eeprom_v3 hd wire (NVM.request_start_addr hd s)
            (DATA_START hd) (NVM.request_byte_count hd s)
     else if bit_is_set (UPDI_NVMCTRL s) (UPDI_GEN2_bp hd)
          then NVM.write_eeprom_v2 hd wire fuel (NVM.request_start_addr hd s)
                 (DATA_START hd) (NVM.request_byte_count hd s)
          else NVM.write_eeprom_v0 hd wire fuel (NVM.request_start_addr hd s)
                 (DATA_START hd) (NVM.request_byte_count hd s))).
  { destruct (bit_is_set (UPDI_NVMCTRL s) (UPDI_GEN3_bp hd));
      [apply (Heeprom Gen3_5)|].
    destruct (bit_is_set (UPDI_NVMCTRL s) (UPDI_GEN2_bp hd));
      [apply (Heeprom Gen2_4) | apply (Heeprom Gen0)]. }
  destruct (NVM.is_fuse_type (NVM.request_mem_type hd s)).
  - destruct (bit_is_clear (UPDI_NVMCTRL s) (UPDI_GEN3_bp hd)
              && bit_is_clear (UPDI_NVMCTRL s) (UPDI_GEN2_bp hd));
      [|apply Hleaf, Hdispatch].
    apply fuse_loop_returns; [assumption|lia|lia].
  - destruct (NVM.is_eeprom_type (NVM.request_mem_type hd s));
      [apply Hleaf, Hdispatch | apply Hleaf, Hresp].
Qed.

(** C10, as the code has it.  The dummy fill of [read_memory] is entered
    only with a count of at least 1 and makes exactly as many iterations
    as the count, the counter going down from the count to 1.  The fuse
    loop of [write_memory] is entered only with a count from 1 to 256.  It
    makes [k] iterations, from 1 up to the count, the counter going down
    by one from the count and staying at least 1.  The run is that of the
    first [k] calls of [write_fuse], one for each byte in turn, after
    [RSP_OK] has been set: every call before the last returned true, and
    the loop ends with the last call, whose result is the result of the
    run and whose final state is the final state of the run.  When that
    result is true the loop has made as many iterations as the count; a
    call that fails ends the loop at once with false.  Both runs return
    once the fuel covers the count and, for the fuse loop, the target ends
    its waits. *)
Theorem counted_loops (hd : Header) (wire : nat -> Reply) (fuel : nat) :
  (forall (start_addr n : Z) (s s' : St) (r : bool),
     0 <= n ->
     NVM.read_memory hd wire fuel start_addr n s = Some (r, s') ->
     exists new,
       trace s' = trace s ++ new
       /\ (iterations DummyFill new = []
           \/ (1 <= n /\ iterations DummyFill new = countdown (Z.to_nat n) n)))
  /\ (forall (s s' : St) (r : bool),
        NVM.write_memory hd wire fuel s = Some (r, s') ->
        exists new,
          trace s' = trace s ++ new
          /\ Forall (fun c => 1 <= c <= NVM.request_byte_count hd s)
               (iterations FuseBytes new)
          /\ (iterations FuseBytes new = []
              \/ (1 <= NVM.request_byte_count hd s <= 256
                  /\ exists k,
                       (1 <= k <= Z.to_nat (NVM.request_byte_count hd s))%nat
                       /\ iterations FuseBytes new
                          = countdown k (NVM.request_byte_count hd s)
                       /\ (r = true ->
                           k = Z.to_nat (NVM.request_byte_count hd s))
                       /\ fuse_writes hd wire fuel k
                            (NVM.request_start_addr hd s) (DATA_START hd)
                            (NVM.request_byte_count hd s) (after_rsp_ok hd s)
                          = Some (r, s'))))
  /\ (forall (start_addr n : Z) (s : St),
        read_accepted n -> (Z.to_nat n <= fuel)%nat ->
        exists r s', NVM.read_memory hd wire fuel start_addr n s = Some (r, s'))
  /\ (forall s : St,
        idle_within wire fuel -> (256 <= fuel)%nat ->
        exists r s', NVM.write_memory hd wire fuel s = Some (r, s')).
Proof.
  split; [|split; [|split]].
  - intros start_addr n s s' r Hn Hrun.
    destruct (read_count_cases n Hn) as [[Hrej _]|[Hacc _]].
    + destruct (read_memory_rejects hd wire fuel start_addr n s Hrej)
        as (s0 & Hrun0 & Ht).
      rewrite Hrun0 in Hrun. inversion Hrun; subst; clear Hrun.
      eexists. split; [exact Ht|]. left. reflexivity.
    + destruct (read_memory_paths _ _ _ _ _ _ _ _ Hacc Hrun)
        as (new & Ht & _ & Hpath).
      exists new. split; [assumption|].
      destruct Hpath as [(_ & Hi & _)|[(_ & _ & Hi)|(_ & _ & _ & Hnew & _)]];
        [left; assumption | left; assumption |].
      right. split; [destruct Hacc as [?|[? _]]; lia|].
      rewrite Hnew. apply iterations_marks.
  - intros s s' r Hrun.
    destruct (write_memory_iterations _ _ _ _ _ _ Hrun) as (new & Ht & Hit).
    exists new. split; [assumption|]. split; [|assumption].
    destruct Hit as [->|(Hn & k & Hk & -> & _)]; [constructor|].
    apply Forall_forall. intros c Hc. apply countdown_bounds in Hc. lia.
  - intros start_addr n s. apply read_memory_returns.
  - intros s. apply write_memory_returns.
Qed.

Lemma counted_loops_witness :
  exists r s',
    NVM.write_memory sample_header quiet_wire 256 fuse_request = Some (r, s')
    /\ r = true
    /\ iterations FuseBytes (trace s') = [2; 1].
Proof.
  destruct (counted_loops sample_header quiet_wire 256) as (_ & _ & _ & Hret).
  destruct (Hret fuse_request) as (r & s' & Hrun).
  - apply (idle_within_mono quiet_wire 1); [lia|apply quiet_wire_idle].
  - lia.
  - exists r, s'. split; [exact Hrun|].
    vm_compute in Hrun. inversion Hrun; subst. split; reflexivity.
Defined.

(** C10 as stated fails: with a byte count of 2 and a transport failure on
    the first fuse byte, the fuse loop is left after one iteration. *)
Lemma counted_loops_counterexample :
  exists s',
    NVM.write_memory sample_header failing_store 256 fuse_request
    = Some (false, s')
    /\ NVM.request_byte_count sample_header fuse_request = 2
    /\ iterations FuseBytes (trace s') = [2]
    /\ length (iterations FuseBytes (trace s')) <> 2%nat.
Proof.
  eexists. split; [vm_compute; reflexivity|].
  split; [reflexivity|]. split; [reflexivity|].
  simpl. discriminate.
Qed.

(** ** Flash writers *)

Lemma prefix_of_refl {A} (l : list A) : prefix_of l l.
Proof. exists []. symmetry. apply app_nil_r. Qed.

Lemma prefix_of_nil {A} (l : list A) : prefix_of [] l.
Proof. exists l. reflexivity. Qed.

Lemma prefix_of_app {A} (p a b : list A) :
  prefix_of a b -> prefix_of (p ++ a) (p ++ b).
Proof. intros [t ->]. exists t. apply app_assoc. Qed.

Lemma prefix_of_weaken {A} (a b c : list A) :
  prefix_of a b -> prefix_of a (b ++ c).
Proof. intros [t ->]. exists (t ++ c). symmetry. apply app_assoc. Qed.

Lemma prefix_of_In {A} (a b : list A) (x : A) :
  prefix_of a b -> In x a -> In x b.
Proof. intros [t ->] H. apply in_or_app. auto. Qed.

Lemma nvm_ctrl_inv (hd : Header) (wire : nat -> Reply) (op : Z)
  (s s' : St) (b : bool) :
  NVM.nvm_ctrl hd wire op s = Some (b, s') ->
  exists r,
    trace s' = trace s ++ [Wire (ctrl hd op) r] /\ frame s s' /\ b = ok r.
Proof.
  unfold NVM.nvm_ctrl, NVM.st8, NVM.transact, bind, ret. intros H.
  inversion H; subst; clear H. eexists. split; [reflexivity|].
  split; [frame_solve|reflexivity].
Qed.

Lemma st8_inv (wire : nat -> Reply) (addr v : Z) (s s' : St) (b : bool) :
  NVM.st8 wire addr v s = Some (b, s') ->
  exists r,
    trace s' = trace s ++ [Wire (CSt8 addr (u8 v)) r] /\ frame s s'
    /\ b = ok r.
Proof.
  unfold NVM.st8, NVM.transact, bind, ret. intros H.
  inversion H; subst; clear H. eexists. split; [reflexivity|].
  split; [frame_solve|reflexivity].
Qed.

Lemma nvm_ctrl_change_inv (hd : Header) (wire : nat -> Reply) (op : Z)
  (s s' : St) (b : bool) :
  NVM.nvm_ctrl_change hd wire op s = Some (b, s') ->
  exists new c,
    trace s' = trace s ++ new /\ frame s s'
    /\ prefix_of (stores new) (arbitration hd c op)
    /\ (b = true -> stores new = arbitration hd c op)
    /\ reads (NVMCTRL_REG_CTRLA hd) new = [c].
Proof.
  unfold NVM.nvm_ctrl_change, NVM.nvm_ctrl, NVM.ld8, NVM.st8, NVM.transact,
    bind, ret, modify.
  set (r0 := wire (clock s)). unfold arbitration, ctrl.
  destruct (u8 (val r0) =? u8 op) eqn:Hsame; simpl.
  - intros H. inversion H; subst; clear H.
    exists [Wire (CLd8 (NVMCTRL_REG_CTRLA hd)) r0], (u8 (val r0)).
    rewrite Hsame. split; [reflexivity|]. split; [frame_solve|].
    split; [apply prefix_of_refl|]. split; [reflexivity|].
    simpl. rewrite Z.eqb_refl. reflexivity.
  - set (r1 := wire (S (clock s))).
    destruct (ok r1) eqn:Hok1; simpl.
    + destruct (NVM_CMD_NOCMD hd =? u8 op) eqn:Hno; simpl.
      * intros H. inversion H; subst; clear H.
        exists [Wire (CLd8 (NVMCTRL_REG_CTRLA hd)) r0;
                Wire (CSt8 (NVMCTRL_REG_CTRLA hd) (u8 (NVM_CMD_NOCMD hd))) r1],
          (u8 (val r0)).
        rewrite Hsame. split; [trace_eq|]. split; [frame_solve|].
        split; [apply prefix_of_refl|]. split; [reflexivity|].
        simpl. rewrite Z.eqb_refl. reflexivity.
      * intros H. inversion H; subst; clear H.
        exists [Wire (CLd8 (NVMCTRL_REG_CTRLA hd)) r0;
                Wire (CSt8 (NVMCTRL_REG_CTRLA hd) (u8 (NVM_CMD_NOCMD hd))) r1;
                Wire (CSt8 (NVMCTRL_REG_CTRLA hd) (u8 op))
                  (wire (S (S (clock s))))],
          (u8 (val r0)).
        rewrite Hsame, u8_idem. split; [trace_eq|].
        split; [frame_solve|].
        split; [apply prefix_of_refl|]. split; [reflexivity|].
        simpl. rewrite Z.eqb_refl. reflexivity.
    + intros H. inversion H; subst; clear H.
      exists [Wire (CLd8 (NVMCTRL_REG_CTRLA hd)) r0;
              Wire (CSt8 (NVMCTRL_REG_CTRLA hd) (u8 (NVM_CMD_NOCMD hd))) r1],
        (u8 (val r0)).
      rewrite Hsame. split; [trace_eq|]. split; [frame_solve|].
      split; [eexists; reflexivity|]. split; [discriminate|].
      simpl. rewrite Z.eqb_refl. reflexivity.
Qed.

Lemma nvm_ctrl_v2_inv (hd : Header) (wire : nat -> Reply) (fuel : nat)
  (op : Z) (s s' : St) (b : bool) :
  NVM.nvm_ctrl_v2 hd wire fuel op s = Some (b, s') ->
  exists new c,
    trace s' = trace s ++ new /\ frame s s'
    /\ prefix_of (stores new) (arbitration hd c op)
    /\ (b = true -> stores new = arbitration hd c op)
    /\ (NVMCTRL_REG_STATUS hd <> NVMCTRL_REG_CTRLA hd ->
        reads (NVMCTRL_REG_CTRLA hd) new = [c]).
Proof.
  unfold NVM.nvm_ctrl_v2, NVM.nvm_wait. intros H.
  apply bind_inv in H as (v & s1 & Hw & H).
  apply poll_inv in Hw as (n1 & Ht1 & Hf1 & Hp1 & _).
  apply nvm_ctrl_change_inv in H as (n2 & c & Ht2 & Hf2 & Hpre & Hfull & Hrd).
  exists (n1 ++ n2), c.
  split; [rewrite Ht2, Ht1, app_assoc; reflexivity|].
  split; [eapply frame_trans; eassumption|].
  rewrite stores_app, (polls_stores _ _ Hp1).
  split; [assumption|]. split; [assumption|].
  intros Hne. rewrite reads_app, (polls_reads _ _ _ Hne Hp1). assumption.
Qed.

(** The data load is a single transaction, whose outcome is not looked
    at. *)
Lemma data_load_inv (wire : nat -> Reply) (g : Generation)
  (start_addr data n : Z) (s s' : St) (b : bool) :
  (if n =? 1 then v <- NVM.deref data ;; NVM.st8 wire start_addr v
   else
     match g with
     | Gen2_4 =>
         if negb (Z.shiftr (u16 (n - 1)) 8 =? 0)
         then bs <- NVM.block data n ;; NVM.sts16rsd wire start_addr bs n
         else bs <- NVM.block data n ;; NVM.sts8rsd wire start_addr bs n
     | _ => bs <- NVM.block data n ;; NVM.sts8rsd wire start_addr bs n
     end) s = Some (b, s') ->
  exists r,
    trace s' = trace s ++ [Wire (data_load g start_addr data n s) r]
    /\ frame s s'.
Proof.
  unfold data_load, NVM.deref, NVM.block, NVM.st8, NVM.sts8rsd,
    NVM.sts16rsd, NVM.transact, bind, gets, ret.
  destruct (n =? 1).
  - intros H. inversion H; subst; clear H. eexists.
    split; [reflexivity|frame_solve].
  - destruct g; [| destruct (negb (Z.shiftr (u16 (n - 1)) 8 =? 0)) |];
      intros H; inversion H; subst; clear H; eexists;
      (split; [reflexivity|frame_solve]).
Qed.

Lemma data_load_frame (g : Generation) (start_addr data n : Z) (s s1 : St) :
  frame s s1 -> data_load g start_addr data n s1 = data_load g start_addr data n s.
Proof.
  intros (_ & _ & _ & Hb & _). unfold data_load. rewrite Hb. reflexivity.
Qed.

Lemma data_load_is_store (g : Generation) (start_addr data n : Z) (s : St) :
  is_store (data_load g start_addr data n s) = true.
Proof.
  unfold data_load. destruct (n =? 1); [reflexivity|].
  destruct g; [| destruct (negb _) |]; reflexivity.
Qed.

Lemma stores_wire (c : Call) (r : Reply) :
  is_store c = true -> stores [Wire c r] = [c].
Proof. intros H. unfold stores. simpl. rewrite H. reflexivity. Qed.

Lemma stores_ctrl (hd : Header) (op : Z) (r : Reply) :
  stores [Wire (ctrl hd op) r] = [ctrl hd op].
Proof. reflexivity. Qed.

Lemma stores_load (g : Generation) (start_addr data n : Z) (s : St)
  (r : Reply) :
  stores [Wire (data_load g start_addr data n s) r]
  = [data_load g start_addr data n s].
Proof. apply stores_wire, data_load_is_store. Qed.

(** Splits the next step off a run: a wait, a command, a byte store, an
    arbitration, the data load. *)
Ltac next_poll H n :=
  let v := fresh "v" in let s1 := fresh "s" in let Hw := fresh "Hw" in
  apply bind_inv in H as (v & s1 & Hw & H);
  apply poll_inv in Hw as (n & ?Ht & ?Hf & ?Hp & _).

Ltac next_st8 H r :=
  let b := fresh "b" in let s1 := fresh "s" in let Hc := fresh "Hc" in
  apply bind_inv in H as (b & s1 & Hc & H);
  apply st8_inv in Hc as (r & ?Ht & ?Hf & ->).

Ltac next_load H g r :=
  let b := fresh "b" in let s1 := fresh "s" in let Hl := fresh "Hl" in
  apply bind_inv in H as (b & s1 & Hl & H);
  apply (data_load_inv _ g) in Hl as (r & ?Ht & ?Hf).

(** States the data load on the bytes of the initial state [s]. *)
Ltac settle_load s :=
  match goal with
  | H : context [data_load ?g ?a ?d ?n ?x] |- _ =>
      lazymatch x with
      | s => fail
      | _ => rewrite (data_load_frame g a d n s x) in H
               by (eauto 8 using frame_trans, frame_refl)
      end
  end.

(** Closes [trace s' = trace s ++ new] from the equations of the steps. *)
Ltac chain_traces :=
  repeat match goal with
         | H : trace ?x = _ |- context [trace ?x] => rewrite H; clear H
         end;
  repeat rewrite <- app_assoc; reflexivity.

(** Brings the stores of a concatenation of steps to a list of calls. *)
Ltac show_stores :=
  repeat rewrite stores_app;
  repeat match goal with
         | H : polls _ ?n |- context [stores ?n] =>
             rewrite (polls_stores _ _ H)
         end;
  repeat rewrite stores_ctrl; repeat rewrite stores_load;
  repeat (rewrite stores_wire by reflexivity);
  simpl.

Lemma write_flash_v0_inv (hd : Header) (wire : nat -> Reply) (fuel : nat)
  (start_addr data n : Z) (is_bound : bool) (s s' : St) (r : bool) :
  NVM.write_flash_v0 hd wire fuel start_addr data n is_bound s
  = Some (r, s') ->
  exists new,
    trace s' = trace s ++ new
    /\ prefix_of (stores new)
         (flash_plan hd Gen0 is_bound start_addr
            (data_load Gen0 start_addr data n s) 0 0 0)
    /\ (r = true ->
        stores new
        = flash_plan hd Gen0 is_bound start_addr
            (data_load Gen0 start_addr data n s) 0 0 0).
Proof.
  unfold NVM.write_flash_v0, NVM.nvm_wait, flash_plan. intros H.
  apply bind_inv in H as (cleared & s1 & Hc & H).
  destruct is_bound; simpl.
  - next_poll Hc n0. apply nvm_ctrl_inv in Hc as (r1 & Ht1 & Hf1 & ->).
    destruct (ok r1); simpl in H.
    + next_poll H n2. next_load H Gen0 r3.
      apply nvm_ctrl_inv in H as (r4 & Ht4 & Hf4 & ->).
      settle_load s.
      eexists (n0 ++ [_] ++ n2 ++ [_] ++ [_]).
      split; [chain_traces|]. show_stores.
      split; [apply prefix_of_refl | reflexivity].
    + inversion H; subst; clear H.
      eexists (n0 ++ [_]). split; [chain_traces|]. show_stores.
      split; [eexists; reflexivity | discriminate].
  - unfold ret in Hc. injection Hc as Hcl Hs. subst cleared s1. simpl in H.
    next_poll H n2. next_load H Gen0 r3.
    apply nvm_ctrl_inv in H as (r4 & Ht4 & Hf4 & ->).
    settle_load s.
    eexists (n2 ++ [_] ++ [_]).
    split; [chain_traces|]. show_stores.
    split; [apply prefix_of_refl | reflexivity].
Qed.

Arguments arbitration : simpl never.
Arguments ctrl : simpl never.
Arguments data_load : simpl never.

Lemma prefix_of_cons {A} (x : A) (a b : list A) :
  prefix_of a b -> prefix_of (x :: a) (x :: b).
Proof. intros [t ->]. exists t. reflexivity. Qed.

Lemma write_flash_v3_inv (hd : Header) (wire : nat -> Reply) (fuel : nat)
  (start_addr data n : Z) (is_bound : bool) (s s' : St) (r : bool) :
  NVM.write_flash_v3 hd wire fuel start_addr data n is_bound s
  = Some (r, s') ->
  exists new,
    trace s' = trace s ++ new
    /\ prefix_of (stores new)
         (flash_plan hd Gen3_5 is_bound start_addr
            (data_load Gen3_5 start_addr data n s) 0 0 0)
    /\ (r = true ->
        stores new
        = flash_plan hd Gen3_5 is_bound start_addr
            (data_load Gen3_5 start_addr data n s) 0 0 0).
Proof.
  unfold NVM.write_flash_v3, NVM.nvm_wait_v3, flash_plan. intros H.
  next_poll H n0.
  apply bind_inv in H as (armed & s1 & Ha & H).
  destruct is_bound; simpl.
  - next_st8 Ha r1. change (u8 255) with 255 in *.
    destruct (ok r1); simpl in Ha.
    + apply nvm_ctrl_inv in Ha as (r2 & Ht2 & Hf2 & ->).
      destruct (ok r2); simpl in H.
      * next_poll H n3. next_load H Gen3_5 r4.
        apply nvm_ctrl_inv in H as (r5 & Ht5 & Hf5 & ->).
        settle_load s.
        eexists (n0 ++ [_] ++ [_] ++ n3 ++ [_] ++ [_]).
        split; [chain_traces|]. show_stores.
        split; [apply prefix_of_refl | reflexivity].
      * inversion H; subst; clear H.
        eexists (n0 ++ [_] ++ [_]). split; [chain_traces|]. show_stores.
        split; [eexists; reflexivity | discriminate].
    + unfold ret in Ha. injection Ha as Harmed Hs. subst armed s1.
      simpl in H. inversion H; subst; clear H.
      eexists (n0 ++ [_]). split; [chain_traces|]. show_stores.
      split; [eexists; reflexivity | discriminate].
  - apply nvm_ctrl_inv in Ha as (r2 & Ht2 & Hf2 & ->).
    destruct (ok r2); simpl in H.
    + next_poll H n3. next_load H Gen3_5 r4.
      apply nvm_ctrl_inv in H as (r5 & Ht5 & Hf5 & ->).
      settle_load s.
      eexists (n0 ++ [_] ++ n3 ++ [_] ++ [_]).
      split; [chain_traces|]. show_stores.
      split; [apply prefix_of_refl | reflexivity].
    + inversion H; subst; clear H.
      eexists (n0 ++ [_]). split; [chain_traces|]. show_stores.
      split; [eexists; reflexivity | discriminate].
Qed.

Ltac next_arbitration H n c b :=
  let s1 := fresh "s" in let Hc := fresh "Hc" in
  apply bind_inv in H as (b & s1 & Hc & H);
  apply nvm_ctrl_v2_inv in Hc as (n & c & ?Ht & ?Hf & ?Hpre & ?Hfull & ?Hrd).

Lemma write_flash_v2_inv (hd : Header) (wire : nat -> Reply) (fuel : nat)
  (start_addr data n : Z) (is_bound : bool) (s s' : St) (r : bool) :
  NVM.write_flash_v2 hd wire fuel start_addr data n is_bound s
  = Some (r, s') ->
  exists new c1 c2 c3,
    trace s' = trace s ++ new
    /\ prefix_of (stores new)
         (flash_plan hd Gen2_4 is_bound start_addr
            (data_load Gen2_4 start_addr data n s) c1 c2 c3)
    /\ (r = true ->
        stores new
        = flash_plan hd Gen2_4 is_bound start_addr
            (data_load Gen2_4 start_addr data n s) c1 c2 c3)
    /\ (NVMCTRL_REG_STATUS hd <> NVMCTRL_REG_CTRLA hd ->
        prefix_of (reads (NVMCTRL_REG_CTRLA hd) new)
          (ctrl_reads is_bound c1 c2 c3)
        /\ (r = true ->
            reads (NVMCTRL_REG_CTRLA hd) new = ctrl_reads is_bound c1 c2 c3)).
Proof.
  unfold NVM.write_flash_v2, flash_plan, ctrl_reads. intros H.
  apply bind_inv in H as (erased & s1 & He & H).
  assert (Htail : forall s0 pre seen,
    frame s s0 ->
    (b <- NVM.nvm_ctrl_v2 hd wire fuel (NVM_V2_CMD_FLWR hd) ;;
     if negb b then ret false
     else
       (if n =? 1 then v <- NVM.deref data ;; NVM.st8 wire start_addr v
        else if negb (Z.shiftr (u16 (n - 1)) 8 =? 0)
             then bs <- NVM.block data n ;; NVM.sts16rsd wire start_addr bs n
             else bs <- NVM.block data n ;; NVM.sts8rsd wire start_addr bs n) ;;
       NVM.nvm_ctrl_v2 hd wire fuel (NVM_V2_CMD_NOCMD hd)) s0
    = Some (r, s') ->
    exists new c2 c3,
      trace s' = trace s0 ++ new
      /\ prefix_of (pre ++ stores new)
           (pre ++ arbitration hd c2 (NVM_V2_CMD_FLWR hd)
            ++ [data_load Gen2_4 start_addr data n s]
            ++ arbitration hd c3 (NVM_V2_CMD_NOCMD hd))
      /\ (r = true ->
          pre ++ stores new
          = pre ++ arbitration hd c2 (NVM_V2_CMD_FLWR hd)
            ++ [data_load Gen2_4 start_addr data n s]
            ++ arbitration hd c3 (NVM_V2_CMD_NOCMD hd))
      /\ (NVMCTRL_REG_STATUS hd <> NVMCTRL_REG_CTRLA hd ->
          prefix_of (seen ++ reads (NVMCTRL_REG_CTRLA hd) new)
            (seen ++ [c2; c3])
          /\ (r = true ->
              seen ++ reads (NVMCTRL_REG_CTRLA hd) new = seen ++ [c2; c3]))).
  { intros s0 pre seen Hfr0 Hrun.
    next_arbitration Hrun n2 c2 b2.
    destruct b2; simpl in Hrun.
    - next_load Hrun Gen2_4 r3.
      apply nvm_ctrl_v2_inv in Hrun
        as (n4 & c3 & Ht4 & Hf4 & Hpre4 & Hfull4 & Hrd4).
      settle_load s.
      exists (n2 ++ [Wire (data_load Gen2_4 start_addr data n s) r3] ++ n4),
        c2, c3.
      split; [chain_traces|].
      rewrite !stores_app, stores_load, (Hfull eq_refl).
      split; [apply prefix_of_app, prefix_of_app, prefix_of_app; assumption|].
      split; [intros Hr; rewrite (Hfull4 Hr); reflexivity|].
      intros Hne.
      rewrite !reads_app, (Hrd Hne), (Hrd4 Hne),
        (reads_store _ _ _ (data_load_is_store _ _ _ _ _)).
      split; [apply prefix_of_refl | reflexivity].
    - inversion Hrun; subst; clear Hrun.
      exists n2, c2, 0. split; [assumption|].
      split; [apply prefix_of_app, prefix_of_weaken; assumption|].
      split; [discriminate|].
      intros Hne. rewrite (Hrd Hne). split; [|discriminate].
      apply prefix_of_app. exists [0]. reflexivity. }
  destruct is_bound; simpl.
  - next_arbitration He n0 c1 b1.
    destruct b1; simpl in He.
    + apply st8_inv in He as (r1 & Ht1 & Hf1 & ->).
      change (u8 255) with 255 in *.
      destruct (ok r1); simpl in H.
      * assert (Hfs : frame s s1) by (eapply frame_trans; eassumption).
        destruct (Htail s1 (arbitration hd c1 (NVM_V2_CMD_FLPER hd)
                            ++ [CSt8 start_addr 255]) [c1] Hfs H)
          as (new & c2 & c3 & Htn & Hpn & Hfn & Hrn).
        exists (n0 ++ [Wire (CSt8 start_addr 255) r1] ++ new), c1, c2, c3.
        split; [chain_traces|].
        rewrite !stores_app, (Hfull eq_refl),
          (stores_wire (CSt8 start_addr 255) r1 eq_refl).
        rewrite <- !app_assoc in Hpn, Hfn. simpl in Hpn, Hfn.
        rewrite <- !app_assoc. simpl.
        split; [assumption|]. split; [assumption|].
        intros Hne. rewrite !reads_app, (Hrd Hne). simpl. exact (Hrn Hne).
      * inversion H; subst; clear H.
        exists (n0 ++ [Wire (CSt8 start_addr 255) r1]), c1, 0, 0.
        split; [chain_traces|].
        rewrite !stores_app, (Hfull eq_refl),
          (stores_wire (CSt8 start_addr 255) r1 eq_refl).
        split; [rewrite <- !app_assoc; apply prefix_of_app; simpl;
                apply prefix_of_cons, prefix_of_nil|].
        split; [discriminate|].
        intros Hne. rewrite !reads_app, (Hrd Hne). simpl.
        split; [|discriminate]. exists [0; 0]. reflexivity.
    + unfold ret in He. injection He as Herased Hs. subst erased s1.
      simpl in H. inversion H; subst; clear H.
      exists n0, c1, 0, 0. split; [assumption|].
      split; [rewrite <- !app_assoc; apply prefix_of_weaken; assumption|].
      split; [discriminate|].
      intros Hne. rewrite (Hrd Hne). split; [|discriminate].
      exists [0; 0]. reflexivity.
  - unfold ret in He. injection He as Herased Hs. subst erased s1.
    simpl in H.
    destruct (Htail s [] [] (frame_refl s) H)
      as (new & c2 & c3 & Htn & Hpn & Hfn & Hrn).
    exists new, 0, c2, c3. simpl in Hpn, Hfn, Hrn. auto.
Qed.

Lemma ctrl_inj (hd : Header) (a b : Z) : ctrl hd a = ctrl hd b -> u8 a = u8 b.
Proof. unfold ctrl. intros H. injection H. auto. Qed.

Lemma arbitration_In (hd : Header) (c op : Z) (x : Call) :
  In x (arbitration hd c op) ->
  x = ctrl hd (NVM_CMD_NOCMD hd) \/ x = ctrl hd op.
Proof.
  unfold arbitration. destruct (c =? u8 op); simpl; [contradiction|].
  destruct (NVM_CMD_NOCMD hd =? u8 op); simpl; intuition.
Qed.

Lemma write_flash_inv (hd : Header) (wire : nat -> Reply) (g : Generation)
  (fuel : nat) (start_addr data n : Z) (is_bound : bool) (s s' : St)
  (r : bool) :
  write_flash hd wire g fuel start_addr data n is_bound s = Some (r, s') ->
  exists new c1 c2 c3,
    trace s' = trace s ++ new
    /\ prefix_of (stores new)
         (flash_plan hd g is_bound start_addr
            (data_load g start_addr data n s) c1 c2 c3)
    /\ (r = true ->
        stores new
        = flash_plan hd g is_bound start_addr
            (data_load g start_addr data n s) c1 c2 c3)
    /\ (g = Gen2_4 ->
        NVMCTRL_REG_STATUS hd <> NVMCTRL_REG_CTRLA hd ->
        prefix_of (reads (NVMCTRL_REG_CTRLA hd) new)
          (ctrl_reads is_bound c1 c2 c3)
        /\ (r = true ->
            reads (NVMCTRL_REG_CTRLA hd) new = ctrl_reads is_bound c1 c2 c3)).
Proof.
  destruct g; simpl; intros H.
  - apply write_flash_v0_inv in H as (new & Ht & Hp & Hf).
    exists new, 0, 0, 0. repeat (split; [assumption|]). discriminate.
  - apply write_flash_v2_inv in H
      as (new & c1 & c2 & c3 & Ht & Hp & Hf & Hr).
    exists new, c1, c2, c3. repeat (split; [assumption|]). intros _. exact Hr.
  - apply write_flash_v3_inv in H as (new & Ht & Hp & Hf).
    exists new, 0, 0, 0. repeat (split; [assumption|]). discriminate.
Qed.

(** C1, as the code has it.  A flash writer returns on a target that ends
    its waits.  The stores of a run that returns are a prefix of the plan
    of its generation, and the whole plan when the run ends with true.
    With [is_bound] the plan starts with the erase sub-sequence, so all of
    it precedes the data load: PBC on Gen0; the [0xFF] store to the address
    and then FLPER on Gen3/Gen5; on Gen2/Gen4 the arbitration of FLPER,
    which stores NOCMD and FLPER unless the control register already reads
    FLPER and stores nothing if it does, and then the [0xFF] store.
    Without [is_bound] the plan has no erase sub-sequence, and no store of
    the run other than the data load is the erase command.  On Gen2/Gen4
    the bytes [c1], [c2], [c3] that decide the arbitrations are the bytes
    the run reads from the control register, in this order. *)
Theorem write_flash_erase_before_load (hd : Header) (wire : nat -> Reply)
  (g : Generation) (fuel : nat) (start_addr data n : Z) (is_bound : bool)
  (s : St) :
  (idle_within wire fuel ->
   exists r s',
     write_flash hd wire g fuel start_addr data n is_bound s = Some (r, s'))
  /\ (forall r s',
        write_flash hd wire g fuel start_addr data n is_bound s
        = Some (r, s') ->
        exists new c1 c2 c3,
          trace s' = trace s ++ new
          /\ prefix_of (stores new)
               ((if is_bound then erase_sequence hd g start_addr c1 else [])
                ++ arming hd g is_bound c2
                ++ [data_load g start_addr data n s]
                ++ commit hd g c3)
          /\ (r = true ->
              stores new
              = (if is_bound then erase_sequence hd g start_addr c1 else [])
                ++ arming hd g is_bound c2
                ++ [data_load g start_addr data n s]
                ++ commit hd g c3)
          /\ (is_bound = false ->
              erase_opcode_distinct hd g ->
              data_load g start_addr data n s <> erase_command hd g ->
              ~ In (erase_command hd g) (stores new))
          /\ (g = Gen2_4 ->
              NVMCTRL_REG_STATUS hd <> NVMCTRL_REG_CTRLA hd ->
              prefix_of (reads (NVMCTRL_REG_CTRLA hd) new)
                ((if is_bound then [c1] else []) ++ [c2; c3])
              /\ (r = true ->
                  reads (NVMCTRL_REG_CTRLA hd) new
                  = (if is_bound then [c1] else []) ++ [c2; c3]))).
Proof.
  split.
  - intros Hidle. apply returns_write_flash. assumption.
  - intros r s' Hrun.
    apply write_flash_inv in Hrun
      as (new & c1 & c2 & c3 & Ht & Hpre & Hfull & Hreads).
    exists new, c1, c2, c3. unfold flash_plan in Hpre, Hfull.
    split; [assumption|]. split; [assumption|]. split; [assumption|].
    split; [|exact Hreads].
    intros -> Hdistinct Hload Hin.
    apply (prefix_of_In _ _ _ Hpre) in Hin. simpl in Hin.
    apply in_app_or in Hin as [Hin|Hin].
    + destruct g; simpl in Hin, Hdistinct.
      * contradiction.
      * destruct Hdistinct as (Hno & Hwr & _).
        apply arbitration_In in Hin as [Hin|Hin];
          apply ctrl_inj in Hin; congruence.
      * destruct Hdistinct as (Hclr & _).
        destruct Hin as [Hin|[]]. symmetry in Hin.
        apply ctrl_inj in Hin. congruence.
    + destruct Hin as [Hin|Hin]; [congruence|].
      destruct g; simpl in Hin, Hdistinct.
      * destruct Hin as [Hin|[]]. symmetry in Hin.
        apply ctrl_inj in Hin. congruence.
      * destruct Hdistinct as (Hno & _ & Hno2).
        apply arbitration_In in Hin as [Hin|Hin];
          apply ctrl_inj in Hin; congruence.
      * destruct Hdistinct as (_ & Hpw).
        destruct Hin as [Hin|[]]. symmetry in Hin.
        apply ctrl_inj in Hin. congruence.
Qed.

Lemma write_flash_erase_before_load_witness :
  exists s',
    NVM.write_flash_v0 sample_header quiet_wire 1 0x8000 10 4 true
      (page_request 0) = Some (true, s')
    /\ stores (trace s')
       = [CSt8 0x1000 4; CSts8rsd 0x8000 [0x0C; 0x94; 0x34; 0x00] 4;
          CSt8 0x1000 3].
Proof.
  destruct (write_flash_erase_before_load sample_header quiet_wire Gen0 1
              0x8000 10 4 true (page_request 0)) as [Hret Hshape].
  destruct (Hret quiet_wire_idle) as (r & s' & Hrun).
  destruct (Hshape r s' Hrun) as (new & c1 & c2 & c3 & Ht & _ & Hfull & _).
  assert (Hr : r = true).
  { simpl in Hrun. vm_compute in Hrun. inversion Hrun. reflexivity. }
  subst r. exists s'. split; [exact Hrun|].
  rewrite Ht. simpl. rewrite (Hfull eq_refl). reflexivity.
Defined.

(** C1 as stated fails: on Gen2/Gen4 a page boundary write that finds
    FLPER in the control register loads the data and ends with true
    without having stored FLPER. *)
Lemma write_flash_erase_before_load_counterexample :
  exists s',
    NVM.write_flash_v2 sample_header flper_latched 1 0x8000 10 4 true
      (page_request 2) = Some (true, s')
    /\ reads (NVMCTRL_REG_CTRLA sample_header) (trace s') = [8; 8; 2]
    /\ stores (trace s')
       = [CSt8 0x8000 0xFF; CSt8 0x1000 0; CSt8 0x1000 2;
          CSts8rsd 0x8000 [0x0C; 0x94; 0x34; 0x00] 4; CSt8 0x1000 0]
    /\ ~ In (CSt8 (NVMCTRL_REG_CTRLA sample_header)
               (NVM_V2_CMD_FLPER sample_header)) (stores (trace s')).
Proof.
  eexists. split; [vm_compute; reflexivity|].
  split; [vm_compute; reflexivity|].
  split; [vm_compute; reflexivity|].
  vm_compute. intros H.
  repeat (destruct H as [H|H]; [discriminate H|]). exact H.
Qed.

(** * Further properties *)

(** ** Status waiter *)

(** X1.  A wait that meets [j] busy status bytes and then an idle one
    returns, when the fuel allows more than [j] polls, after exactly
    [j + 1] loads of the status register with a delay after each busy one;
    it returns the idle byte, which is also what [UPDI_LASTL] holds, and
    changes nothing else. *)
Theorem nvm_wait_until_idle (hd : Header) (wire : nat -> Reply) (j : nat) :
  forall (fuel : nat) (s : St),
    (forall k, (k < j)%nat -> busy_at wire (clock s + k)) ->
    ~ busy_at wire (clock s + j) ->
    (j < fuel)%nat ->
    exists s',
      NVM.nvm_wait hd wire fuel s
      = Some (u8 (val (wire (clock s + j)%nat)), s')
      /\ trace s'
         = trace s ++ busy_wait wire (NVMCTRL_REG_STATUS hd) (clock s) j
      /\ clock s' = (clock s + S j)%nat
      /\ UPDI_LASTL s' = u8 (val (wire (clock s + j)%nat))
      /\ frame s s'.
Proof.
  unfold NVM.nvm_wait. generalize (NVMCTRL_REG_STATUS hd) as reg. intros reg.
  induction j as [|j IH]; intros fuel s Hbusy Hidle Hfuel;
    (destruct fuel as [|fuel]; [lia|]);
    simpl; unfold NVM.ld8, NVM.transact, bind, ret, modify; simpl.
  - rewrite Nat.add_0_r in *.
    unfold busy_at in Hidle.
    replace (Z.land (u8 (val (wire (clock s)))) 3 =? 0) with true
      by (symmetry; apply Z.eqb_eq;
          destruct (Z.eq_dec (Z.land (u8 (val (wire (clock s)))) 3) 0);
          [assumption|contradiction]).
    unfold gets. simpl. eexists. split; [reflexivity|].
    split; [reflexivity|]. split; [simpl; lia|].
    split; [reflexivity|frame_solve].
  - assert (Hfirst : busy_at wire (clock s)).
    { specialize (Hbusy 0%nat ltac:(lia)). rewrite Nat.add_0_r in Hbusy.
      exact Hbusy. }
    unfold busy_at in Hfirst. apply Z.eqb_neq in Hfirst. rewrite Hfirst.
    unfold NVM.delay_50us, emit, modify. simpl.
    match goal with
    | |- context [NVM.poll wire reg fuel ?s0] =>
        destruct (IH fuel s0) as (s' & Hrun & Ht & Hc & Hl & Hf)
    end.
    + intros k Hk. simpl.
      replace (S (clock s + k)) with (clock s + S k)%nat by lia.
      apply Hbusy. lia.
    + simpl. replace (S (clock s + j)) with (clock s + S j)%nat by lia.
      assumption.
    + lia.
    + simpl in Hrun, Ht, Hc, Hl.
      replace (S (clock s + j)) with (clock s + S j)%nat in Hrun, Hl by lia.
      exists s'. split; [exact Hrun|].
      split; [rewrite Ht; repeat rewrite <- app_assoc; reflexivity|].
      split; [lia|]. split; [assumption|].
      eapply frame_trans; [|exact Hf]. frame_solve.
Qed.

Lemma nvm_wait_until_idle_witness :
  exists s',
    NVM.nvm_wait sample_header
      (scripted [reply_ok 1; reply_ok 3; reply_ok 0x84]) 3
      (initial 8 0 64 (cells []))
    = Some (0x84, s')
    /\ calls (trace s') = [CLd8 0x1002; CLd8 0x1002; CLd8 0x1002]
    /\ clock s' = 3%nat.
Proof.
  destruct (nvm_wait_until_idle sample_header
              (scripted [reply_ok 1; reply_ok 3; reply_ok 0x84]) 2 3
              (initial 8 0 64 (cells [])))
    as (s' & Hrun & Ht & Hc & _).
  - intros k Hk. destruct k as [|[|k]]; [| |lia]; vm_compute; discriminate.
  - intros H. apply H. reflexivity.
  - lia.
  - exists s'. split; [exact Hrun|]. split; [rewrite Ht; reflexivity|exact Hc].
Defined.

(** X2.  The wait has no timeout: as long as the status bytes it is given
    are busy it does not return, however many polls the fuel allows. *)
Theorem nvm_wait_no_timeout (hd : Header) (wire : nat -> Reply) (fuel : nat) :
  forall s : St,
    (forall k, (k < fuel)%nat -> busy_at wire (clock s + k)) ->
    NVM.nvm_wait hd wire fuel s = None
    /\ NVM.nvm_wait_v3 hd wire fuel s = None.
Proof.
  unfold NVM.nvm_wait, NVM.nvm_wait_v3.
  assert (Hreg : forall reg (s : St),
            (forall k, (k < fuel)%nat -> busy_at wire (clock s + k)) ->
            NVM.poll wire reg fuel s = None).
  { intros reg. induction fuel as [|fuel IH]; intros s Hbusy; [reflexivity|].
    simpl. unfold NVM.ld8, NVM.transact, bind, ret, modify. simpl.
    assert (Hfirst : busy_at wire (clock s)).
    { specialize (Hbusy 0%nat ltac:(lia)). rewrite Nat.add_0_r in Hbusy.
      exact Hbusy. }
    unfold busy_at in Hfirst. apply Z.eqb_neq in Hfirst. rewrite Hfirst.
    unfold NVM.delay_50us, emit, modify. simpl.
    apply IH. intros k Hk. simpl.
    replace (S (clock s + k)) with (clock s + S k)%nat by lia.
    apply Hbusy. lia. }
  intros s Hbusy. split; apply Hreg; assumption.
Qed.

Lemma nvm_wait_no_timeout_witness :
  NVM.nvm_wait sample_header (fun _ => reply_ok 1) 1000
    (initial 8 0 64 (cells [])) = None.
Proof.
  destruct (nvm_wait_no_timeout sample_header (fun _ => reply_ok 1) 1000
              (initial 8 0 64 (cells []))) as [H _].
  - intros k _. vm_compute. discriminate.
  - exact H.
Defined.

(** ** Command arbiter behind a wait *)

Lemma nvm_ctrl_change_shape (hd : Header) (wire : nat -> Reply) (op : Z)
  (s s' : St) (b : bool) :
  NVM.nvm_ctrl_change hd wire op s = Some (b, s') ->
  exists r0 rest,
    trace s' = trace s ++ Wire (CLd8 (NVMCTRL_REG_CTRLA hd)) r0 :: rest
    /\ calls rest = stores rest
    /\ prefix_of (stores rest) (arbitration hd (u8 (val r0)) op)
    /\ (b = true -> stores rest = arbitration hd (u8 (val r0)) op).
Proof.
  unfold NVM.nvm_ctrl_change, NVM.nvm_ctrl, NVM.ld8, NVM.st8, NVM.transact,
    bind, ret, modify.
  set (r0 := wire (clock s)). unfold arbitration, ctrl.
  destruct (u8 (val r0) =? u8 op) eqn:Hsame; simpl.
  - intros H. inversion H; subst; clear H. exists r0, []. simpl.
    rewrite Hsame. split; [reflexivity|]. split; [reflexivity|].
    split; [apply prefix_of_refl | reflexivity].
  - set (r1 := wire (S (clock s))).
    destruct (ok r1) eqn:Hok1; simpl.
    + destruct (NVM_CMD_NOCMD hd =? u8 op) eqn:Hno; simpl.
      * intros H. inversion H; subst; clear H.
        exists r0,
          [Wire (CSt8 (NVMCTRL_REG_CTRLA hd) (u8 (NVM_CMD_NOCMD hd))) r1].
        rewrite Hsame. split; [trace_eq|]. split; [reflexivity|].
        split; [apply prefix_of_refl | reflexivity].
      * intros H. inversion H; subst; clear H.
        exists r0,
          [Wire (CSt8 (NVMCTRL_REG_CTRLA hd) (u8 (NVM_CMD_NOCMD hd))) r1;
           Wire (CSt8 (NVMCTRL_REG_CTRLA hd) (u8 op)) (wire (S (S (clock s))))].
        rewrite Hsame, u8_idem. split; [trace_eq|]. split; [reflexivity|].
        split; [apply prefix_of_refl | reflexivity].
    + intros H. inversion H; subst; clear H.
      exists r0,
        [Wire (CSt8 (NVMCTRL_REG_CTRLA hd) (u8 (NVM_CMD_NOCMD hd))) r1].
      rewrite Hsame. split; [trace_eq|]. split; [reflexivity|].
      split; [eexists; reflexivity | discriminate].
Qed.

(** X3.  [nvm_ctrl_v2] and [nvm_ctrl_v3] touch the control register only
    after the status register of their generation has been read idle: a
    run that returns has polled that status register, its last status byte
    having the two low bits clear, then read the control register once,
    and after that only issued the stores of the arbitration decided by
    the byte read.  Both return on a target that ends its waits. *)
Theorem nvm_ctrl_after_idle (hd : Header) (wire : nat -> Reply) (fuel : nat)
  (op : Z) (s : St) :
  (forall s' b,
     NVM.nvm_ctrl_v2 hd wire fuel op s = Some (b, s') ->
     waited_then_arbitrated hd (NVMCTRL_REG_STATUS hd) op s s' b)
  /\ (forall s' b,
        NVM.nvm_ctrl_v3 hd wire fuel op s = Some (b, s') ->
        waited_then_arbitrated hd (NVMCTRL_V3_REG_STATUS hd) op s s' b)
  /\ (idle_within wire fuel ->
      (exists b s', NVM.nvm_ctrl_v2 hd wire fuel op s = Some (b, s'))
      /\ (exists b s', NVM.nvm_ctrl_v3 hd wire fuel op s = Some (b, s'))).
Proof.
  split; [|split].
  - intros s' b H. unfold NVM.nvm_ctrl_v2, NVM.nvm_wait in H.
    apply bind_inv in H as (v & s1 & Hw & H).
    apply poll_inv in Hw as (w & Ht1 & _ & Hp & Hl & Hv).
    apply nvm_ctrl_change_shape in H as (r0 & rest & Ht2 & Hc & Hpre & Hfull).
    exists w, v, r0, rest.
    split; [rewrite Ht2, Ht1, <- app_assoc; reflexivity|]. auto 10.
  - intros s' b H. unfold NVM.nvm_ctrl_v3, NVM.nvm_wait_v3 in H.
    apply bind_inv in H as (v & s1 & Hw & H).
    apply poll_inv in Hw as (w & Ht1 & _ & Hp & Hl & Hv).
    apply nvm_ctrl_change_shape in H as (r0 & rest & Ht2 & Hc & Hpre & Hfull).
    exists w, v, r0, rest.
    split; [rewrite Ht2, Ht1, <- app_assoc; reflexivity|]. auto 10.
  - intros Hidle. split.
    + assert (Hr : returns (NVM.nvm_ctrl_v2 hd wire fuel op)).
      { unfold NVM.nvm_ctrl_v2, NVM.nvm_wait. returns_steps. }
      apply Hr.
    + assert (Hr : returns (NVM.nvm_ctrl_v3 hd wire fuel op)).
      { unfold NVM.nvm_ctrl_v3, NVM.nvm_wait_v3. returns_steps. }
      apply Hr.
Qed.

Lemma nvm_ctrl_after_idle_witness :
  exists b s',
    NVM.nvm_ctrl_v3 sample_header
      (scripted [reply_ok 1; reply_ok 0; reply_ok 4]) 2 8
      (initial 8 4 64 (cells [])) = Some (b, s')
    /\ b = true
    /\ calls (trace s')
       = [CLd8 0x1006; CLd8 0x1006; CLd8 0x1000; CSt8 0x1000 0; CSt8 0x1000 8].
Proof.
  destruct (nvm_ctrl_after_idle sample_header
              (scripted [reply_ok 1; reply_ok 0; reply_ok 4]) 2 8
              (initial 8 4 64 (cells []))) as (_ & _ & Hret).
  destruct Hret as [_ (b & s' & Hrun)].
  - intros i. destruct i as [|[|[|i]]].
    + exists 1%nat. split; [lia|reflexivity].
    + exists 0%nat. split; [lia|reflexivity].
    + exists 0%nat. split; [lia|reflexivity].
    + exists 0%nat. split; [lia|]. rewrite Nat.add_0_r.
      unfold scripted. simpl. destruct i; reflexivity.
  - exists b, s'. split; [exact Hrun|].
    vm_compute in Hrun. inversion Hrun; subst. split; reflexivity.
Defined.

(** ** EEPROM writers within their ceiling *)

Lemma on_the_wire_responses (evs : list Event) :
  Forall on_the_wire evs -> responses evs = [].
Proof.
  induction 1 as [|e evs He _ IH]; simpl; [reflexivity|].
  destruct e; simpl in *; tauto.
Qed.

Lemma on_the_wire_iterations (l : Loop) (evs : list Event) :
  Forall on_the_wire evs -> iterations l evs = [].
Proof.
  induction 1 as [|e evs He _ IH]; simpl; [reflexivity|].
  destruct e; simpl in *; tauto.
Qed.

Lemma on_the_wire_poll (wire : nat -> Reply) (reg : Z) (fuel : nat) :
  logs_only on_the_wire (NVM.poll wire reg fuel).
Proof.
  induction fuel as [|fuel IH]; simpl; [apply logs_only_spinning|].
  unfold NVM.ld8, NVM.delay_50us.
  repeat first
    [ apply logs_only_bind; [|intros ?]
    | apply logs_only_if
    | apply logs_only_ret | apply logs_only_gets
    | apply logs_only_modify; reflexivity
    | apply logs_only_emit; exact I
    | apply logs_only_transact; intros; exact I
    | exact IH ].
Qed.

(** Walks through a computation that only talks to the target. *)
Ltac wire_steps :=
  repeat first
    [ apply logs_only_bind; [|intros ?]
    | apply logs_only_if
    | apply logs_only_ret | apply logs_only_gets
    | apply logs_only_modify; reflexivity
    | apply logs_only_transact; intros; exact I
    | apply on_the_wire_poll ].

Lemma on_the_wire_nvm_ctrl_change (hd : Header) (wire : nat -> Reply)
  (op : Z) :
  logs_only on_the_wire (NVM.nvm_ctrl_change hd wire op).
Proof.
  unfold NVM.nvm_ctrl_change, NVM.nvm_ctrl, NVM.st8, NVM.ld8. wire_steps.
Qed.

Lemma on_the_wire_write_flash (hd : Header) (wire : nat -> Reply)
  (g : Generation) (fuel : nat) (start_addr data n : Z) (is_bound : bool) :
  logs_only on_the_wire
    (write_flash hd wire g fuel start_addr data n is_bound).
Proof.
  destruct g; simpl;
    unfold NVM.write_flash_v0, NVM.write_flash_v2, NVM.write_flash_v3,
      NVM.nvm_ctrl_v2, NVM.nvm_wait, NVM.nvm_wait_v3, NVM.nvm_ctrl,
      NVM.st8, NVM.sts8rsd, NVM.sts16rsd, NVM.deref, NVM.block;
    repeat first [ apply on_the_wire_nvm_ctrl_change | progress wire_steps ].
Qed.

Lemma on_the_wire_write_fuse (hd : Header) (wire : nat -> Reply)
  (fuel : nat) (addr data : Z) :
  logs_only on_the_wire (NVM.write_fuse hd wire fuel addr data).
Proof.
  unfold NVM.write_fuse, NVM.nvm_wait, NVM.sts8, NVM.nvm_ctrl, NVM.st8.
  wire_steps.
Qed.

Lemma new_events_unique (s s' : St) (a b : list Event) :
  trace s' = trace s ++ a -> trace s' = trace s ++ b -> a = b.
Proof. intros Ha Hb. rewrite Ha in Hb. apply app_inv_head in Hb. exact Hb. Qed.

Lemma eeprom_load_inv (wire : nat -> Reply) (g : Generation)
  (start_addr data n : Z) (s s' : St) (b : bool) :
  (if n =? 1 then v <- NVM.deref data ;; NVM.st8 wire start_addr v
   else
     match g with
     | Gen0 => bs <- NVM.block data n ;; NVM.sts8rsd wire start_addr bs n
     | _ => bs <- NVM.block data n ;; NVM.sts8 wire start_addr bs n
     end) s = Some (b, s') ->
  exists r,
    trace s' = trace s ++ [Wire (eeprom_load g start_addr data n s) r]
    /\ frame s s'.
Proof.
  unfold eeprom_load, NVM.deref, NVM.block, NVM.st8, NVM.sts8rsd,
    NVM.sts8, NVM.transact, bind, gets, ret.
  destruct (n =? 1).
  - intros H. inversion H; subst; clear H. eexists.
    split; [reflexivity|frame_solve].
  - destruct g; intros H; inversion H; subst; clear H; eexists;
      (split; [reflexivity|frame_solve]).
Qed.

Lemma eeprom_load_frame (g : Generation) (start_addr data n : Z) (s s1 : St) :
  frame s s1 ->
  eeprom_load g start_addr data n s1 = eeprom_load g start_addr data n s.
Proof.
  intros (_ & _ & _ & Hb & _). unfold eeprom_load. rewrite Hb. reflexivity.
Qed.

Lemma eeprom_load_is_store (g : Generation) (start_addr data n : Z) (s : St) :
  is_store (eeprom_load g start_addr data n s) = true.
Proof.
  unfold eeprom_load. destruct (n =? 1); [reflexivity|].
  destruct g; reflexivity.
Qed.

Arguments eeprom_load : simpl never.

Lemma writes_wire (c : Call) (r : Reply) :
  is_store c = true -> writes [Wire c r] = [(c, ok r)].
Proof. intros H. simpl. rewrite H. reflexivity. Qed.

Lemma stores_length (evs : list Event) :
  length (stores evs) = length (writes evs).
Proof. unfold stores. apply length_map. Qed.

Lemma prefix_of_length {A} (a b : list A) :
  prefix_of a b -> (length a <= length b)%nat.
Proof. intros [t ->]. rewrite length_app. lia. Qed.

(** Between acknowledged stores, only the store in the middle can have
    failed. *)
Lemma failed_middle (ws1 ws2 : list (Call * bool)) (w : Call * bool)
  (i : nat) (c : Call) :
  Forall (fun x => snd x = true) ws1 ->
  Forall (fun x => snd x = true) ws2 ->
  nth_error (ws1 ++ w :: ws2) i = Some (c, false) ->
  i = length ws1.
Proof.
  intros H1 H2 Hi.
  destruct (lt_eq_lt_dec i (length ws1)) as [[Hlt|Heq]|Hgt]; [|exact Heq|].
  - rewrite nth_error_app1 in Hi by assumption.
    apply nth_error_In in Hi. rewrite Forall_forall in H1.
    apply H1 in Hi. discriminate Hi.
  - rewrite nth_error_app2 in Hi by lia.
    destruct (i - length ws1)%nat as [|j] eqn:Hj; [lia|].
    simpl in Hi. apply nth_error_In in Hi. rewrite Forall_forall in H2.
    apply H2 in Hi. discriminate Hi.
Qed.

Lemma failed_last (pre : list (Call * bool)) (c : Call) :
  nth_error (pre ++ [(c, false)]) (length pre) = Some (c, false).
Proof. rewrite nth_error_app2, Nat.sub_diag by lia. reflexivity. Qed.

(** The arbiter looks at the outcome of each of its stores: they are all
    acknowledged when it returns true, and the last one failed when it
    returns false. *)
Lemma nvm_ctrl_change_acks (hd : Header) (wire : nat -> Reply) (op : Z)
  (s s' : St) (b : bool) :
  NVM.nvm_ctrl_change hd wire op s = Some (b, s') ->
  exists new c,
    trace s' = trace s ++ new /\ frame s s'
    /\ prefix_of (stores new) (arbitration hd c op)
    /\ (b = true -> stores new = arbitration hd c op)
    /\ (b = true -> Forall (fun x => snd x = true) (writes new))
    /\ (b = false -> exists pre c', writes new = pre ++ [(c', false)]).
Proof.
  unfold NVM.nvm_ctrl_change, NVM.nvm_ctrl, NVM.ld8, NVM.st8, NVM.transact,
    bind, ret, modify.
  set (r0 := wire (clock s)). unfold arbitration, ctrl.
  destruct (u8 (val r0) =? u8 op) eqn:Hsame; simpl.
  - intros H. inversion H; subst; clear H.
    exists [Wire (CLd8 (NVMCTRL_REG_CTRLA hd)) r0], (u8 (val r0)).
    rewrite Hsame. split; [reflexivity|]. split; [frame_solve|].
    split; [apply prefix_of_refl|]. split; [reflexivity|].
    split; [intros _; constructor | discriminate].
  - set (r1 := wire (S (clock s))).
    destruct (ok r1) eqn:Hok1; simpl.
    + destruct (NVM_CMD_NOCMD hd =? u8 op) eqn:Hno; simpl.
      * intros H. inversion H; subst; clear H.
        exists [Wire (CLd8 (NVMCTRL_REG_CTRLA hd)) r0;
                Wire (CSt8 (NVMCTRL_REG_CTRLA hd) (u8 (NVM_CMD_NOCMD hd))) r1],
          (u8 (val r0)).
        rewrite Hsame. split; [trace_eq|]. split; [frame_solve|].
        split; [apply prefix_of_refl|]. split; [reflexivity|].
        split; [|discriminate].
        intros _. simpl. rewrite Hok1. repeat constructor.
      * set (r2 := wire (S (S (clock s)))).
        intros H. inversion H; subst; clear H.
        exists [Wire (CLd8 (NVMCTRL_REG_CTRLA hd)) r0;
                Wire (CSt8 (NVMCTRL_REG_CTRLA hd) (u8 (NVM_CMD_NOCMD hd))) r1;
                Wire (CSt8 (NVMCTRL_REG_CTRLA hd) (u8 op)) r2],
          (u8 (val r0)).
        rewrite Hsame, u8_idem. split; [trace_eq|].
        split; [frame_solve|].
        split; [apply prefix_of_refl|]. split; [reflexivity|].
        simpl. rewrite Hok1. split.
        -- intros Hr. rewrite Hr. repeat constructor.
        -- intros Hr. rewrite Hr.
           exists [(CSt8 (NVMCTRL_REG_CTRLA hd) (u8 (NVM_CMD_NOCMD hd)), true)],
             (CSt8 (NVMCTRL_REG_CTRLA hd) (u8 op)).
           reflexivity.
    + intros H. inversion H; subst; clear H.
      exists [Wire (CLd8 (NVMCTRL_REG_CTRLA hd)) r0;
              Wire (CSt8 (NVMCTRL_REG_CTRLA hd) (u8 (NVM_CMD_NOCMD hd))) r1],
        (u8 (val r0)).
      rewrite Hsame. split; [trace_eq|]. split; [frame_solve|].
      split; [eexists; reflexivity|]. split; [discriminate|].
      split; [discriminate|].
      intros _. simpl. rewrite Hok1.
      exists [], (CSt8 (NVMCTRL_REG_CTRLA hd) (u8 (NVM_CMD_NOCMD hd))).
      reflexivity.
Qed.

Lemma nvm_ctrl_v2_acks (hd : Header) (wire : nat -> Reply) (fuel : nat)
  (op : Z) (s s' : St) (b : bool) :
  NVM.nvm_ctrl_v2 hd wire fuel op s = Some (b, s') ->
  exists new c,
    trace s' = trace s ++ new /\ frame s s'
    /\ prefix_of (stores new) (arbitration hd c op)
    /\ (b = true -> stores new = arbitration hd c op)
    /\ (b = true -> Forall (fun x => snd x = true) (writes new))
    /\ (b = false -> exists pre c', writes new = pre ++ [(c', false)]).
Proof.
  unfold NVM.nvm_ctrl_v2, NVM.nvm_wait. intros H.
  apply bind_inv in H as (v & s1 & Hw & H).
  apply poll_inv in Hw as (n1 & Ht1 & Hf1 & Hp1 & _).
  apply nvm_ctrl_change_acks in H
    as (n2 & c & Ht2 & Hf2 & Hpre & Hfull & Hack & Hfail).
  exists (n1 ++ n2), c.
  split; [rewrite Ht2, Ht1, app_assoc; reflexivity|].
  split; [eapply frame_trans; eassumption|].
  rewrite stores_app, (polls_stores _ _ Hp1), writes_app,
    (polls_writes _ _ Hp1).
  auto.
Qed.

(** What a call of an EEPROM writer that returns has done: its stores
    against the plan, and which of them it has looked at.  A store that
    failed without ending the call can only be the data load; a call that
    returns false ends on a failed store that is not the data load. *)
Lemma write_eeprom_inv (hd : Header) (wire : nat -> Reply) (g : Generation)
  (fuel : nat) (start_addr data n : Z) (s s' : St) (r : bool) :
  n <= eeprom_ceiling g ->
  write_eeprom hd wire g fuel start_addr data n s = Some (r, s') ->
  exists new c1 c2,
    trace s' = trace s ++ new
    /\ prefix_of (stores new)
         (eeprom_plan hd g (eeprom_load g start_addr data n s) c1 c2)
    /\ (r = true ->
        stores new
        = eeprom_plan hd g (eeprom_load g start_addr data n s) c1 c2)
    /\ (r = true ->
        forall i, failed_at new i -> i = load_position hd g c1)
    /\ (r = false ->
        exists i, S i = length (writes new) /\ failed_at new i
                  /\ i <> load_position hd g c1).
Proof.
  intros Hn.
  destruct g; simpl in Hn; simpl;
    [unfold NVM.write_eeprom_v0 | unfold NVM.write_eeprom_v2
    | unfold NVM.write_eeprom_v3];
    match goal with
    | |- context [?c <? n] =>
        replace (c <? n) with false by (symmetry; apply Z.ltb_ge; lia)
    end; intros H.
  - unfold NVM.nvm_wait in H. next_poll H n0.
    apply bind_inv in H as (b & s1 & Hl & H).
    apply (eeprom_load_inv _ Gen0) in Hl as (r3 & Ht3 & Hf3).
    apply nvm_ctrl_inv in H as (r4 & Ht4 & Hf4 & ->).
    rewrite (eeprom_load_frame Gen0 _ _ _ s) in Ht3 by assumption.
    eexists (n0 ++ [_] ++ [_]), 0, 0.
    split; [chain_traces|].
    unfold failed_at.
    rewrite !stores_app, (polls_stores _ _ Hp),
      (stores_wire _ _ (eeprom_load_is_store _ _ _ _ _)), stores_ctrl.
    rewrite !writes_app, (polls_writes _ _ Hp),
      (writes_wire _ _ (eeprom_load_is_store _ _ _ _ _)).
    split; [apply prefix_of_refl|]. split; [reflexivity|].
    simpl. split.
    + intros Hr i (c & Hi). rewrite Hr in Hi.
      destruct i as [|[|[|i]]]; simpl in Hi;
        [reflexivity | discriminate Hi | discriminate Hi | discriminate Hi].
    + intros Hr. exists 1%nat. split; [reflexivity|].
      split; [|discriminate]. rewrite Hr. eexists. reflexivity.
  - apply bind_inv in H as (b1 & s1 & Hc & H).
    apply nvm_ctrl_v2_acks in Hc
      as (n0 & c1 & Ht0 & Hf0 & Hpre0 & Hfull0 & Hack0 & Hfail0).
    destruct b1; simpl in H.
    + apply bind_inv in H as (b & s2 & Hl & H).
      apply (eeprom_load_inv _ Gen2_4) in Hl as (r3 & Ht3 & Hf3).
      apply nvm_ctrl_v2_acks in H
        as (n4 & c2 & Ht4 & Hf4 & Hpre4 & Hfull4 & Hack4 & Hfail4).
      rewrite (eeprom_load_frame Gen2_4 _ _ _ s) in Ht3 by assumption.
      exists (n0 ++ [Wire (eeprom_load Gen2_4 start_addr data n s) r3] ++ n4),
        c1, c2.
      split; [chain_traces|].
      assert (Hpos : length (writes n0)
                     = length (arbitration hd c1 (NVM_V2_CMD_EEERWR hd)))
        by (rewrite <- stores_length, (Hfull0 eq_refl); reflexivity).
      unfold failed_at.
      rewrite !stores_app, (Hfull0 eq_refl),
        (stores_wire _ _ (eeprom_load_is_store _ _ _ _ _)).
      rewrite !writes_app,
        (writes_wire _ _ (eeprom_load_is_store _ _ _ _ _)).
      split; [apply prefix_of_app; simpl; apply prefix_of_cons; assumption|].
      split; [intros Hr; rewrite (Hfull4 Hr); reflexivity|].
      simpl. split.
      * intros Hr i (c & Hi). rewrite <- Hpos.
        eapply failed_middle; [apply Hack0; reflexivity|apply Hack4, Hr|].
        exact Hi.
      * intros Hr. destruct (Hfail4 Hr) as (pre & c' & Hw4).
        exists (length (writes n0 ++
                         (eeprom_load Gen2_4 start_addr data n s, ok r3)
                         :: pre)).
        rewrite Hw4.
        replace (writes n0
                 ++ (eeprom_load Gen2_4 start_addr data n s, ok r3)
                    :: pre ++ [(c', false)])
          with ((writes n0
                 ++ (eeprom_load Gen2_4 start_addr data n s, ok r3) :: pre)
                ++ [(c', false)])
          by (rewrite <- app_assoc; reflexivity).
        split; [rewrite (length_app _ [_]); simpl; lia|].
        split; [exists c'; apply failed_last|].
        rewrite length_app. simpl. lia.
    + inversion H; subst; clear H.
      exists n0, c1, 0. split; [assumption|].
      split; [apply prefix_of_weaken; assumption|].
      split; [discriminate|]. split; [discriminate|].
      intros _. destruct (Hfail0 eq_refl) as (pre & c' & Hw0).
      exists (length pre). unfold failed_at. rewrite Hw0.
      split; [rewrite length_app; simpl; lia|].
      split; [exists c'; apply failed_last|].
      apply prefix_of_length in Hpre0.
      rewrite stores_length, Hw0, length_app in Hpre0. simpl in Hpre0.
      simpl. lia.
  - apply bind_inv in H as (b & s1 & Hc & H).
    apply nvm_ctrl_inv in Hc as (r1 & Ht1 & Hf1 & ->).
    destruct (ok r1) eqn:Hok1; simpl in H.
    + apply bind_inv in H as (b & s2 & Hl & H).
      apply (eeprom_load_inv _ Gen3_5) in Hl as (r3 & Ht3 & Hf3).
      apply nvm_ctrl_inv in H as (r4 & Ht4 & Hf4 & ->).
      rewrite (eeprom_load_frame Gen3_5 _ _ _ s) in Ht3 by assumption.
      eexists ([_] ++ [_] ++ [_]), 0, 0.
      split; [chain_traces|].
      unfold failed_at.
      rewrite !stores_app, !stores_ctrl,
        (stores_wire _ _ (eeprom_load_is_store _ _ _ _ _)).
      rewrite !writes_app,
        (writes_wire _ _ (eeprom_load_is_store _ _ _ _ _)).
      split; [apply prefix_of_refl|]. split; [reflexivity|].
      simpl. rewrite Hok1. split.
      * intros Hr i (c & Hi). rewrite Hr in Hi.
        destruct i as [|[|[|i]]]; simpl in Hi;
          [discriminate Hi | reflexivity | discriminate Hi
          | destruct i; discriminate Hi].
      * intros Hr. exists 2%nat. split; [reflexivity|].
        split; [|discriminate]. rewrite Hr. eexists. reflexivity.
    + inversion H; subst; clear H.
      eexists [_], 0, 0. split; [eassumption|]. rewrite stores_ctrl.
      split; [eexists; reflexivity|]. split; [discriminate|].
      split; [discriminate|].
      intros _. exists 0%nat. unfold failed_at. simpl. rewrite Hok1.
      split; [reflexivity|]. split; [|discriminate].
      eexists. reflexivity.
Qed.

Lemma on_the_wire_write_eeprom (hd : Header) (wire : nat -> Reply)
  (g : Generation) (fuel : nat) (start_addr data n : Z) :
  n <= eeprom_ceiling g ->
  logs_only on_the_wire (write_eeprom hd wire g fuel start_addr data n).
Proof.
  intros Hn.
  destruct g; simpl in Hn; simpl;
    [unfold NVM.write_eeprom_v0 | unfold NVM.write_eeprom_v2
    | unfold NVM.write_eeprom_v3];
    match goal with
    | |- context [?c <? n] =>
        replace (c <? n) with false by (symmetry; apply Z.ltb_ge; lia)
    end;
    unfold NVM.nvm_ctrl_v2, NVM.nvm_wait, NVM.nvm_ctrl,
      NVM.st8, NVM.sts8, NVM.sts8rsd, NVM.deref, NVM.block;
    repeat first [ apply on_the_wire_nvm_ctrl_change | progress wire_steps ].
Qed.



(** ** Write dispatcher: the gates *)

(** X5.  Outside program mode every write other than the user-row write
    of a locked target returns false after [RSP_OK] has been set, without
    a transport call and without any test of the count or the memory
    type. *)
Theorem write_memory_needs_program_mode (hd : Header) (wire : nat -> Reply)
  (fuel : nat) (s : St) :
  bit_is_set (UPDI_CONTROL s) (UPDI_PROG_bp hd) = false ->
  userrow_case hd s = false ->
  exists s',
    NVM.write_memory hd wire fuel s = Some (false, s')
    /\ trace s' = trace s ++ [SetResponse (RSP_OK hd)]
    /\ clock s' = clock s.
Proof.
  intros Hprog Hrow. unfold userrow_case in Hrow.
  open_write_memory. rewrite Hrow.
  unfold bit_is_clear, bit_is_set in *. rewrite Hprog. simpl.
  eexists. split; [reflexivity|]. split; reflexivity.
Qed.

Lemma write_memory_needs_program_mode_witness :
  exists s',
    NVM.write_memory sample_header quiet_wire 0
      (initial 0 0 64
         (cells [0x04; 0x20; 0x01; 0x00; 0; 0; 0x00; 0x3F; 0x00; 0x00; 0x55]))
    = Some (false, s')
    /\ trace s' = [SetResponse 0x80].
Proof.
  destruct (write_memory_needs_program_mode sample_header quiet_wire 0
              (initial 0 0 64
                 (cells [0x04; 0x20; 0x01; 0x00; 0; 0; 0x00; 0x3F; 0x00;
                         0x00; 0x55])))
    as (s' & Hrun & Ht & _); [reflexivity|reflexivity|].
  exists s'. split; assumption.
Defined.

Lemma request_start_addr_override (hd : Header) (s : St) :
  Z.shiftr (NVM.dword_at (body s) (DATA_ADDRESS hd)) 24 <> 0 ->
  NVM.request_mem_type hd s = MTYPE_SRAM
  /\ NVM.request_start_addr hd s
     = Z.land (NVM.dword_at (body s) (DATA_ADDRESS hd)) 0xFFFF
  /\ 0 <= NVM.request_start_addr hd s < 65536.
Proof.
  intros Hhi. apply Z.eqb_neq in Hhi.
  unfold NVM.request_mem_type, NVM.request_start_addr. rewrite Hhi. simpl.
  split; [reflexivity|]. split; [reflexivity|].
  change 65535 with (Z.ones 16). rewrite Z.land_ones by lia.
  apply Z.mod_pos_bound. lia.
Qed.

(** X6.  In program mode a request whose address has a bit set in its top
    byte is written as an IO-area access, whatever its memory type and the
    generation: for a count from 1 to 256 the run is [RSP_OK] and one block
    store of the request's bytes to the address cut to 16 bits, and the
    result is the outcome of that store.  A request of the SRAM memory type
    is written the same way to its address as it stands. *)
Theorem write_memory_io_area (hd : Header) (wire : nat -> Reply)
  (fuel : nat) (s : St) :
  bit_is_set (UPDI_CONTROL s) (UPDI_PROG_bp hd) = true ->
  Z.shiftr (NVM.dword_at (body s) (DATA_ADDRESS hd)) 24 <> 0
  \/ NVM.request_mem_type hd s = MTYPE_SRAM ->
  1 <= NVM.request_byte_count hd s <= 256 ->
  exists s',
    NVM.write_memory hd wire fuel s = Some (ok (wire (clock s)), s')
    /\ trace s'
       = trace s
         ++ [SetResponse (RSP_OK hd);
             Wire (CSts8 (NVM.request_start_addr hd s)
                     (bytes_at (body (after_rsp_ok hd s)) (DATA_START hd)
                        (NVM.request_byte_count hd s))
                     (NVM.request_byte_count hd s))
               (wire (clock s))]
    /\ (Z.shiftr (NVM.dword_at (body s) (DATA_ADDRESS hd)) 24 <> 0 ->
        NVM.request_start_addr hd s
        = Z.land (NVM.dword_at (body s) (DATA_ADDRESS hd)) 0xFFFF
        /\ NVM.request_start_addr hd s < 65536).
Proof.
  intros Hprog Hio Hcount.
  assert (Hmem : NVM.request_mem_type hd s = MTYPE_SRAM).
  { destruct Hio as [Hhi|Hm]; [|assumption].
    apply request_start_addr_override. assumption. }
  open_write_memory. rewrite Hmem.
  unfold bit_is_clear, bit_is_set in *. rewrite Hprog.
  change (MTYPE_SRAM =? MTYPE_XMEGA_USERSIG) with false.
  rewrite andb_false_r.
  change (NVM.is_flash_type MTYPE_SRAM) with false.
  replace ((NVM.request_byte_count hd s =? 0)
           || (256 <? NVM.request_byte_count hd s)) with false
    by (symmetry; apply orb_false_iff; split;
        [apply Z.eqb_neq | apply Z.ltb_ge]; lia).
  change (MTYPE_SRAM =? MTYPE_SRAM) with true. simpl.
  unfold NVM.block, NVM.sts8, NVM.transact, bind, gets, ret. simpl.
  eexists. split; [reflexivity|]. split; [trace_eq|].
  intros Hhi. destruct (request_start_addr_override hd s Hhi) as (_ & Ha & Hb).
  split; [assumption|lia].
Qed.

(** A fuse-type request whose address has its top byte set. *)
Lemma write_memory_io_area_witness :
  exists s',
    NVM.write_memory sample_header quiet_wire 0
      (initial 8 0 64
         (cells [0x04; 0xB2; 0x02; 0x00; 0; 0; 0x34; 0x12; 0x00; 0x01;
                 0xAA; 0xBB]))
    = Some (true, s')
    /\ calls (trace s') = [CSts8 0x1234 [0xAA; 0xBB] 2].
Proof.
  destruct (write_memory_io_area sample_header quiet_wire 0
              (initial 8 0 64
                 (cells [0x04; 0xB2; 0x02; 0x00; 0; 0; 0x34; 0x12; 0x00;
                         0x01; 0xAA; 0xBB])))
    as (s' & Hrun & Ht & _).
  - reflexivity.
  - left. vm_compute. discriminate.
  - vm_compute. split; discriminate.
  - exists s'. split; [exact Hrun|]. rewrite Ht. reflexivity.
Defined.

(** X7.  In program mode a request that is not the user-row write of a
    target in info mode (info flag set and user-signature memory type,
    which goes to [write_userrow] whatever its count), that is not of a
    flash memory type and whose count is 0 or above 256 is answered with
    [RSP_OK] and then [RSP_ILLEGAL_MEMORY_RANGE], true, and no transport
    call; the count is tested before the second switch on the memory type,
    so this also holds for memory types the dispatcher does not know. *)
Theorem write_memory_count_out_of_range (hd : Header) (wire : nat -> Reply)
  (fuel : nat) (s : St) :
  bit_is_set (UPDI_CONTROL s) (UPDI_PROG_bp hd) = true ->
  userrow_case hd s = false ->
  NVM.is_flash_type (NVM.request_mem_type hd s) = false ->
  NVM.request_byte_count hd s = 0 \/ 256 < NVM.request_byte_count hd s ->
  exists s',
    NVM.write_memory hd wire fuel s = Some (true, s')
    /\ trace s'
       = trace s ++ [SetResponse (RSP_OK hd);
                     SetResponse (RSP_ILLEGAL_MEMORY_RANGE hd)]
    /\ clock s' = clock s.
Proof.
  intros Hprog Hrow Hflash Hcount. unfold userrow_case in Hrow.
  open_write_memory. rewrite Hrow, Hflash.
  unfold bit_is_clear, bit_is_set in *. rewrite Hprog.
  replace ((NVM.request_byte_count hd s =? 0)
           || (256 <? NVM.request_byte_count hd s)) with true
    by (symmetry; apply orb_true_iff; destruct Hcount as [H|H];
        [left; apply Z.eqb_eq | right; apply Z.ltb_lt]; assumption).
  simpl. eexists. split; [reflexivity|]. split; [trace_eq|reflexivity].
Qed.

Lemma write_memory_count_out_of_range_witness :
  exists s',
    NVM.write_memory sample_header quiet_wire 0
      (initial 8 0 64 (cells [0x04; 0x77; 0x00; 0x00; 0; 0; 0; 0x14; 0; 0]))
    = Some (true, s')
    /\ trace s' = [SetResponse 0x80; SetResponse 0xA5].
Proof.
  destruct (write_memory_count_out_of_range sample_header quiet_wire 0
              (initial 8 0 64
                 (cells [0x04; 0x77; 0x00; 0x00; 0; 0; 0; 0x14; 0; 0])))
    as (s' & Hrun & Ht & _);
    [reflexivity|reflexivity|reflexivity|left; reflexivity|].
  exists s'. split; assumption.
Defined.

(** X8.  In program mode a request with a count from 1 to 256 whose memory
    type is none of the flash, SRAM, fuse, lock-bit and EEPROM types is
    answered with [RSP_OK] and then [RSP_ILLEGAL_MEMORY_TYPE], true, and no
    transport call.  The user-signature type is among them when the info
    flag is clear: the user row is written only on a locked target. *)
Theorem write_memory_unknown_type (hd : Header) (wire : nat -> Reply)
  (fuel : nat) (s : St) :
  bit_is_set (UPDI_CONTROL s) (UPDI_PROG_bp hd) = true ->
  userrow_case hd s = false ->
  NVM.is_flash_type (NVM.request_mem_type hd s) = false ->
  is_plain_type (NVM.request_mem_type hd s) = false ->
  1 <= NVM.request_byte_count hd s <= 256 ->
  exists s',
    NVM.write_memory hd wire fuel s = Some (true, s')
    /\ trace s'
       = trace s ++ [SetResponse (RSP_OK hd);
                     SetResponse (RSP_ILLEGAL_MEMORY_TYPE hd)]
    /\ clock s' = clock s.
Proof.
  intros Hprog Hrow Hflash Hplain Hcount.
  unfold userrow_case in Hrow. unfold is_plain_type in Hplain.
  apply orb_false_iff in Hplain as [Hplain Heeprom].
  apply orb_false_iff in Hplain as [Hsram Hfuse].
  open_write_memory. rewrite Hrow, Hflash, Hsram, Hfuse, Heeprom.
  unfold bit_is_clear, bit_is_set in *. rewrite Hprog.
  replace ((NVM.request_byte_count hd s =? 0)
           || (256 <? NVM.request_byte_count hd s)) with false
    by (symmetry; apply orb_false_iff; split;
        [apply Z.eqb_neq | apply Z.ltb_ge]; lia).
  simpl. eexists. split; [reflexivity|]. split; [trace_eq|reflexivity].
Qed.

(** A user-row write to a target in program mode with the info flag
    clear. *)
Lemma write_memory_unknown_type_witness :
  exists s',
    NVM.write_memory sample_header quiet_wire 0
      (initial 8 0 64
         (cells [0x04; 0xC5; 0x20; 0x00; 0; 0; 0x00; 0x13; 0x00; 0x00]))
    = Some (true, s')
    /\ trace s' = [SetResponse 0x80; SetResponse 0xA4].
Proof.
  destruct (write_memory_unknown_type sample_header quiet_wire 0
              (initial 8 0 64
                 (cells [0x04; 0xC5; 0x20; 0x00; 0; 0; 0x00; 0x13; 0x00;
                         0x00])))
    as (s' & Hrun & Ht & _);
    [reflexivity|reflexivity|reflexivity|reflexivity
    |vm_compute; split; discriminate|].
  exists s'. split; assumption.
Defined.

(** ** Write dispatcher: the writers behind it *)

Lemma eeprom_type_facts (m : Z) :
  NVM.is_eeprom_type m = true ->
  (m =? MTYPE_XMEGA_USERSIG) = false /\ NVM.is_flash_type m = false
  /\ (m =? MTYPE_SRAM) = false /\ NVM.is_fuse_type m = false.
Proof.
  unfold NVM.is_eeprom_type. intros H.
  apply orb_prop in H as [H|H]; [apply orb_prop in H as [H|H]|];
    apply Z.eqb_eq in H; subst; repeat split; reflexivity.
Qed.

Lemma fuse_type_facts (m : Z) :
  NVM.is_fuse_type m = true ->
  (m =? MTYPE_XMEGA_USERSIG) = false /\ NVM.is_flash_type m = false
  /\ (m =? MTYPE_SRAM) = false.
Proof.
  unfold NVM.is_fuse_type. intros H.
  apply orb_prop in H as [H|H];
    apply Z.eqb_eq in H; subst; repeat split; reflexivity.
Qed.

Lemma write_eeprom_rejects (hd : Header) (wire : nat -> Reply)
  (g : Generation) (fuel : nat) (start_addr data n : Z) (s : St) :
  eeprom_ceiling g < n ->
  exists s',
    write_eeprom hd wire g fuel start_addr data n s = Some (true, s')
    /\ trace s' = trace s ++ [SetResponse (RSP_ILLEGAL_MEMORY_RANGE hd)]
    /\ clock s' = clock s.
Proof.
  intros Hover.
  destruct g; simpl in Hover; simpl;
    [unfold NVM.write_eeprom_v0 | unfold NVM.write_eeprom_v2
    | unfold NVM.write_eeprom_v3];
    match goal with
    | |- context [?c <? n] =>
        replace (c <? n) with true by (symmetry; apply Z.ltb_lt; lia)
    end;
    eexists; (split; [reflexivity|]); simpl; auto.
Qed.

(** In program mode a request of the EEPROM class with a count from 1 to
    256 is handed to the EEPROM writer of the generation. *)
Lemma write_memory_eeprom_dispatch (hd : Header) (wire : nat -> Reply)
  (fuel : nat) (s : St) :
  bit_is_set (UPDI_CONTROL s) (UPDI_PROG_bp hd) = true ->
  eeprom_class hd s = true ->
  1 <= NVM.request_byte_count hd s <= 256 ->
  NVM.write_memory hd wire fuel s
  = write_eeprom hd wire (generation_of hd (UPDI_NVMCTRL s)) fuel
      (NVM.request_start_addr hd s) (DATA_START hd)
      (NVM.request_byte_count hd s) (after_rsp_ok hd s).
Proof.
  intros Hprog Hclass Hcount. unfold eeprom_class in Hclass.
  open_write_memory.
  unfold bit_is_clear, bit_is_set in *. rewrite Hprog.
  replace ((NVM.request_byte_count hd s =? 0)
           || (256 <? NVM.request_byte_count hd s)) with false
    by (symmetry; apply orb_false_iff; split;
        [apply Z.eqb_neq | apply Z.ltb_ge]; lia).
  unfold generation_of, bit_is_set.
  apply orb_prop in Hclass as [He|Hf].
  - destruct (eeprom_type_facts _ He) as (Hu & Hfl & Hs & Hfu).
    rewrite Hu, Hfl, Hs, Hfu, He, andb_false_r. simpl.
    destruct (Z.testbit (UPDI_NVMCTRL s) (UPDI_GEN3_bp hd)); [reflexivity|].
    destruct (Z.testbit (UPDI_NVMCTRL s) (UPDI_GEN2_bp hd)); reflexivity.
  - apply andb_prop in Hf as [Hf Hgen].
    destruct (fuse_type_facts _ Hf) as (Hu & Hfl & Hs).
    rewrite Hu, Hfl, Hs, Hf, andb_false_r. simpl.
    destruct (Z.testbit (UPDI_NVMCTRL s) (UPDI_GEN3_bp hd)); [reflexivity|].
    destruct (Z.testbit (UPDI_NVMCTRL s) (UPDI_GEN2_bp hd));
      [reflexivity|discriminate Hgen].
Qed.

(** X9.  In program mode a write of the EEPROM class, which on the
    generations after Gen0 includes the fuse and lock-bit types, with a
    count from 1 to 256 that exceeds the ceiling of the generation is
    answered with [RSP_OK] and then [RSP_ILLEGAL_MEMORY_RANGE], true, and
    no transport call: the dispatcher does not split the request. *)
Theorem write_memory_eeprom_over_ceiling (hd : Header) (wire : nat -> Reply)
  (fuel : nat) (s : St) :
  bit_is_set (UPDI_CONTROL s) (UPDI_PROG_bp hd) = true ->
  eeprom_class hd s = true ->
  eeprom_ceiling (generation_of hd (UPDI_NVMCTRL s))
  < NVM.request_byte_count hd s <= 256 ->
  exists s',
    NVM.write_memory hd wire fuel s = Some (true, s')
    /\ trace s'
       = trace s ++ [SetResponse (RSP_OK hd);
                     SetResponse (RSP_ILLEGAL_MEMORY_RANGE hd)]
    /\ clock s' = clock s.
Proof.
  intros Hprog Hclass Hcount.
  assert (Hpos : 0 < eeprom_ceiling (generation_of hd (UPDI_NVMCTRL s)))
    by (destruct (generation_of hd (UPDI_NVMCTRL s)); simpl; lia).
  rewrite write_memory_eeprom_dispatch by (assumption || lia).
  destruct (write_eeprom_rejects hd wire
              (generation_of hd (UPDI_NVMCTRL s)) fuel
              (NVM.request_start_addr hd s) (DATA_START hd)
              (NVM.request_byte_count hd s) (after_rsp_ok hd s))
    as (s' & Hrun & Ht & Hc); [lia|].
  exists s'. split; [assumption|].
  split; [rewrite Ht; unfold after_rsp_ok; trace_eq | exact Hc].
Qed.

(** Three fuse bytes for a Gen2 target. *)
Lemma write_memory_eeprom_over_ceiling_witness :
  exists s',
    NVM.write_memory sample_header quiet_wire 0
      (initial 8 2 512
         (cells [0x04; 0xB2; 0x03; 0x00; 0; 0; 0x50; 0x10; 0x00; 0x00;
                 1; 2; 3]))
    = Some (true, s')
    /\ trace s' = [SetResponse 0x80; SetResponse 0xA5].
Proof.
  destruct (write_memory_eeprom_over_ceiling sample_header quiet_wire 0
              (initial 8 2 512
                 (cells [0x04; 0xB2; 0x03; 0x00; 0; 0; 0x50; 0x10; 0x00;
                         0x00; 1; 2; 3])))
    as (s' & Hrun & Ht & _);
    [reflexivity|reflexivity|vm_compute; split; [reflexivity|discriminate]|].
  exists s'. split; assumption.
Defined.

(** In program mode a request of a flash memory type whose count is the
    page size or 256 is handed to the flash writer of the generation, with
    the page boundary flag computed from the ERFM flag and the address. *)
Lemma write_memory_flash_dispatch (hd : Header) (wire : nat -> Reply)
  (fuel : nat) (s : St) :
  bit_is_set (UPDI_CONTROL s) (UPDI_PROG_bp hd) = true ->
  NVM.is_flash_type (NVM.request_mem_type hd s) = true ->
  NVM.request_byte_count hd s = flash_page_size s
  \/ NVM.request_byte_count hd s = 256 ->
  NVM.write_memory hd wire fuel s
  = write_flash hd wire (generation_of hd (UPDI_NVMCTRL s)) fuel
      (NVM.request_start_addr hd s) (DATA_START hd)
      (NVM.request_byte_count hd s) (request_is_bound hd s)
      (after_rsp_ok hd s).
Proof.
  intros Hprog Hflash Hcount.
  open_write_memory.
  rewrite (flash_type_not_usersig _ Hflash), andb_false_r, Hflash.
  unfold bit_is_clear, bit_is_set in *. rewrite Hprog.
  replace (negb (flash_page_size s =? NVM.request_byte_count hd s)
           && negb (256 =? NVM.request_byte_count hd s)) with false.
  2:{ symmetry. apply andb_false_iff.
      destruct Hcount as [H|H]; [left|right]; rewrite H, Z.eqb_refl;
        reflexivity. }
  unfold generation_of, request_is_bound, bit_is_clear, bit_is_set.
  cbv beta iota.
  destruct (Z.testbit (UPDI_NVMCTRL s) (UPDI_GEN3_bp hd)); [reflexivity|].
  destruct (Z.testbit (UPDI_NVMCTRL s) (UPDI_GEN2_bp hd)); reflexivity.
Qed.



Lemma flash_plan_no_erase (hd : Header) (g : Generation)
  (start_addr : Z) (load : Call) (c1 c2 c3 : Z) :
  erase_opcode_distinct hd g ->
  load <> erase_command hd g ->
  ~ In (erase_command hd g) (flash_plan hd g false start_addr load c1 c2 c3).
Proof.
  intros Hdistinct Hload Hin. unfold flash_plan in Hin. simpl in Hin.
  apply in_app_or in Hin as [Hin|Hin].
  - destruct g; simpl in Hin, Hdistinct.
    + contradiction.
    + destruct Hdistinct as (Hno & Hwr & _).
      apply arbitration_In in Hin as [Hin|Hin];
        apply ctrl_inj in Hin; congruence.
    + destruct Hdistinct as (Hclr & _).
      destruct Hin as [Hin|[]]. symmetry in Hin.
      apply ctrl_inj in Hin. congruence.
  - destruct Hin as [Hin|Hin]; [congruence|].
    destruct g; simpl in Hin, Hdistinct.
    + destruct Hin as [Hin|[]]. symmetry in Hin.
      apply ctrl_inj in Hin. congruence.
    + destruct Hdistinct as (Hno & _ & Hno2).
      apply arbitration_In in Hin as [Hin|Hin];
        apply ctrl_inj in Hin; congruence.
    + destruct Hdistinct as (_ & Hpw).
      destruct Hin as [Hin|[]]. symmetry in Hin.
      apply ctrl_inj in Hin. congruence.
Qed.

(** X11.  With the ERFM flag set, or at an address whose low 16 bits are
    not page aligned, a flash write through [write_memory] stores no erase
    command (PBC on Gen0, FLPER on the other generations), provided the
    erase opcode differs from the other opcodes of the writer.  The count
    is taken different from 1, so that the data load is a block store. *)
Theorem write_memory_flash_without_erase (hd : Header) (wire : nat -> Reply)
  (fuel : nat) (s s' : St) (r : bool) :
  bit_is_set (UPDI_CONTROL s) (UPDI_PROG_bp hd) = true ->
  NVM.is_flash_type (NVM.request_mem_type hd s) = true ->
  NVM.request_byte_count hd s = flash_page_size s
  \/ NVM.request_byte_count hd s = 256 ->
  NVM.request_byte_count hd s <> 1 ->
  bit_is_set (UPDI_CONTROL s) (UPDI_ERFM_bp hd) = true
  \/ Z.land (flash_page_size s - 1) (u16 (NVM.request_start_addr hd s)) <> 0 ->
  erase_opcode_distinct hd (generation_of hd (UPDI_NVMCTRL s)) ->
  NVM.write_memory hd wire fuel s = Some (r, s') ->
  exists new,
    trace s' = trace s ++ SetResponse (RSP_OK hd) :: new
    /\ ~ In (erase_command hd (generation_of hd (UPDI_NVMCTRL s)))
          (stores new).
Proof.
  intros Hprog Hflash Hcount Hone Hunbound Hdistinct Hrun.
  assert (Hbound : request_is_bound hd s = false).
  { unfold request_is_bound, bit_is_clear, bit_is_set in *.
    destruct Hunbound as [He|Ha]; [rewrite He; reflexivity|].
    apply Z.eqb_neq in Ha. rewrite Ha. apply andb_false_r. }
  rewrite (write_memory_flash_dispatch hd wire fuel s Hprog Hflash Hcount),
    Hbound in Hrun.
  apply write_flash_inv in Hrun
    as (new & c1 & c2 & c3 & Ht & Hpre & _).
  exists new. split; [rewrite Ht; unfold after_rsp_ok; trace_eq|].
  set (g := generation_of hd (UPDI_NVMCTRL s)) in *.
  set (load := data_load g _ _ _ _) in *.
  assert (Hblock : forall a v, load <> CSt8 a v).
  { intros a v. unfold load, data_load.
    apply Z.eqb_neq in Hone. rewrite Hone.
    destruct g; [| destruct (negb _) |]; discriminate. }
  intros Hin. apply (prefix_of_In _ _ _ Hpre) in Hin.
  revert Hin. apply flash_plan_no_erase; [assumption|].
  destruct g; apply Hblock.
Qed.

(** A page written with the ERFM flag set. *)
Lemma write_memory_flash_without_erase_witness :
  exists new,
    stores new
    = [CSts8rsd 0x8000 [0x0C; 0x94; 0x34; 0x00] 4; CSt8 0x1000 3]
    /\ ~ In (CSt8 0x1000 4) (stores new).
Proof.
  set (s0 := initial 24 0 4
               (cells [0x04; 0xB0; 0x04; 0x00; 0; 0; 0x00; 0x80; 0x00; 0x00;
                       0x0C; 0x94; 0x34; 0x00])).
  assert (Hrun : exists s',
    NVM.write_memory sample_header quiet_wire 1 s0 = Some (true, s')
    /\ stores (trace s')
       = [CSts8rsd 0x8000 [0x0C; 0x94; 0x34; 0x00] 4; CSt8 0x1000 3]).
  { eexists. split; [vm_compute; reflexivity|]. reflexivity. }
  destruct Hrun as (s' & Hrun & Hst).
  destruct (write_memory_flash_without_erase sample_header quiet_wire 1
              s0 s' true) as (new & Ht & Hno).
  - reflexivity.
  - reflexivity.
  - left. reflexivity.
  - intros H. discriminate H.
  - left. reflexivity.
  - intros H. discriminate H.
  - exact Hrun.
  - exists new. split; [|exact Hno].
    rewrite Ht in Hst. simpl in Hst. exact Hst.
Defined.



(** ** Fuse writes of Gen0 on a healthy target *)

Lemma low_bits_clear (x : Z) : Z.land x 7 = 0 -> Z.land x 3 = 0.
Proof.
  intros H. change 3 with (Z.land 7 3). rewrite Z.land_assoc, H.
  reflexivity.
Qed.

Lemma write_fuse_healthy (hd : Header) (wire : nat -> Reply) (fuel : nat)
  (addr data : Z) (s : St) :
  healthy wire -> (1 <= fuel)%nat ->
  exists s',
    NVM.write_fuse hd wire fuel addr data s = Some (true, s')
    /\ trace s'
       = trace s
         ++ [Wire (CLd8 (NVMCTRL_REG_STATUS hd)) (wire (clock s));
             Wire (CSts8 (NVMCTRL_REG_DATA hd) (NVM.fuse_packet addr data) 4)
               (wire (S (clock s)));
             Wire (ctrl hd (NVM_CMD_WFU hd)) (wire (S (S (clock s))));
             Wire (CLd8 (NVMCTRL_REG_STATUS hd)) (wire (S (S (S (clock s)))))]
    /\ frame s s'.
Proof.
  intros Hh Hfuel. destruct fuel as [|fuel]; [lia|].
  unfold NVM.write_fuse, NVM.nvm_wait, NVM.sts8, NVM.nvm_ctrl, NVM.st8.
  simpl. unfold NVM.ld8, NVM.transact, bind, ret, modify, gets. simpl.
  destruct (Hh (clock s)) as [_ H0].
  destruct (Hh (S (clock s))) as [H1 _].
  destruct (Hh (S (S (clock s)))) as [H2 _].
  destruct (Hh (S (S (S (clock s))))) as [_ H3].
  rewrite (low_bits_clear _ H0). simpl. rewrite H1. simpl.
  rewrite H2. simpl. rewrite (low_bits_clear _ H3). simpl.
  rewrite H3. simpl.
  eexists. split; [reflexivity|]. split; [trace_eq|frame_solve].
Qed.

Lemma fuse_loop_healthy (hd : Header) (wire : nat -> Reply) (wfuel : nat) :
  healthy wire -> (1 <= wfuel)%nat ->
  forall (k fuel : nat) (start_addr data : Z) (s : St),
    (1 <= k <= fuel)%nat -> Z.of_nat k < 65536 ->
    0 <= start_addr -> start_addr + Z.of_nat k <= 4294967296 ->
    exists s' new,
      NVM.fuse_loop hd wire fuel wfuel start_addr data (Z.of_nat k) s
      = Some (true, s')
      /\ trace s' = trace s ++ new
      /\ frame s s'
      /\ responses new = []
      /\ stores new = fuse_stores hd (body s) start_addr data k.
Proof.
  intros Hh Hw. induction k as [|k IH];
    intros fuel start_addr data s Hk Hsmall Ha Hb; [lia|].
  destruct fuel as [|fuel]; [lia|].
  cbn [NVM.fuse_loop]. unfold emit, modify, NVM.deref, gets.
  unfold bind at 1 2. cbn [fst snd].
  match goal with
  | |- context [bind (NVM.write_fuse hd wire wfuel ?a ?d) _ ?s0] =>
      destruct (write_fuse_healthy hd wire wfuel a d s0 Hh Hw)
        as (s1 & Hrun & Ht1 & Hf1)
  end.
  unfold bind. rewrite Hrun. cbn [negb].
  assert (Hfs : frame s s1)
    by (eapply frame_trans; [|exact Hf1]; frame_solve).
  assert (Hbody : body s1 = body s) by apply Hfs.
  simpl in Ht1.
  assert (Hdec : u16 (Z.of_nat (S k) - 1) = Z.of_nat k).
  { unfold u16. rewrite Z.mod_small; lia. }
  rewrite Hdec.
  destruct k as [|k].
  - simpl. eexists _, _. split; [reflexivity|].
    split; [rewrite Ht1; rewrite <- app_assoc; reflexivity|].
    split; [exact Hfs|].
    split; reflexivity.
  - replace (Z.of_nat (S k) =? 0) with false
      by (symmetry; apply Z.eqb_neq; lia).
    cbn [negb].
    assert (Hnext : u32 (start_addr + 1) = start_addr + 1).
    { unfold u32. rewrite Z.mod_small; lia. }
    rewrite Hnext.
    destruct (IH fuel (start_addr + 1) (data + 1) s1)
      as (s' & new & Hloop & Ht & Hf & Hresp & Hst); try lia.
    exists s'.
    exists ([Iter FuseBytes (Z.of_nat (S (S k)))]
            ++ [Wire (CLd8 (NVMCTRL_REG_STATUS hd)) (wire (clock s));
                Wire (CSts8 (NVMCTRL_REG_DATA hd)
                        (NVM.fuse_packet start_addr (peek (body s) data)) 4)
                  (wire (S (clock s)));
                Wire (ctrl hd (NVM_CMD_WFU hd)) (wire (S (S (clock s))));
                Wire (CLd8 (NVMCTRL_REG_STATUS hd))
                  (wire (S (S (S (clock s)))))]
            ++ new).
    split; [exact Hloop|].
    split; [rewrite Ht, Ht1; repeat rewrite <- app_assoc; reflexivity|].
    split; [eapply frame_trans; eassumption|].
    split; [simpl; exact Hresp|].
    rewrite Hbody in Hst.
    change (fuse_stores hd (body s) start_addr data (S (S k)))
      with (CSts8 (NVMCTRL_REG_DATA hd)
              (NVM.fuse_packet start_addr (peek (body s) data)) 4
            :: ctrl hd (NVM_CMD_WFU hd)
            :: fuse_stores hd (body s) (start_addr + 1) (data + 1) (S k)).
    rewrite <- Hst. reflexivity.
Qed.

(** X13.  On a healthy target, a fuse or lock-bit write of [n] bytes to a
    Gen0 target in program mode returns true, once the fuel covers the
    count, after having stored for each byte in turn the packed block, with
    the address going up by one from the address of the request and the
    data byte taken from the packet, followed by the WFU command; it calls
    [set_response] only for [RSP_OK]. *)
Theorem write_memory_fuse_bytes (hd : Header) (wire : nat -> Reply)
  (fuel : nat) (s : St) :
  healthy wire ->
  bit_is_set (UPDI_CONTROL s) (UPDI_PROG_bp hd) = true ->
  NVM.is_fuse_type (NVM.request_mem_type hd s) = true ->
  generation_of hd (UPDI_NVMCTRL s) = Gen0 ->
  1 <= NVM.request_byte_count hd s <= 256 ->
  (Z.to_nat (NVM.request_byte_count hd s) <= fuel)%nat ->
  exists s' new,
    NVM.write_memory hd wire fuel s = Some (true, s')
    /\ trace s' = trace s ++ SetResponse (RSP_OK hd) :: new
    /\ responses new = []
    /\ stores new
       = fuse_stores hd (body (after_rsp_ok hd s))
           (NVM.request_start_addr hd s) (DATA_START hd)
           (Z.to_nat (NVM.request_byte_count hd s)).
Proof.
  intros Hh Hprog Hfuse Hgen Hcount Hfuel.
  destruct (fuse_type_facts _ Hfuse) as (Hu & Hfl & Hs).
  assert (Hbits : bit_is_set (UPDI_NVMCTRL s) (UPDI_GEN3_bp hd) = false
                  /\ bit_is_set (UPDI_NVMCTRL s) (UPDI_GEN2_bp hd) = false).
  { unfold generation_of in Hgen.
    destruct (bit_is_set (UPDI_NVMCTRL s) (UPDI_GEN3_bp hd)); [discriminate|].
    destruct (bit_is_set (UPDI_NVMCTRL s) (UPDI_GEN2_bp hd));
      [discriminate|auto]. }
  destruct Hbits as [Hg3 Hg2].
  pose proof (request_start_addr_range hd s) as Haddr.
  destruct (fuse_loop_healthy hd wire fuel Hh ltac:(lia)
              (Z.to_nat (NVM.request_byte_count hd s)) fuel
              (NVM.request_start_addr hd s) (DATA_START hd)
              (after_rsp_ok hd s))
    as (s' & new & Hloop & Ht & _ & Hresp & Hst); try lia.
  rewrite Z2Nat.id in Hloop by lia.
  exists s', new.
  split.
  - open_write_memory. rewrite Hu, andb_false_r, Hfl, Hs, Hfuse.
    unfold bit_is_clear, bit_is_set in *. rewrite Hprog, Hg3, Hg2.
    replace ((NVM.request_byte_count hd s =? 0)
             || (256 <? NVM.request_byte_count hd s)) with false
      by (symmetry; apply orb_false_iff; split;
          [apply Z.eqb_neq | apply Z.ltb_ge]; lia).
    simpl. exact Hloop.
  - split; [rewrite Ht; unfold after_rsp_ok; trace_eq|]. auto.
Qed.

Lemma write_memory_fuse_bytes_witness :
  exists s',
    NVM.write_memory sample_header quiet_wire 2 fuse_request = Some (true, s')
    /\ stores (trace s')
       = [CSts8 0x1006 [0xC9; 0; 0x85; 0x12] 4; CSt8 0x1000 7;
          CSts8 0x1006 [0x3F; 0; 0x86; 0x12] 4; CSt8 0x1000 7].
Proof.
  destruct (write_memory_fuse_bytes sample_header quiet_wire 2 fuse_request)
    as (s' & new & Hrun & Ht & _ & Hst);
    [intros i; split; reflexivity|reflexivity|reflexivity|reflexivity
    |vm_compute; split; discriminate|simpl; lia|].
  exists s'. split; [exact Hrun|].
  vm_compute in Hrun. inversion Hrun; subst. reflexivity.
Defined.

(** ** Signature emulator, outside program mode and off the offset *)

Lemma peek_blit3 (m : Z -> Z) (a b c : Z) :
  map (peek (blit m 0 [a; b; c])) [0; 1; 2] = [u8 a; u8 b; u8 c].
Proof.
  unfold peek, blit. simpl.
  rewrite poke_same, (poke_other _ 2 1), poke_same by lia.
  rewrite (poke_other _ 2 0), (poke_other _ 1 0), poke_same by lia.
  rewrite !u8_idem. reflexivity.
Qed.

Lemma peek_blit3_first (m : Z -> Z) (a b c : Z) :
  peek (blit m 0 [a; b; c]) (u8 0) = u8 a.
Proof.
  change (u8 0) with 0.
  unfold peek, blit. simpl.
  rewrite (poke_other _ 2 0), (poke_other _ 1 0), poke_same by lia.
  apply u8_idem.
Qed.

Lemma u8_peek (m : Z -> Z) (i : Z) : u8 (peek m i) = peek m i.
Proof. unfold peek. apply u8_idem. Qed.

(** X14.  Outside program mode a signature read at the canonical offset
    makes no transport call: it records the offset, caches the made-up
    signature of the mode (info mode: [0x1E], series letter, NVMCTRL
    version; offline: three [0xFF]) and serves its first byte. *)
Theorem read_signature_dummy (hd : Header) (wire : nat -> Reply)
  (start_addr : Z) (s : St) :
  bit_is_set (UPDI_CONTROL s) (UPDI_PROG_bp hd) = false ->
  u16 start_addr = canonical_offset hd s ->
  exists s',
    NVM.read_signature hd wire start_addr s = Some (true, s')
    /\ trace s' = trace s
    /\ nvm_signature_offset s' = u16 start_addr
    /\ map (peek (signature s')) [0; 1; 2] = dummy_signature hd s
    /\ body s' (RSP_DATA hd) = nth 0 (dummy_signature hd s) 0.
Proof.
  intros Hprog Hcanon.
  unfold NVM.read_signature, bind, gets, modify, ret.
  unfold canonical_offset in Hcanon. rewrite <- Hcanon, Z.eqb_refl, Hprog.
  unfold dummy_signature.
  destruct (bit_is_set (UPDI_CONTROL s) (UPDI_INFO_bp hd));
    cbn [fst snd nvm_signature_offset set_nvm_signature_offset
         set_signature signature sib];
    rewrite Z.sub_diag; change (u8 0 <? 3) with true;
    cbn [fst snd nvm_signature_offset set_nvm_signature_offset
         set_signature set_body signature sib body trace];
    (eexists; split; [reflexivity|]; split; [reflexivity|];
     split; [reflexivity|]; split;
     [cbn [signature set_body set_signature]; rewrite peek_blit3
     |cbn [body set_body]; rewrite poke_same, peek_blit3_first, u8_idem;
      cbn [nth]]).
  - destruct (peek (sib s) 0 =? 32); rewrite !u8_peek; reflexivity.
  - reflexivity.
  - reflexivity.
  - reflexivity.
Qed.

Lemma read_signature_dummy_witness :
  exists s',
    NVM.read_signature sample_header quiet_wire 0x1100
      locked_signature_request = Some (true, s')
    /\ trace s' = []
    /\ map (peek (signature s')) [0; 1; 2] = [0x1E; 0x6D; 0x30].
Proof.
  destruct (read_signature_dummy sample_header quiet_wire 0x1100
              locked_signature_request)
    as (s' & Hrun & Ht & _ & Hsig & _); [reflexivity|reflexivity|].
  exists s'. split; [exact Hrun|]. split; [exact Ht|]. rewrite Hsig.
  reflexivity.
Defined.

(** X15.  A signature read at any other address makes no transport call
    and leaves the cache and the recorded offset as they are.  It returns
    true exactly when the distance from the recorded offset, taken as a
    byte, is below 3, and then serves that cell of the cache; otherwise
    the state is unchanged. *)
Theorem read_signature_window (hd : Header) (wire : nat -> Reply)
  (start_addr : Z) (s : St) :
  u16 start_addr <> canonical_offset hd s ->
  exists s',
    NVM.read_signature hd wire start_addr s
    = Some (u8 (u16 start_addr - nvm_signature_offset s) <? 3, s')
    /\ trace s' = trace s
    /\ signature s' = signature s
    /\ nvm_signature_offset s' = nvm_signature_offset s
    /\ (u8 (u16 start_addr - nvm_signature_offset s) < 3 ->
        body s' (RSP_DATA hd)
        = peek (signature s) (u8 (u16 start_addr - nvm_signature_offset s)))
    /\ (3 <= u8 (u16 start_addr - nvm_signature_offset s) -> s' = s).
Proof.
  intros Hoff. apply Z.eqb_neq in Hoff.
  unfold NVM.read_signature, bind, gets, modify, ret.
  unfold canonical_offset in Hoff. rewrite Hoff. simpl.
  destruct (u8 (u16 start_addr - nvm_signature_offset s) <? 3) eqn:Hidx.
  - eexists. split; [reflexivity|]. split; [reflexivity|].
    split; [reflexivity|]. split; [reflexivity|]. split.
    + intros _. simpl. rewrite poke_same. unfold peek. apply u8_idem.
    + intros H. apply Z.ltb_lt in Hidx. lia.
  - eexists. split; [reflexivity|]. split; [reflexivity|].
    split; [reflexivity|]. split; [reflexivity|]. split.
    + intros H. apply Z.ltb_ge in Hidx. lia.
    + reflexivity.
Qed.

Lemma read_signature_window_witness :
  exists s',
    NVM.read_signature sample_header quiet_wire 0x1201
      cached_signature_request = Some (true, s')
    /\ trace s' = []
    /\ body s' (RSP_DATA sample_header) = 0x95.
Proof.
  destruct (read_signature_window sample_header quiet_wire 0x1201
              cached_signature_request)
    as (s' & Hrun & Ht & _ & _ & Hbyte & _); [discriminate|].
  exists s'. split; [exact Hrun|]. split; [exact Ht|].
  rewrite Hbyte by (vm_compute; reflexivity). reflexivity.
Defined.

(** ** Memory reading core in program mode *)

(** X16.  In program mode a single-byte read that is no signature read, at
    an address whose low 16 bits are below 32 and whose bit 23 is clear,
    is answered from the cached SIB without a transport call: the cell of
    the SIB the low byte of the address designates. *)
Theorem read_memory_sib (hd : Header) (wire : nat -> Reply) (fuel : nat)
  (start_addr : Z) (s : St) :
  sib_read hd start_addr 1 s = true ->
  signature_read hd 1 s = false ->
  exists s',
    NVM.read_memory hd wire fuel start_addr 1 s = Some (true, s')
    /\ trace s' = trace s
    /\ size_word0 s' = 2
    /\ body s' (RSP_DATA hd) = peek (sib s) (u8 start_addr).
Proof.
  intros Hsib Hsig.
  unfold sib_read in Hsib. unfold signature_read, read_mem_type in Hsig.
  simpl in Hsib, Hsig.
  unfold NVM.read_memory. unfold bind at 1, modify at 1.
  simpl. unfold bind at 1, modify at 1.
  unfold bind at 1, gets at 1. unfold bind at 1, gets at 1.
  cbn [body UPDI_CONTROL set_size_word0 set_body].
  rewrite Hsig, Hsib. unfold bind, modify, ret.
  eexists. split; [reflexivity|]. split; [reflexivity|].
  split; [reflexivity|].
  simpl. rewrite poke_same. unfold peek. apply u8_idem.
Qed.

Lemma read_memory_sib_witness :
  exists s',
    NVM.read_memory sample_header quiet_wire 0 0x010004 1
      cached_signature_request = Some (true, s')
    /\ trace s' = []
    /\ body s' (RSP_DATA sample_header) = 0x41.
Proof.
  destruct (read_memory_sib sample_header quiet_wire 0 0x010004
              cached_signature_request)
    as (s' & Hrun & Ht & _ & Hbyte); [reflexivity|reflexivity|].
  exists s'. split; [exact Hrun|]. split; [exact Ht|].
  rewrite Hbyte. reflexivity.
Defined.

Lemma wide_count (n : Z) :
  1 <= n <= 512 -> negb (Z.shiftr (u16 (n - 1)) 8 =? 0) = (256 <? n).
Proof.
  intros Hn. unfold u16. rewrite Z.mod_small by lia.
  rewrite Z.shiftr_div_pow2 by lia. change (2 ^ 8) with 256.
  destruct (256 <? n) eqn:Hw.
  - apply Z.ltb_lt in Hw. apply negb_true_iff, Z.eqb_neq.
    intros H. apply Z.div_small_iff in H; lia.
  - apply Z.ltb_ge in Hw. apply negb_false_iff, Z.eqb_eq.
    apply Z.div_small. lia.
Qed.

(** X17.  In program mode an accepted read that is answered neither by
    the signature emulator nor from the SIB makes exactly one transport
    call, the 8-bit block load for counts up to 256 and the 16-bit one
    above, and returns what the transport returns.  The size word holds
    the count plus one and the bytes received lie in the response data. *)
Theorem read_memory_direct (hd : Header) (wire : nat -> Reply) (fuel : nat)
  (start_addr n : Z) (s : St) :
  bit_is_set (UPDI_CONTROL s) (UPDI_PROG_bp hd) = true ->
  read_accepted n ->
  signature_read hd n s = false ->
  sib_read hd start_addr n s = false ->
  exists s',
    NVM.read_memory hd wire fuel start_addr n s
    = Some (ok (wire (clock s)), s')
    /\ trace s'
       = trace s ++ [Wire (direct_load start_addr n) (wire (clock s))]
    /\ size_word0 s' = n + 1
    /\ body s'
       = blit (poke (body s) (MESSAGE_ID hd) (RSP_MEMORY hd)) (RSP_DATA hd)
           (firstn (Z.to_nat n) (payload (wire (clock s)))).
Proof.
  intros Hprog Hacc Hsig Hsib.
  assert (Hrange : 1 <= n <= 512) by (destruct Hacc as [?|[? _]]; lia).
  assert (Hsize : u16 (n + 1) = n + 1)
    by (unfold u16; apply Z.mod_small; lia).
  unfold sib_read in Hsib. unfold signature_read, read_mem_type in Hsig.
  unfold NVM.read_memory. unfold bind at 1, modify at 1.
  rewrite (read_guard_accepted _ Hacc).
  unfold bind at 1, modify at 1.
  rewrite (wide_count n Hrange), Hsize.
  assert (Hordinary :
    exists s',
      (control <- gets UPDI_CONTROL ;;
       if bit_is_clear control (UPDI_PROG_bp hd)
       then NVM.dummy_fill fuel (RSP_DATA hd) n
       else if 256 <? n
            then NVM.lds16 wire start_addr (NVM.ToBody (RSP_DATA hd)) n
            else NVM.lds8 wire start_addr (NVM.ToBody (RSP_DATA hd)) n)
        (set_size_word0 (n + 1)
           (set_body (poke (body s) (MESSAGE_ID hd) (RSP_MEMORY hd)) s))
      = Some (ok (wire (clock s)), s')
      /\ trace s'
         = trace s ++ [Wire (direct_load start_addr n) (wire (clock s))]
      /\ size_word0 s' = n + 1
      /\ body s'
         = blit (poke (body s) (MESSAGE_ID hd) (RSP_MEMORY hd)) (RSP_DATA hd)
             (firstn (Z.to_nat n) (payload (wire (clock s))))).
  { unfold bind at 1, gets at 1. cbn [UPDI_CONTROL set_size_word0 set_body].
    unfold bit_is_clear, bit_is_set in *. rewrite Hprog. cbn [negb].
    unfold direct_load, NVM.lds16, NVM.lds8, NVM.deliver, NVM.transact,
      bind, modify, gets, ret.
    destruct (256 <? n); simpl;
      (eexists; split; [reflexivity|]; split; [reflexivity|];
       split; reflexivity). }
  destruct (n =? 1) eqn:Hone; [|exact Hordinary].
  unfold bind at 1, gets at 1. unfold bind at 1, gets at 1.
  cbn [body UPDI_CONTROL set_size_word0 set_body].
  simpl in Hsig, Hsib. rewrite Hsig, Hsib. exact Hordinary.
Qed.

Lemma read_memory_direct_witness :
  exists s',
    NVM.read_memory sample_header four_bytes 0 0x8000 4
      (initial 8 0 64 (cells [0x05; 0xB0])) = Some (true, s')
    /\ calls (trace s') = [CLds8 0x8000 4]
    /\ map (body s') [1; 2; 3; 4] = [0x0C; 0x94; 0x3E; 0x00].
Proof.
  destruct (read_memory_direct sample_header four_bytes 0 0x8000 4
              (initial 8 0 64 (cells [0x05; 0xB0])))
    as (s' & Hrun & Ht & _ & Hbody);
    [reflexivity|left; lia|reflexivity|reflexivity|].
  exists s'. split; [exact Hrun|]. rewrite Ht, Hbody.
  split; reflexivity.
Defined.
